(** * Time clock and timecard engine of the warehouse backend

    A shallow embedding of the clock part of [DatabaseStorage]
    (server storage, "Clock System Implementation"): [clockAction],
    [getClockLogs], [getEmployeeTimeCard] and [exportAllHours], with the two
    tables they read and write, [clock_employees] and [clock_logs]
    (shared/schema.ts).

    Conventions.
    - A table is the list of its rows; [insert] appends a row.
    - [ORDER BY] is a stable sort of the selected rows.  PostgreSQL leaves the
      order of rows with equal keys open; the statements below that depend on
      it say so.
    - An [async] method is a state and error passing function over the
      database ([Promise]); a rejected promise carries the [Error] message.
    - Punch timestamps and durations are integers ([bigint] column read in
      [number] mode); they are taken in [Z], which is what the double
      precision arithmetic of the host computes below [2^53].  The pay, which
      leaves the integers, is computed in binary64 ([SpecFloat]).
    - A [Date] is its time value in milliseconds since the epoch; the
      [Invalid Date] object is not part of the model.
    - [pay_rate] is a [numeric(10,2)] column, handed over by the driver as
      decimal text; it is kept as the number of hundredths.

    After the clock part come the rest of the clock storage (employees
    created, updated and deleted), the shipments kept in memory, and the
    order lines with the stock they reserve. *)

From Stdlib Require Import ZArith List String Ascii Bool Lia.
From Stdlib Require Import Permutation Sorted SpecFloat DecimalString DecimalN.
Import ListNotations.

Local Open Scope string_scope.
Local Open Scope list_scope.
Local Open Scope Z_scope.

(** ** Host language: the parts of ECMAScript the methods rely on *)

Module Js.

(** *** Number: IEEE 754 binary64, round to nearest even *)

Definition number : Type := spec_float.
Definition prec : Z := 53.
Definition emax : Z := 1024.

(** The Number nearest to an integer (exact below [2^53]). *)
Definition ofZ (z : Z) : number := binary_normalize prec emax z 0 false.
Definition div (x y : number) : number := SFdiv prec emax x y.
Definition mul (x y : number) : number := SFmul prec emax x y.
Definition zero : number := S754_zero false.
(** [x < 0] and [0 <= x] as the host evaluates them (both false on NaN). *)
Definition negative (x : number) : bool := SFltb x zero.
Definition nonneg (x : number) : bool := SFleb zero x.

(** [parseFloat] of the text of a decimal with two fractional digits: the
    Number nearest to [hundredths / 100].  Both operands are exact and the
    division is correctly rounded. *)
Definition parseFloat2 (hundredths : Z) : number := div (ofZ hundredths) (ofZ 100).

(** *** Decimal text *)

Definition digits (n : Z) : string := NilZero.string_of_uint (N.to_uint (Z.to_N n)).

Fixpoint zeros (k : nat) : string :=
  match k with
  | O => EmptyString
  | S k' => String "0" (zeros k')
  end.

Definition padStart (width : nat) (s : string) : string :=
  String.append (zeros (width - String.length s)) s.

(** *** Number.prototype.toFixed(2)

    Step numbers are those of ECMA-262, 21.1.3.3. *)

(** Step 11.a for the magnitude [m * 2^e]: the integer [n] for which
    [n / 100 - x] is as close to zero as possible, the larger one of two. *)
Definition nearestHundredths (m : positive) (e : Z) : Z :=
  match e with
  | Zneg k => (200 * Zpos m + 2 ^ Zpos k) / 2 ^ (Zpos k + 1)
  | _ => 100 * (Zpos m * 2 ^ e)
  end.

(** Step 10: [x >= 10^21]. *)
Definition atLeast1e21 (m : positive) (e : Z) : bool :=
  match e with
  | Zneg k => 10 ^ 21 * 2 ^ Zpos k <=? Zpos m
  | _ => 10 ^ 21 <=? Zpos m * 2 ^ e
  end.

(** Steps 11.b and 11.c: the digits of [n], padded to three, with the
    point before the last two. *)
Definition fixed2 (n : Z) : string :=
  let m := padStart 3 (digits n) in
  let k := String.length m in
  String.append (substring 0 (k - 2) m) (String.append "." (substring (k - 2) 2 m)).

(** [x.toFixed(2)].  Beyond [10^21] the method hands over to
    Number::toString, whose shortest round-trip digits are not expanded
    here: that one branch is [None]. *)
Definition toFixed2 (x : number) : option string :=
  match x with
  | S754_nan => Some "NaN"
  | S754_infinity false => Some "Infinity"
  | S754_infinity true => Some "-Infinity"
  | S754_zero _ => Some "0.00"
  | S754_finite s m e =>
      if atLeast1e21 m e then None
      else Some (String.append (if s then "-" else "") (fixed2 (nearestHundredths m e)))
  end.

(** *** Date: the date part of [toISOString]

    ECMA-262, 21.4.1 (Day, YearFromTime, MonthFromTime, DateFromTime) and
    21.4.4.36; the proleptic Gregorian date of a day number is computed
    era by era (400 years, 146097 days), the year starting in March. *)

Definition msPerDay : Z := 86400000.
Definition Day (t : Z) : Z := t / msPerDay.

Definition civilFromDays (day : Z) : Z * Z * Z :=
  let z := day + 719468 in
  let era := z / 146097 in
  let doe := z mod 146097 in
  let yoe := (doe - doe / 1460 + doe / 36524 - doe / 146096) / 365 in
  let doy := doe - (365 * yoe + yoe / 4 - yoe / 100) in
  let mp := (5 * doy + 2) / 153 in
  let d := doy - (153 * mp + 2) / 5 + 1 in
  let m := if mp <? 10 then mp + 3 else mp - 9 in
  let y := yoe + era * 400 in
  (if m <=? 2 then y + 1 else y, m, d).

Definition yearText (y : Z) : string :=
  if (0 <=? y) && (y <=? 9999) then padStart 4 (digits y)
  else String.append (if y <? 0 then "-" else "+") (padStart 6 (digits (Z.abs y))).

Definition dateText (ymd : Z * Z * Z) : string :=
  let '(y, m, d) := ymd in
  String.append (yearText y)
    (String.append "-" (String.append (padStart 2 (digits m))
       (String.append "-" (padStart 2 (digits d))))).

(** [new Date(t).toISOString().split('T')[0]] *)
Definition toISODate (t : Z) : string := dateText (civilFromDays (Day t)).

(** *** Array.prototype.sort with a comparator: a stable sort *)

Section Sort.
Context {A : Type}.
Variable before : A -> A -> bool.

Fixpoint insertBy (x : A) (l : list A) : list A :=
  match l with
  | [] => [x]
  | y :: l' => if before x y then x :: l else y :: insertBy x l'
  end.

Definition sortBy (l : list A) : list A := fold_right insertBy [] l.
End Sort.

Definition sort {A : Type} (compareFn : A -> A -> Z) (l : list A) : list A :=
  sortBy (fun a b => compareFn a b <=? 0) l.

End Js.

(** ** The date of a time value, as ECMA-262 defines it

    21.4.1.3 to 21.4.1.12: DayFromYear, InLeapYear, and the first day of
    each month within the year, months counted from 1 as [toISOString]
    prints them. *)
Module Ecma.

Definition dayFromYear (y : Z) : Z :=
  365 * (y - 1970) + (y - 1969) / 4 - (y - 1901) / 100 + (y - 1601) / 400.

Definition inLeapYear (y : Z) : bool :=
  (y mod 4 =? 0) && (negb (y mod 100 =? 0) || (y mod 400 =? 0)).

(** The days of the year before month [m]; at [m = 13], the days of the
    year. *)
Definition daysBefore (y m : Z) : Z :=
  let leap := if inLeapYear y then 1 else 0 in
  match m with
  | 1 => 0
  | 2 => 31
  | 3 => 59 + leap
  | 4 => 90 + leap
  | 5 => 120 + leap
  | 6 => 151 + leap
  | 7 => 181 + leap
  | 8 => 212 + leap
  | 9 => 243 + leap
  | 10 => 273 + leap
  | 11 => 304 + leap
  | 12 => 334 + leap
  | _ => 365 + leap
  end.

(** Year [y], month [m] and day of the month [d] are the date of the day
    number [day]. *)
Definition isDate (day y m d : Z) : Prop :=
  dayFromYear y <= day < dayFromYear (y + 1)
  /\ 1 <= m <= 12
  /\ daysBefore y m <= day - dayFromYear y < daysBefore y (m + 1)
  /\ d = day - dayFromYear y - daysBefore y m + 1.

End Ecma.

(** ** Schema (shared/schema.ts, "Time Clock System Tables") *)

Module ClockEmployee.
(** A row of [clock_employees].  [status] is a nullable varchar; the
    database does not enforce the enumeration of the TypeScript type. *)
Record t : Type := mk {
  id : string;
  name : string;
  pin : option string;
  payRate : Z;
  status : option string;
  updatedAt : option Z
}.

(** [Partial<ClockEmployee>]: the columns an update sets. *)
Record partial : Type := mkPartial {
  set_name : option string;
  set_pin : option (option string);
  set_payRate : option Z;
  set_status : option (option string)
}.

Definition onlyStatus (s : string) : partial :=
  mkPartial None None None (Some (Some s)).

Definition orKeep {A : Type} (new : option A) (old : A) : A :=
  match new with
  | Some a => a
  | None => old
  end.

(** [{ ...updates, updatedAt }] applied to a row. *)
Definition assign (updates : partial) (now : Z) (e : t) : t :=
  mk (id e)
     (orKeep (set_name updates) (name e))
     (orKeep (set_pin updates) (pin e))
     (orKeep (set_payRate updates) (payRate e))
     (orKeep (set_status updates) (status e))
     (Some now).
End ClockEmployee.

Module ClockLog.
(** A row of [clock_logs]. *)
Record t : Type := mk {
  id : string;
  employeeId : string;
  type : string;
  timestamp : Z;
  deviceId : option string
}.
End ClockLog.

(** ** Storage *)

Record Db : Type := mkDb {
  clockEmployees : list ClockEmployee.t;
  clockLogs : list ClockLog.t
}.

Inductive Error : Type := mkError (message : string).

Definition Promise (A : Type) : Type := Db -> (Error + A) * Db.

Definition ret {A : Type} (a : A) : Promise A := fun db => (inr a, db).

Definition throw {A : Type} (e : Error) : Promise A := fun db => (inl e, db).

Definition bind {A B : Type} (p : Promise A) (k : A -> Promise B) : Promise B :=
  fun db =>
    match p db with
    | (inr a, db') => k a db'
    | (inl e, db') => (inl e, db')
    end.

Notation "x <- p ;; k" := (bind p (fun x => k))
  (at level 61, p at next level, right associativity).

Fixpoint forEach {A B : Type} (f : A -> Promise B) (l : list A) : Promise (list B) :=
  match l with
  | [] => ret []
  | a :: l' => b <- f a ;; bs <- forEach f l' ;; ret (b :: bs)
  end.

Definition NotFound : Error := mkError "Employee not found".
Definition InvalidState : Error := mkError "Invalid employee status".
Definition UpdateFailed : Error := mkError "Failed to update employee status".

(** What a call reads from outside the database: the clock at the update,
    the clock at the punch, and the identifier the database generates for
    the new row. *)
Record Env : Type := mkEnv {
  updateTime : Z;
  dateNow : Z;
  randomUuid : string
}.

Definition byTimestamp (a b : ClockLog.t) : bool :=
  ClockLog.timestamp a <=? ClockLog.timestamp b.

Definition byTimestampDesc (a b : ClockLog.t) : bool :=
  ClockLog.timestamp b <=? ClockLog.timestamp a.

Definition orderBy (l : list ClockLog.t) : list ClockLog.t := Js.sortBy byTimestamp l.
Definition orderByDesc (l : list ClockLog.t) : list ClockLog.t := Js.sortBy byTimestampDesc l.

Definition getClockEmployees : Promise (list ClockEmployee.t) :=
  fun db => (inr (clockEmployees db), db).

Definition hasId (id : string) (e : ClockEmployee.t) : bool :=
  String.eqb (ClockEmployee.id e) id.

Definition getClockEmployee (id : string) : Promise (option ClockEmployee.t) :=
  fun db => (inr (hd_error (filter (hasId id) (clockEmployees db))), db).

(** [pay_rate] is [numeric(10,2)]: eight digits before the point, so the
    hundredths stay below [10^10] in absolute value.  A value beyond that is
    refused with "numeric field overflow" when it is coerced to the column,
    which the database does as it plans the statement with its parameters,
    before any row is looked at. *)
Definition numeric10_2 (hundredths : Z) : bool := Z.abs hundredths <? 10 ^ 10.

Definition NumericOverflow : Error := mkError "numeric field overflow".

Definition payRateFits (updates : ClockEmployee.partial) : bool :=
  match ClockEmployee.set_payRate updates with
  | Some rate => numeric10_2 rate
  | None => true
  end.

Definition updateClockEmployee (id : string) (updates : ClockEmployee.partial) (now : Z)
  : Promise (option ClockEmployee.t) :=
  fun db =>
    if payRateFits updates then
      let set e := if hasId id e then ClockEmployee.assign updates now e else e in
      let returning := map (ClockEmployee.assign updates now)
                           (filter (hasId id) (clockEmployees db)) in
      (inr (hd_error returning), mkDb (map set (clockEmployees db)) (clockLogs db))
    else (inl NumericOverflow, db).

Definition ofEmployee (employeeId : string) (log : ClockLog.t) : bool :=
  String.eqb (ClockLog.employeeId log) employeeId.

(** [getClockLogs(employeeId?)]: the argument is tested for truthiness, so
    the empty string selects every row like [undefined] does. *)
Definition getClockLogs (employeeId : option string) : Promise (list ClockLog.t) :=
  fun db =>
    match employeeId with
    | Some (String c s) =>
        (inr (orderByDesc (filter (ofEmployee (String c s)) (clockLogs db))), db)
    | _ => (inr (orderByDesc (clockLogs db)), db)
    end.

Definition insertClockLog (employeeId type : string) (timestamp : Z) (uuid : string)
  : Promise ClockLog.t :=
  fun db =>
    let log := ClockLog.mk uuid employeeId type timestamp None in
    (inr log, mkDb (clockEmployees db) (clockLogs db ++ [log])).

(** ** The clock state machine: [clockAction] *)

Module ClockAction.
Record result : Type := mk {
  employee : ClockEmployee.t;
  status : string;
  log : ClockLog.t
}.
End ClockAction.

Definition statusIs (s : string) (e : ClockEmployee.t) : bool :=
  match ClockEmployee.status e with
  | Some x => String.eqb x s
  | None => false
  end.

(** [logs.filter(...).sort((a, b) => b.timestamp - a.timestamp)[0]] *)
Definition lastLog (employeeId : string) (logs : list ClockLog.t) : option ClockLog.t :=
  hd_error (Js.sort (fun a b => ClockLog.timestamp b - ClockLog.timestamp a)
                    (filter (ofEmployee employeeId) logs)).

Definition isLunchIn (l : option ClockLog.t) : bool :=
  match l with
  | Some log => String.eqb (ClockLog.type log) "lunch-in"
  | None => false
  end.

(** The [switch] on the status: new status, punch type, status message. *)
Definition decide (employeeId : string) (employee : ClockEmployee.t)
  : Promise (string * string * string) :=
  if statusIs "inactive" employee then ret ("working", "clock-in", "Clocked In")
  else if statusIs "working" employee then
    logs <- getClockLogs (Some employeeId) ;;
    if isLunchIn (lastLog employeeId logs)
    then ret ("inactive", "clock-out", "Clocked Out")
    else ret ("on-lunch", "lunch-out", "Started Lunch")
  else if statusIs "on-lunch" employee then ret ("working", "lunch-in", "Ended Lunch")
  else throw InvalidState.

Definition clockAction (employeeId : string) (env : Env) : Promise ClockAction.result :=
  found <- getClockEmployee employeeId ;;
  match found with
  | None => throw NotFound
  | Some employee =>
      next <- decide employeeId employee ;;
      let '(newStatus, logType, statusMessage) := next in
      updated <- updateClockEmployee employeeId (ClockEmployee.onlyStatus newStatus)
                   (updateTime env) ;;
      match updated with
      | None => throw UpdateFailed
      | Some updatedEmployee =>
          log <- insertClockLog employeeId logType (dateNow env) (randomUuid env) ;;
          ret (ClockAction.mk updatedEmployee statusMessage log)
      end
  end.

(** ** The timecard calculator: [getEmployeeTimeCard] *)

Module DayReport.
(** [{ logs, workingTime, lunchTime }] *)
Record t : Type := mk {
  logs : list ClockLog.t;
  workingTime : Z;
  lunchTime : Z
}.

Definition empty : t := mk [] 0 0.
Definition push (log : ClockLog.t) (d : t) : t :=
  mk (logs d ++ [log]) (workingTime d) (lunchTime d).
Definition setTimes (working lunch : Z) (d : t) : t :=
  mk (logs d) working lunch.
End DayReport.

(** [dailyReport]: a plain object keyed by the date text.  A date text has
    hyphens and so is never an array index: the keys are enumerated in
    insertion order, and the object is kept as an association list. *)
Definition DailyReport : Type := list (string * DayReport.t).

Fixpoint lookup (date : string) (r : DailyReport) : option DayReport.t :=
  match r with
  | [] => None
  | (k, d) :: r' => if String.eqb k date then Some d else lookup date r'
  end.

Fixpoint alter (f : DayReport.t -> DayReport.t) (date : string) (r : DailyReport)
  : DailyReport :=
  match r with
  | [] => []
  | (k, d) :: r' => if String.eqb k date then (k, f d) :: r' else (k, d) :: alter f date r'
  end.

Definition keys (r : DailyReport) : list string := map fst r.

(** The body of the first [forEach]: file the punch under its UTC date. *)
Definition addLog (r : DailyReport) (log : ClockLog.t) : DailyReport :=
  let date := Js.toISODate (ClockLog.timestamp log) in
  let r' := match lookup date r with
            | None => r ++ [(date, DayReport.empty)]
            | Some _ => r
            end in
  alter (DayReport.push log) date r'.

Definition groupByDate (logs : list ClockLog.t) : DailyReport :=
  fold_left addLog logs [].

Module DayLoop.
(** The locals of the loop over one day's punches; [null] is [None]. *)
Record t : Type := mk {
  workingTime : Z;
  lunchTime : Z;
  clockInTime : option Z;
  lunchOutTime : option Z
}.

Definition init : t := mk 0 0 None None.
End DayLoop.

(** [if (v)] on a value that is [null] or a number. *)
Definition truthy (v : option Z) : bool :=
  match v with
  | Some t => negb (t =? 0)
  | None => false
  end.

(** The number a cursor stands for in a subtraction. *)
Definition toNumber (v : option Z) : Z :=
  match v with
  | Some t => t
  | None => 0
  end.

(** The [switch] on the punch type inside the loop. *)
Definition punch (st : DayLoop.t) (log : ClockLog.t) : DayLoop.t :=
  let ts := ClockLog.timestamp log in
  let ty := ClockLog.type log in
  let '(DayLoop.mk workingTime lunchTime clockInTime lunchOutTime) := st in
  if String.eqb ty "clock-in" then
    DayLoop.mk workingTime lunchTime (Some ts) lunchOutTime
  else if String.eqb ty "lunch-out" then
    if truthy clockInTime
    then DayLoop.mk (workingTime + (ts - toNumber clockInTime)) lunchTime clockInTime (Some ts)
    else st
  else if String.eqb ty "lunch-in" then
    if truthy lunchOutTime
    then DayLoop.mk workingTime (lunchTime + (ts - toNumber lunchOutTime)) (Some ts) lunchOutTime
    else st
  else if String.eqb ty "clock-out" then
    if truthy clockInTime
    then DayLoop.mk (workingTime + (ts - toNumber clockInTime)) lunchTime clockInTime lunchOutTime
    else st
  else st.

Definition replay (dayLogs : list ClockLog.t) : DayLoop.t :=
  fold_left punch dayLogs DayLoop.init.

(** The body of the second [forEach], over [Object.keys(dailyReport)]; the
    running [totalWorkingTime] is threaded along with the object.  A key of
    the object is always found. *)
Definition processDay (acc : DailyReport * Z) (date : string) : DailyReport * Z :=
  let '(r, totalWorkingTime) := acc in
  match lookup date r with
  | Some day =>
      let st := replay (DayReport.logs day) in
      (alter (DayReport.setTimes (DayLoop.workingTime st) (DayLoop.lunchTime st)) date r,
       totalWorkingTime + DayLoop.workingTime st)
  | None => acc
  end.

Module TimeCard.
Record t : Type := mk {
  employee : ClockEmployee.t;
  dailyReport : DailyReport;
  totalWorkingTime : Z;
  totalPay : option string;
  startDate : string;
  endDate : string
}.
End TimeCard.

Definition inRange (employeeId : string) (startDate endDate : Z) (log : ClockLog.t) : bool :=
  ofEmployee employeeId log
  && (startDate <=? ClockLog.timestamp log)
  && (ClockLog.timestamp log <=? endDate).

Definition selectPunches (employeeId : string) (startDate endDate : Z)
  : Promise (list ClockLog.t) :=
  fun db => (inr (orderBy (filter (inRange employeeId startDate endDate) (clockLogs db))), db).

Definition msPerHour : Z := 1000 * 60 * 60.

(** [totalWorkingTime / (1000 * 60 * 60)] *)
Definition hours (totalWorkingTime : Z) : Js.number :=
  Js.div (Js.ofZ totalWorkingTime) (Js.ofZ msPerHour).

(** [(totalWorkingTime / (1000 * 60 * 60)) * parseFloat(employee.payRate)] *)
Definition pay (totalWorkingTime payRate : Z) : Js.number :=
  Js.mul (hours totalWorkingTime) (Js.parseFloat2 payRate).

Definition dayTotals (logs : list ClockLog.t) : DailyReport * Z :=
  let grouped := groupByDate logs in
  fold_left processDay (keys grouped) (grouped, 0).

Definition getEmployeeTimeCard (employeeId : string) (startDate endDate : Z)
  : Promise TimeCard.t :=
  found <- getClockEmployee employeeId ;;
  match found with
  | None => throw NotFound
  | Some employee =>
      logs <- selectPunches employeeId startDate endDate ;;
      let '(dailyReport, totalWorkingTime) := dayTotals logs in
      let totalPay := pay totalWorkingTime (ClockEmployee.payRate employee) in
      ret (TimeCard.mk employee dailyReport totalWorkingTime (Js.toFixed2 totalPay)
             (Js.toISODate startDate) (Js.toISODate endDate))
  end.

(** ** The payroll export: [exportAllHours] *)

Module ExportRow.
Record t : Type := mk {
  employeeId : string;
  employeeName : string;
  payRate : Z;
  totalHours : option string;
  totalPay : option string;
  dailyBreakdown : DailyReport
}.
End ExportRow.

Module PayrollExport.
Record t : Type := mk {
  startDate : string;
  endDate : string;
  employees : list ExportRow.t
}.
End PayrollExport.

(** The body of the [for ... of] loop. *)
Definition exportRow (startDate endDate : Z) (employee : ClockEmployee.t)
  : Promise ExportRow.t :=
  timeCard <- getEmployeeTimeCard (ClockEmployee.id employee) startDate endDate ;;
  ret (ExportRow.mk (ClockEmployee.id employee) (ClockEmployee.name employee)
         (ClockEmployee.payRate employee)
         (Js.toFixed2 (hours (TimeCard.totalWorkingTime timeCard)))
         (TimeCard.totalPay timeCard)
         (TimeCard.dailyReport timeCard)).

Definition exportAllHours (startDate endDate : Z) : Promise PayrollExport.t :=
  employees <- getClockEmployees ;;
  exportData <- forEach (exportRow startDate endDate) employees ;;
  ret (PayrollExport.mk (Js.toISODate startDate) (Js.toISODate endDate) exportData).

(** ** Specification-side definitions

    The replay as the specification words it, with cursors that are either
    unset or set; and the pay as the specification words it, the exact
    product rounded to hundredths. *)

Module Spec.

Definition isSet (cursor : option Z) : bool :=
  match cursor with
  | Some _ => true
  | None => false
  end.

(** One punch: [clock-in] sets the clock-in cursor; [lunch-out], with the
    clock-in cursor set, adds the time since it to the worked duration and
    sets the lunch-out cursor; [lunch-in], with the lunch-out cursor set,
    adds the time since it to the lunch duration and sets the clock-in
    cursor; [clock-out], with the clock-in cursor set, adds the time since
    it to the worked duration; a punch without its cursor is skipped. *)
Definition punch (st : DayLoop.t) (log : ClockLog.t) : DayLoop.t :=
  let ts := ClockLog.timestamp log in
  let ty := ClockLog.type log in
  let '(DayLoop.mk worked lunch clockIn lunchOut) := st in
  if String.eqb ty "clock-in" then DayLoop.mk worked lunch (Some ts) lunchOut
  else if String.eqb ty "lunch-out" then
    match clockIn with
    | Some t => DayLoop.mk (worked + (ts - t)) lunch clockIn (Some ts)
    | None => st
    end
  else if String.eqb ty "lunch-in" then
    match lunchOut with
    | Some t => DayLoop.mk worked (lunch + (ts - t)) (Some ts) lunchOut
    | None => st
    end
  else if String.eqb ty "clock-out" then
    match clockIn with
    | Some t => DayLoop.mk (worked + (ts - t)) lunch clockIn lunchOut
    | None => st
    end
  else st.

Definition replay (dayLogs : list ClockLog.t) : DayLoop.t :=
  fold_left punch dayLogs DayLoop.init.





End Spec.

(** ** Auxiliary definitions for the statements *)

Definition sumZ (l : list Z) : Z := fold_right Z.add 0 l.

Definition ascending (a b : ClockLog.t) : Prop :=
  ClockLog.timestamp a <= ClockLog.timestamp b.

Definition descending (a b : ClockLog.t) : Prop :=
  ClockLog.timestamp b <= ClockLog.timestamp a.

Definition dateOf (log : ClockLog.t) : string := Js.toISODate (ClockLog.timestamp log).

Definition onDate (date : string) (log : ClockLog.t) : bool := String.eqb (dateOf log) date.

(** What the second pass leaves in a day's entry. *)
Definition finish (d : DayReport.t) : DayReport.t :=
  DayReport.setTimes (DayLoop.workingTime (replay (DayReport.logs d)))
                     (DayLoop.lunchTime (replay (DayReport.logs d))) d.

Definition finishEntry (kd : string * DayReport.t) : string * DayReport.t :=
  (fst kd, finish (snd kd)).

(** The employee's punches, latest first, and the first of them. *)
Definition mostRecentPunch (employeeId : string) (db : Db) : option ClockLog.t :=
  hd_error (orderByDesc (filter (ofEmployee employeeId) (clockLogs db))).

(** Calls in a row, one for each reading of the environment. *)
Fixpoint clockActions (employeeId : string) (envs : list Env)
  : Promise (list ClockAction.result) :=
  match envs with
  | [] => ret []
  | env :: envs' =>
      r <- clockAction employeeId env ;;
      rs <- clockActions employeeId envs' ;;
      ret (r :: rs)
  end.

Definition statusOf (employeeId : string) (db : Db) : option (option string) :=
  option_map ClockEmployee.status (hd_error (filter (hasId employeeId) (clockEmployees db))).

(** Concrete data for the worked examples: 15 January 2024, UTC. *)
Module Sample.
Definition midnight : Z := 1705276800000.
Definition at_ (hour : Z) : Z := midnight + hour * msPerHour.
Definition punchAt (n : string) (type : string) (t : Z) : ClockLog.t :=
  ClockLog.mk n "e1" type t None.
Definition ann : ClockEmployee.t :=
  ClockEmployee.mk "e1" "Ann" None 2500 (Some "inactive") None.
Definition fullDay : list ClockLog.t :=
  [ punchAt "p1" "clock-in" (at_ 9); punchAt "p2" "lunch-out" (at_ 12);
    punchAt "p3" "lunch-in" (at_ 13); punchAt "p4" "clock-out" (at_ 17) ].
Definition openDay : list ClockLog.t := [ punchAt "p1" "clock-in" (at_ 9) ].
Definition straightDay : list ClockLog.t :=
  [ punchAt "p1" "clock-in" (at_ 9); punchAt "p2" "clock-out" (at_ 17) ].
Definition tick (t : Z) (n : string) : Env := mkEnv t t n.
End Sample.

(** The rows the timecard query returns, and the timecard built from them. *)
Definition selected (employeeId : string) (startDate endDate : Z) (db : Db) : list ClockLog.t :=
  orderBy (filter (inRange employeeId startDate endDate) (clockLogs db)).

Definition cardOf (employee : ClockEmployee.t) (logs : list ClockLog.t)
           (startDate endDate : Z) : TimeCard.t :=
  let report := map finishEntry (groupByDate logs) in
  let total := sumZ (map (fun kd => DayReport.workingTime (snd kd)) report) in
  TimeCard.mk employee report total
    (Js.toFixed2 (pay total (ClockEmployee.payRate employee)))
    (Js.toISODate startDate) (Js.toISODate endDate).

Definition logsOf (kd : string * DayReport.t) : list ClockLog.t := DayReport.logs (snd kd).

(** Invariants of the cursors along the replay. *)
Definition nonzero (cursor : option Z) : Prop :=
  match cursor with
  | Some t => t <> 0
  | None => True
  end.

Definition notAfter (cursor : option Z) (bound : Z) : Prop :=
  match cursor with
  | Some t => t <= bound
  | None => True
  end.

Ltac punch_cases log :=
  destruct (String.eqb (ClockLog.type log) "clock-in");
  [| destruct (String.eqb (ClockLog.type log) "lunch-out");
     [| destruct (String.eqb (ClockLog.type log) "lunch-in");
        [| destruct (String.eqb (ClockLog.type log) "clock-out") ] ] ].

(** The sign bit is clear; NaN has none. *)
Definition signClear (x : Js.number) : Prop :=
  match x with
  | S754_zero s | S754_infinity s | S754_finite s _ _ => s = false
  | S754_nan => True
  end.

(** Zero or finite with the sign bit clear, at most 53 digits, an exponent
    of at most [B], and a value below [2^D]. *)
Definition small (B D : Z) (x : Js.number) : Prop :=
  match x with
  | S754_zero s => s = false
  | S754_finite s m e =>
      s = false /\ Zdigits2 (Zpos m) <= 53 /\ e <= B /\ Zdigits2 (Zpos m) + e <= D
  | _ => False
  end.

(** The value of a fulfilled promise. *)
Definition resolved {A : Type} (outcome : (Error + A) * Db) : option A :=
  match fst outcome with
  | inr a => Some a
  | inl _ => None
  end.

(** Date, worked and lunch duration of each daily entry. *)
Definition dayFigures (tc : TimeCard.t) : list (string * Z * Z) :=
  map (fun kd => (fst kd, DayReport.workingTime (snd kd), DayReport.lunchTime (snd kd)))
      (TimeCard.dailyReport tc).

(** Sample databases. *)
Module SampleDb.
Import Sample.
Definition fullDayDb : Db := mkDb [ann] (rev fullDay).
Definition openDayDb : Db := mkDb [ann] openDay.
Definition straightDayDb : Db := mkDb [ann] straightDay.
(** A clock-in stamped at the epoch. *)
Definition epochDb : Db :=
  mkDb [ann] [ punchAt "p1" "clock-in" 0; punchAt "p2" "clock-out" msPerHour ].
(** Two days, and the punches of another employee among them. *)
Definition twoDaysDb : Db :=
  mkDb [ann; ClockEmployee.mk "e2" "Bo" None 1850 (Some "working") None]
       [ punchAt "p1" "clock-in" (at_ 9); ClockLog.mk "q1" "e2" "clock-in" (at_ 10) None;
         punchAt "p2" "clock-out" (at_ 17);
         punchAt "p3" "clock-in" (at_ 32); punchAt "p4" "clock-out" (at_ 36) ].
(** Ann works 7 h 45 min, Bo 20 min. *)
Definition partDaysDb : Db :=
  mkDb [ann; ClockEmployee.mk "e2" "Bo" None 1850 (Some "inactive") None]
       [ punchAt "p1" "clock-in" (at_ 9); punchAt "p2" "clock-out" (at_ 9 + 27900000);
         ClockLog.mk "q1" "e2" "clock-in" (at_ 10) None;
         ClockLog.mk "q2" "e2" "clock-out" (at_ 10 + 1200000) None ].
(** A night shift: in at 22:00, out at 02:00 of the next UTC day. *)
Definition nightDb : Db :=
  mkDb [ann] [ punchAt "p1" "clock-in" (at_ 22); punchAt "p2" "clock-out" (at_ 26) ].
End SampleDb.

Ltac ascending_list :=
  repeat (first [ apply Sorted_nil | apply Sorted_cons | apply HdRel_nil | apply HdRel_cons ]);
  unfold ascending; simpl; unfold Z.le; simpl; discriminate.

(** The number a decimal text stands for. *)
Definition numberOf (s : string) : option N :=
  option_map N.of_uint (NilEmpty.uint_of_string s).

(** *** The steps of [civilFromDays] within one era

    The era starts on 1 March; [yearStart] is the day of the era on which
    its year [yoe] starts and [yearEnd] the last day of that year. *)
Definition yearOfEra (doe : Z) : Z := (doe - doe / 1460 + doe / 36524 - doe / 146096) / 365.

Definition yearStart (yoe : Z) : Z := 365 * yoe + yoe / 4 - yoe / 100.

Definition yearEnd (yoe : Z) : Z := if yoe =? 399 then 146096 else yearStart (yoe + 1) - 1.

Definition monthDay (doy : Z) : Z * Z :=
  let mp := (5 * doy + 2) / 153 in
  (if mp <? 10 then mp + 3 else mp - 9, doy - (153 * mp + 2) / 5 + 1).

Definition leapDay (y : Z) : Z := if Ecma.inLeapYear y then 1 else 0.

(** What is checked of each year of the era, and of each day of a year
    that starts in March. *)
Definition yearChecked (yoe : Z) : bool :=
  (yearOfEra (yearStart yoe) =? yoe) && (yearOfEra (yearEnd yoe) =? yoe)
  && (Ecma.dayFromYear yoe + 59 + leapDay yoe =? yearStart yoe - 719468)
  && (Ecma.dayFromYear (yoe + 1) =? yearStart yoe + 306 - 719468)
  && (yearEnd yoe - yearStart yoe =? 364 + leapDay (yoe + 1))
  && (Ecma.dayFromYear (yoe + 2) =? Ecma.dayFromYear (yoe + 1) + 365 + leapDay (yoe + 1)).

Definition dayChecked (doy : Z) : bool :=
  let '(m, d) := monthDay doy in
  if doy <=? 305
  then (3 <=? m) && (m <=? 12)
       && (Ecma.daysBefore 1 m <=? doy + 59) && (doy + 59 <? Ecma.daysBefore 1 (m + 1))
       && (d =? doy + 59 - Ecma.daysBefore 1 m + 1)
  else (1 <=? m) && (m <=? 2)
       && (Ecma.daysBefore 1 m <=? doy - 306) && ((m =? 2) || (doy - 306 <? 31))
       && (d =? doy - 306 - Ecma.daysBefore 1 m + 1).

(** [p] holds of [count] integers in a row, the first being [from]. *)
Fixpoint allFrom (p : Z -> bool) (from : Z) (count : nat) : bool :=
  match count with
  | O => true
  | S count' => p from && allFrom p (from + 1) count'
  end.

(** The daily entries of a timecard as the caller reads them: the key and
    the identifiers of the punches, in order. *)
Definition entryPunches (tc : TimeCard.t) : list (string * list string) :=
  map (fun kd => (fst kd, map ClockLog.id (logsOf kd))) (TimeCard.dailyReport tc).

(** An export row as the caller reads it: identifier, name, pay rate, hours
    and pay. *)
Definition exportedRow (row : ExportRow.t)
  : string * string * Z * option string * option string :=
  (ExportRow.employeeId row, ExportRow.employeeName row, ExportRow.payRate row,
   ExportRow.totalHours row, ExportRow.totalPay row).

(** An export row agrees with the employee row and with the employee's
    timecard over the same range. *)
Definition rowMatches (startDate endDate : Z) (db : Db)
           (employee : ClockEmployee.t) (row : ExportRow.t) : Prop :=
  exists tc,
    getEmployeeTimeCard (ClockEmployee.id employee) startDate endDate db = (inr tc, db)
    /\ ExportRow.employeeId row = ClockEmployee.id employee
    /\ ExportRow.employeeName row = ClockEmployee.name employee
    /\ ExportRow.payRate row = ClockEmployee.payRate employee
    /\ ExportRow.totalHours row = Js.toFixed2 (hours (TimeCard.totalWorkingTime tc))
    /\ ExportRow.totalPay row = TimeCard.totalPay tc
    /\ ExportRow.dailyBreakdown row = TimeCard.dailyReport tc.

(** The cycle of the specification. *)
Inductive Phase : Type := Idle | Morning | AtLunch | Afternoon.

Definition after (p : Phase) : Phase :=
  match p with
  | Idle => Morning
  | Morning => AtLunch
  | AtLunch => Afternoon
  | Afternoon => Idle
  end.

Definition phaseStatus (p : Phase) : string :=
  match p with
  | Idle => "inactive"
  | Morning => "working"
  | AtLunch => "on-lunch"
  | Afternoon => "working"
  end.

(** The statuses reached by [n] calls that start in phase [p]. *)
Fixpoint trace (p : Phase) (n : nat) : list string :=
  match n with
  | O => []
  | S n' => phaseStatus (after p) :: trace (after p) n'
  end.

(** The clock readings at the punches grow strictly, from above [bound]. *)
Fixpoint increasing (bound : Z) (envs : list Env) : Prop :=
  match envs with
  | [] => True
  | env :: envs' => bound < dateNow env /\ increasing (dateNow env) envs'
  end.

Definition lastDateNow (bound : Z) (envs : list Env) : Z :=
  fold_left (fun _ env => dateNow env) envs bound.

(** Every punch of the employee is stamped at [bound] or earlier. *)
Definition punchedBy (employeeId : string) (bound : Z) (db : Db) : Prop :=
  forall l, In l (clockLogs db) -> ClockLog.employeeId l = employeeId ->
            ClockLog.timestamp l <= bound.

Definition setStatus (employeeId next : string) (env : Env) (row : ClockEmployee.t)
  : ClockEmployee.t :=
  if hasId employeeId row
  then ClockEmployee.assign (ClockEmployee.onlyStatus next) (updateTime env) row
  else row.

(** What a successful call does: the row of the employee gets the next
    status, one punch of the given type is appended, and the updated row,
    the label and the punch are returned. *)
Definition applied (employeeId : string) (env : Env) (db : Db) (e : ClockEmployee.t)
           (next type label : string) : Prop :=
  let e' := ClockEmployee.assign (ClockEmployee.onlyStatus next) (updateTime env) e in
  let log := ClockLog.mk (randomUuid env) employeeId type (dateNow env) None in
  let db' := mkDb (map (setStatus employeeId next env) (clockEmployees db))
                  (clockLogs db ++ [log]) in
  clockAction employeeId env db = (inr (ClockAction.mk e' label log), db')
  /\ ClockEmployee.status e' = Some next
  /\ ClockEmployee.id e' = ClockEmployee.id e
  /\ fst (getClockEmployee employeeId db') = inr (Some e')
  /\ statusOf employeeId db' = Some (Some next).

(** The database is at phase [p] for the employee: the status is that of
    the phase and, while working, the latest punch tells morning from
    afternoon. *)
Definition inPhase (employeeId : string) (p : Phase) (db : Db) : Prop :=
  (exists e, fst (getClockEmployee employeeId db) = inr (Some e)
             /\ ClockEmployee.status e = Some (phaseStatus p))
  /\ match p with
     | Morning => isLunchIn (mostRecentPunch employeeId db) = false
     | Afternoon => isLunchIn (mostRecentPunch employeeId db) = true
     | _ => True
     end.

Fixpoint advance (n : nat) (p : Phase) : Phase :=
  match n with
  | O => p
  | S n' => advance n' (after p)
  end.

(** ** Clock storage: employees created and deleted

    [clock_employees.id] is the primary key and [clock_logs.employee_id]
    refers to it (shared/schema.ts, without [onDelete]): the database
    refuses a second row under a key in use, and the deletion of a row that
    punches refer to; a pay rate that [numeric(10,2)] cannot hold is
    refused before that.  The driver rejects the promise with the message
    of the database, kept here without the quoted names of table and
    constraint. *)

Module InsertClockEmployee.
(** [InsertClockEmployee]: the row without [createdAt] and [updatedAt].
    [status] left out ([None]) takes the default of the column; given, it
    may be [null]. *)
Record t : Type := mk {
  id : string;
  name : string;
  pin : option string;
  payRate : Z;
  status : option (option string)
}.
End InsertClockEmployee.

Definition DuplicateKey : Error :=
  mkError "duplicate key value violates unique constraint".
Definition StillReferenced : Error :=
  mkError "update or delete on table violates foreign key constraint".

(** The row the database stores for the inserted values; [now] is its
    clock, for the default of [updated_at]. *)
Definition inserted (employee : InsertClockEmployee.t) (now : Z) : ClockEmployee.t :=
  ClockEmployee.mk (InsertClockEmployee.id employee)
    (InsertClockEmployee.name employee)
    (InsertClockEmployee.pin employee)
    (InsertClockEmployee.payRate employee)
    (ClockEmployee.orKeep (InsertClockEmployee.status employee) (Some "inactive"))
    (Some now).

Definition createClockEmployee (employee : InsertClockEmployee.t) (now : Z)
  : Promise ClockEmployee.t :=
  fun db =>
    if negb (numeric10_2 (InsertClockEmployee.payRate employee))
    then (inl NumericOverflow, db)
    else if existsb (hasId (InsertClockEmployee.id employee)) (clockEmployees db)
    then (inl DuplicateKey, db)
    else
      let newEmployee := inserted employee now in
      (inr newEmployee, mkDb (clockEmployees db ++ [newEmployee]) (clockLogs db)).

(** [(result.rowCount || 0) > 0] *)
Definition deleteClockEmployee (id : string) : Promise bool :=
  fun db =>
    let rowCount := Z.of_nat (List.length (filter (hasId id) (clockEmployees db))) in
    if (0 <? rowCount) && existsb (ofEmployee id) (clockLogs db)
    then (inl StillReferenced, db)
    else (inr (0 <? rowCount),
          mkDb (filter (fun e => negb (hasId id e)) (clockEmployees db)) (clockLogs db)).

(** The calls of the clock storage, and the database each one leaves. *)
Inductive Call : Type :=
| CreateClockEmployee (employee : InsertClockEmployee.t) (now : Z)
| UpdateClockEmployee (id : string) (updates : ClockEmployee.partial) (now : Z)
| DeleteClockEmployee (id : string)
| ClockAction (employeeId : string) (env : Env)
| GetClockEmployees
| GetClockEmployee (id : string)
| GetClockLogs (employeeId : option string)
| GetEmployeeTimeCard (employeeId : string) (startDate endDate : Z)
| ExportAllHours (startDate endDate : Z).

Definition leaves (call : Call) (db : Db) : Db :=
  match call with
  | CreateClockEmployee employee now => snd (createClockEmployee employee now db)
  | UpdateClockEmployee id updates now => snd (updateClockEmployee id updates now db)
  | DeleteClockEmployee id => snd (deleteClockEmployee id db)
  | ClockAction employeeId env => snd (clockAction employeeId env db)
  | GetClockEmployees => snd (getClockEmployees db)
  | GetClockEmployee id => snd (getClockEmployee id db)
  | GetClockLogs employeeId => snd (getClockLogs employeeId db)
  | GetEmployeeTimeCard employeeId startDate endDate =>
      snd (getEmployeeTimeCard employeeId startDate endDate db)
  | ExportAllHours startDate endDate => snd (exportAllHours startDate endDate db)
  end.

Definition session (calls : list Call) (db : Db) : Db :=
  fold_left (fun db call => leaves call db) calls db.

(** Employee identifiers are unique, and every punch belongs to an employee
    of the table. *)
Definition uniqueIds (db : Db) : Prop := NoDup (map ClockEmployee.id (clockEmployees db)).

Definition punchesOwned (db : Db) : Prop :=
  forall log, In log (clockLogs db) ->
              exists e, In e (clockEmployees db) /\ ClockEmployee.id e = ClockLog.employeeId log.

(** What a call never touches in an employee row. *)
Definition payData (e : ClockEmployee.t) : string * string * option string * Z :=
  (ClockEmployee.id e, ClockEmployee.name e, ClockEmployee.pin e, ClockEmployee.payRate e).

Definition others (employeeId : string) (db : Db) : list ClockEmployee.t :=
  filter (fun e => negb (hasId employeeId e)) (clockEmployees db).

(** The four outcomes of a successful punch: status, label, punch type. *)
Definition outcomes : list (string * string * string) :=
  [ ("working", "Clocked In", "clock-in");
    ("on-lunch", "Started Lunch", "lunch-out");
    ("working", "Ended Lunch", "lunch-in");
    ("inactive", "Clocked Out", "clock-out") ].

Definition outcomeOf (r : ClockAction.result) : option string * string * string :=
  (ClockEmployee.status (ClockAction.employee r), ClockAction.status r,
   ClockLog.type (ClockAction.log r)).

(** The punch a successful call writes from each phase. *)
Definition punchType (p : Phase) : string :=
  match p with
  | Idle => "clock-in"
  | Morning => "lunch-out"
  | AtLunch => "lunch-in"
  | Afternoon => "clock-out"
  end.

Definition punchOf (employeeId : string) (p : Phase) (env : Env) : ClockLog.t :=
  ClockLog.mk (randomUuid env) employeeId (punchType p) (dateNow env) None.

(** The four punches of a day driven through the state machine. *)
Definition dayPunches (employeeId : string) (env1 env2 env3 env4 : Env) : list ClockLog.t :=
  [ punchOf employeeId Idle env1; punchOf employeeId Morning env2;
    punchOf employeeId AtLunch env3; punchOf employeeId Afternoon env4 ].

Definition isPunch (call : Call) : bool :=
  match call with
  | ClockAction _ _ => true
  | _ => false
  end.

(** The punch was written by a [clockAction] among the calls. *)
Definition writtenBy (calls : list Call) (log : ClockLog.t) : Prop :=
  exists employeeId env,
    In (ClockAction employeeId env) calls
    /\ ClockLog.employeeId log = employeeId
    /\ ClockLog.timestamp log = dateNow env
    /\ ClockLog.id log = randomUuid env.

(** A session from the empty database: Ann is hired and punches through a
    full day, Bo is hired and never punches; then both are to be deleted. *)
Module SampleSession.
Import Sample.
End SampleSession.

(** ** Shipments: the in-memory store of [DatabaseStorage]

    [shipmentsStore] is an array of plain objects, typed [any].  A value is
    what a request body or the store can hold; an object is the list of its
    properties, each key once, in the order of insertion (keys that are
    array indices, which the host enumerates first, play no part below).
    The methods cannot throw, so their [catch] branches are not reached and
    a call is a function from the store to the result and the store. *)

Module Value.
#[local] Unset Elimination Schemes.
Inductive t : Type :=
| Null
| Bool (b : bool)
| Num (n : Js.number)
| Str (s : string)
| Date (ms : Z)
| Arr (items : list t)
| Obj (props : list (string * t)).
#[local] Set Elimination Schemes.
End Value.

Definition Object : Type := list (string * Value.t).

Module Obj.
Definition keys (o : Object) : list string := map fst o.

(** An object has each key once. *)
Definition wf (o : Object) : Prop := NoDup (keys o).

(** [o[k]]; [None] is [undefined]. *)
Fixpoint get (k : string) (o : Object) : option Value.t :=
  match o with
  | [] => None
  | (k', v) :: o' => if String.eqb k' k then Some v else get k o'
  end.

(** [o[k] = v]: the value is replaced in place, a new key goes last. *)
Fixpoint set (k : string) (v : Value.t) (o : Object) : Object :=
  match o with
  | [] => [(k, v)]
  | (k', v') :: o' => if String.eqb k' k then (k', v) :: o' else (k', v') :: set k v o'
  end.

(** [{ ...o, ...src }]: the properties of [src] are set on [o] in turn. *)
Definition spread (src o : Object) : Object :=
  fold_left (fun acc kv => set (fst kv) (snd kv) acc) src o.
End Obj.

(** [String(n)] and [`${n}`] for an integer [n] (below [10^21] in size). *)
Definition numberText (n : Z) : string :=
  if n <? 0 then String.append "-" (Js.digits (- n)) else Js.digits n.

(** [s.slice(-6)] *)
Definition lastSix (s : string) : string :=
  substring (String.length s - 6) 6 s.

(** The readings of the clock in [createShipment], in the order taken: the
    local year of the first [new Date()], the two [Date.now()], and the two
    [new Date()] of the time stamps. *)
Record ShipmentClock : Type := mkShipmentClock {
  fullYear : Z;
  numberNow : Z;
  idNow : Z;
  createdNow : Z;
  updatedNow : Z
}.

Definition Store : Type := list Object.

(** [s => s.id === id] *)
Definition idIs (id : string) (s : Object) : bool :=
  match Obj.get "id" s with
  | Some (Value.Str x) => String.eqb x id
  | _ => false
  end.

(** [Array.prototype.findIndex]; [None] is [-1]. *)
Fixpoint findIndex {A : Type} (p : A -> bool) (l : list A) : option nat :=
  match l with
  | [] => None
  | a :: l' => if p a then Some O else option_map S (findIndex p l')
  end.

(** [l[i] = a] for an index in range. *)
Fixpoint assignAt {A : Type} (i : nat) (a : A) (l : list A) : list A :=
  match l, i with
  | [], _ => []
  | _ :: l', O => a :: l'
  | b :: l', S i' => b :: assignAt i' a l'
  end.

(** [l.splice(i, 1)] *)
Fixpoint spliceOne {A : Type} (i : nat) (l : list A) : list A :=
  match l, i with
  | [], _ => []
  | _ :: l', O => l'
  | b :: l', S i' => b :: spliceOne i' l'
  end.

Definition getShipments (store : Store) : list Object * Store := (store, store).

(** [find(...) || null]: an element of the store is an object, and truthy. *)
Definition getShipment (id : string) (store : Store) : option Object * Store :=
  (find (idIs id) store, store).

Definition shipmentNumberAt (clock : ShipmentClock) : string :=
  String.append "SH-"
    (String.append (numberText (fullYear clock))
       (String.append "-" (lastSix (numberText (numberNow clock))))).

Definition newShipment (shipmentData : Object) (clock : ShipmentClock) : Object :=
  Obj.set "updatedAt" (Value.Date (updatedNow clock))
    (Obj.set "createdAt" (Value.Date (createdNow clock))
       (Obj.set "status" (Value.Str "pending")
          (Obj.spread shipmentData
             (Obj.set "shipmentNumber" (Value.Str (shipmentNumberAt clock))
                (Obj.set "id" (Value.Str (numberText (idNow clock))) []))))).

(** [unshift]: the new shipment goes first. *)
Definition createShipment (shipmentData : Object) (clock : ShipmentClock) (store : Store)
  : Object * Store :=
  let created := newShipment shipmentData clock in
  (created, created :: store).

Definition updatedShipment (old updates : Object) (now : Z) : Object :=
  Obj.set "updatedAt" (Value.Date now) (Obj.spread updates (Obj.spread old [])).

Definition updateShipment (id : string) (updates : Object) (now : Z) (store : Store)
  : option Object * Store :=
  match findIndex (idIs id) store with
  | None => (None, store)
  | Some index =>
      match nth_error store index with
      | Some old =>
          let store' := assignAt index (updatedShipment old updates now) store in
          (nth_error store' index, store')
      | None => (None, store)
      end
  end.

Definition deleteShipment (id : string) (store : Store) : bool * Store :=
  match findIndex (idIs id) store with
  | None => (false, store)
  | Some index => (true, spliceOne index store)
  end.

(** The two shipments the store starts with; [started] is the clock when
    the storage object is built. *)
Definition num (n : Z) : Value.t := Value.Num (Js.ofZ n).

Definition initialStore (started : Z) : Store :=
  [ [ ("id", Value.Str "1");
      ("shipmentNumber", Value.Str "SH-2025-001");
      ("formType", Value.Str "pallet");
      ("salesOrderNumber", Value.Str "SO-2025-001");
      ("customerName", Value.Str "ABC Manufacturing");
      ("palletBoxItems",
       Value.Arr [ Value.Obj [ ("qty", num 2); ("length", num 48); ("width", num 40);
                               ("height", num 42); ("weight", num 1500) ] ]);
      ("totalQty", num 2);
      ("totalWeight", num 1500);
      ("notes", Value.Str "Handle with care - fragile items");
      ("completedBy", Value.Str "John Smith");
      ("completedDate", Value.Str "2025-01-15");
      ("supervisor", Value.Str "Jane Doe");
      ("status", Value.Str "pending");
      ("createdAt", Value.Date started) ];
    [ ("id", Value.Str "2");
      ("shipmentNumber", Value.Str "SH-2025-002");
      ("formType", Value.Str "pulllist");
      ("project", Value.Str "Building Construction - Phase 1");
      ("company", Value.Str "XYZ Construction Co.");
      ("pullListReceived", Value.Str "yes");
      ("salesOrderNumber", Value.Str "SO-2025-002");
      ("items",
       Value.Arr [ Value.Obj [ ("qtyOrdered", num 5); ("qtyShipped", num 5);
                               ("partNumber", Value.Str "80R-900-103A");
                               ("description",
                                Value.Str "3 Part Perimeter Arm (20') Incl Couplers");
                               ("qtyReturned", num 0) ];
                   Value.Obj [ ("qtyOrdered", num 113); ("qtyShipped", num 110);
                               ("partNumber", Value.Str "80R-900-010");
                               ("description", Value.Str "10' Arm Section");
                               ("qtyReturned", num 3) ] ]);
      ("pulledBy", Value.Str "Mike Johnson");
      ("pulledDate", Value.Str "2025-01-16");
      ("supervisor", Value.Str "Sarah Wilson");
      ("supervisorDate", Value.Str "2025-01-16");
      ("status", Value.Str "shipped");
      ("createdAt", Value.Date started) ] ].

(** The keys [createShipment] writes itself. *)
Definition ownKey (k : string) : bool :=
  String.eqb k "id" || String.eqb k "shipmentNumber" || String.eqb k "status"
  || String.eqb k "createdAt" || String.eqb k "updatedAt".


(** A request that names its own id and status, and a clock. *)
Module SampleShipment.
Definition request : Object :=
  [ ("customerName", Value.Str "ACME"); ("status", Value.Str "shipped");
    ("id", Value.Str "7") ].
Definition plain : Object := [ ("customerName", Value.Str "ACME") ].
Definition clock : ShipmentClock :=
  mkShipmentClock 2025 1736942400123 1736942400123 1736942400124 1736942400124.
End SampleShipment.

(** ** Orders and reserved stock

    [addOrderItem], [removeOrderItem], [deleteOrder] and [getItems] of
    [DatabaseStorage], over the tables [items], [orders], [order_items],
    [item_transactions], [order_activities] and [shipments]
    (shared/schema.ts).  Of a row the columns are kept that these methods
    read, write or compare; the other columns ride along unchanged.
    Quantities are integers: the column refuses a fraction.

    The database checks what the schema declares: a primary key is unique,
    a reference ([order_items.order_id], [order_items.item_id],
    [shipments.order_id], ...) points to a row, and an [integer] column
    holds 32 bits, so that an insert or update whose value leaves that
    range fails as a whole.  No method here runs in a transaction: the
    statements before a failing one stay done. *)

Module Item.
Record t : Type := mk {
  id : string;
  sku : string;
  productName : string;
  currentStock : Z;
  reservedStock : Z;
  status : string
}.

Definition withReserved (reserved : Z) (i : t) : t :=
  mk (id i) (sku i) (productName i) (currentStock i) reserved (status i).
End Item.

Module ItemWithStatus.
(** [{ ...item, availableStock }] *)
Record t : Type := mk {
  item : Item.t;
  availableStock : Z
}.
End ItemWithStatus.

Module Order.
Record t : Type := mk {
  id : string;
  orderNumber : string;
  customer : string;
  status : string
}.
End Order.

Module OrderItem.
Record t : Type := mk {
  id : string;
  orderId : string;
  itemId : string;
  quantity : Z;
  allocatedAt : option Z
}.
End OrderItem.

Module InsertOrderItem.
Record t : Type := mk {
  orderId : string;
  itemId : string;
  quantity : Z
}.
End InsertOrderItem.

Module ItemTransaction.
Record t : Type := mk {
  id : string;
  itemId : string;
  orderId : option string;
  transactionType : string;
  quantity : Z
}.
End ItemTransaction.

Module OrderActivity.
Record t : Type := mk {
  id : string;
  orderId : string;
  activityType : string;
  description : string
}.
End OrderActivity.

Module ShipmentRow.
(** A row of the table [shipments] (not the in-memory store). *)
Record t : Type := mk {
  id : string;
  orderId : option string
}.
End ShipmentRow.

Record Warehouse : Type := mkWarehouse {
  items : list Item.t;
  orders : list Order.t;
  orderItems : list OrderItem.t;
  itemTransactions : list ItemTransaction.t;
  orderActivities : list OrderActivity.t;
  shipments : list ShipmentRow.t
}.

Definition Query (A : Type) : Type := Warehouse -> (Error + A) * Warehouse.

Definition OutOfRange : Error := mkError "integer out of range".
Definition NoSuchRow : Error :=
  mkError "insert or update on table violates foreign key constraint".

(** The range of an [integer] column. *)
Definition int4 (z : Z) : bool := (- 2 ^ 31 <=? z) && (z <? 2 ^ 31).

Definition isItem (itemId : string) (i : Item.t) : bool := String.eqb (Item.id i) itemId.
Definition isOrder (orderId : string) (o : Order.t) : bool := String.eqb (Order.id o) orderId.
Definition isLine (id : string) (l : OrderItem.t) : bool := String.eqb (OrderItem.id l) id.
Definition lineOfOrder (orderId : string) (l : OrderItem.t) : bool :=
  String.eqb (OrderItem.orderId l) orderId.
Definition lineOfItem (itemId : string) (l : OrderItem.t) : bool :=
  String.eqb (OrderItem.itemId l) itemId.

Definition refersTo (orderId : string) (ref : option string) : bool :=
  match ref with
  | Some x => String.eqb x orderId
  | None => false
  end.

Definition setItems (rows : list Item.t) (wh : Warehouse) : Warehouse :=
  mkWarehouse rows (orders wh) (orderItems wh) (itemTransactions wh) (orderActivities wh)
              (shipments wh).
Definition setOrders (rows : list Order.t) (wh : Warehouse) : Warehouse :=
  mkWarehouse (items wh) rows (orderItems wh) (itemTransactions wh) (orderActivities wh)
              (shipments wh).
Definition setOrderItems (rows : list OrderItem.t) (wh : Warehouse) : Warehouse :=
  mkWarehouse (items wh) (orders wh) rows (itemTransactions wh) (orderActivities wh)
              (shipments wh).
Definition setItemTransactions (rows : list ItemTransaction.t) (wh : Warehouse) : Warehouse :=
  mkWarehouse (items wh) (orders wh) (orderItems wh) rows (orderActivities wh) (shipments wh).
Definition setOrderActivities (rows : list OrderActivity.t) (wh : Warehouse) : Warehouse :=
  mkWarehouse (items wh) (orders wh) (orderItems wh) (itemTransactions wh) rows (shipments wh).

(** [getItems] *)
Definition getItems : Query (list ItemWithStatus.t) :=
  fun wh =>
    (inr (map (fun item => ItemWithStatus.mk item
                             (Item.currentStock item - Item.reservedStock item))
              (items wh)), wh).

Definition moved (delta : Z) (itemId : string) (i : Item.t) : Item.t :=
  if isItem itemId i then Item.withReserved (Item.reservedStock i + delta) i else i.

(** [UPDATE items SET reserved_stock = reserved_stock + delta WHERE id = itemId];
    a subtraction is the addition of the opposite. *)
Definition reserve (delta : Z) (itemId : string) : Query unit :=
  fun wh =>
    if forallb (fun i => int4 (Item.reservedStock i + delta))
               (filter (isItem itemId) (items wh))
    then (inr tt, setItems (map (moved delta itemId) (items wh)) wh)
    else (inl OutOfRange, wh).

(** What the database generates for an inserted order line. *)
Record Generated : Type := mkGenerated {
  uuid : string;
  allocatedNow : Z
}.

Definition addOrderItem (orderItem : InsertOrderItem.t) (gen : Generated)
  : Query OrderItem.t :=
  fun wh =>
    let item := OrderItem.mk (uuid gen) (InsertOrderItem.orderId orderItem)
                  (InsertOrderItem.itemId orderItem) (InsertOrderItem.quantity orderItem)
                  (Some (allocatedNow gen)) in
    if negb (int4 (InsertOrderItem.quantity orderItem)) then (inl OutOfRange, wh)
    else if existsb (isLine (uuid gen)) (orderItems wh) then (inl DuplicateKey, wh)
    else if negb (existsb (isOrder (InsertOrderItem.orderId orderItem)) (orders wh)
                  && existsb (isItem (InsertOrderItem.itemId orderItem)) (items wh))
    then (inl NoSuchRow, wh)
    else
      match reserve (InsertOrderItem.quantity orderItem) (InsertOrderItem.itemId orderItem)
                    (setOrderItems (orderItems wh ++ [item]) wh) with
      | (inr _, wh') => (inr item, wh')
      | (inl e, wh') => (inl e, wh')
      end.

Definition removeOrderItem (id : string) : Query bool :=
  fun wh =>
    match hd_error (filter (isLine id) (orderItems wh)) with
    | None => (inr false, wh)
    | Some orderItem =>
        match reserve (- OrderItem.quantity orderItem) (OrderItem.itemId orderItem) wh with
        | (inl e, wh') => (inl e, wh')
        | (inr _, wh') =>
            let rowCount := Z.of_nat (List.length (filter (isLine id) (orderItems wh'))) in
            (inr (0 <? rowCount),
             setOrderItems (filter (fun l => negb (isLine id l)) (orderItems wh')) wh')
        end
    end.

(** The loop of [deleteOrder] over the lines of the order. *)
Fixpoint restoreReserved (orderItemsToDelete : list OrderItem.t) : Query unit :=
  fun wh =>
    match orderItemsToDelete with
    | [] => (inr tt, wh)
    | orderItem :: rest =>
        match reserve (- OrderItem.quantity orderItem) (OrderItem.itemId orderItem) wh with
        | (inl e, wh') => (inl e, wh')
        | (inr _, wh') => restoreReserved rest wh'
        end
    end.

Definition deleteOrder (id : string) : Query bool :=
  fun wh =>
    match hd_error (filter (isOrder id) (orders wh)) with
    | None => (inr false, wh)
    | Some existingOrder =>
        let wh1 :=
          setItemTransactions
            (filter (fun t => negb (refersTo id (ItemTransaction.orderId t)))
                    (itemTransactions wh)) wh in
        let wh2 :=
          setOrderActivities
            (filter (fun a => negb (String.eqb (OrderActivity.orderId a) id))
                    (orderActivities wh1)) wh1 in
        let orderItemsToDelete := filter (lineOfOrder id) (orderItems wh2) in
        match restoreReserved orderItemsToDelete wh2 with
        | (inl e, wh3) => (inl e, wh3)
        | (inr _, wh3) =>
            let wh4 :=
              setOrderItems (filter (fun l => negb (lineOfOrder id l)) (orderItems wh3)) wh3 in
            if existsb (fun s => refersTo id (ShipmentRow.orderId s)) (shipments wh4)
            then (inl StillReferenced, wh4)
            else
              let rowCount := Z.of_nat (List.length (filter (isOrder id) (orders wh4))) in
              (inr (0 <? rowCount),
               setOrders (filter (fun o => negb (isOrder id o)) (orders wh4)) wh4)
        end
    end.

(** The quantity the order lines hold of an item. *)
Definition totalOrdered (itemId : string) (lines : list OrderItem.t) : Z :=
  sumZ (map OrderItem.quantity (filter (lineOfItem itemId) lines)).

(** The reserved stock of every item is what the order lines hold of it,
    and the order lines have distinct identifiers. *)
Definition reservedMatches (wh : Warehouse) : Prop :=
  forall i, In i (items wh) ->
            Item.reservedStock i = totalOrdered (Item.id i) (orderItems wh).

Definition linesDistinct (wh : Warehouse) : Prop :=
  NoDup (map OrderItem.id (orderItems wh)).

(** The stock columns hold 32-bit integers. *)
Definition stockTyped (wh : Warehouse) : Prop :=
  Forall (fun i => int4 (Item.reservedStock i) = true) (items wh).

Module SampleWarehouse.
Definition bolt : Item.t := Item.mk "i1" "B-10" "Bolt" 100 5 "available".
Definition nut : Item.t := Item.mk "i2" "N-10" "Nut" 40 0 "available".
Definition wh : Warehouse :=
  mkWarehouse [bolt; nut]
    [Order.mk "o1" "ORD-2025-000001" "ACME" "pending";
     Order.mk "o2" "ORD-2025-000002" "Bolts Inc" "pending"]
    [OrderItem.mk "l1" "o1" "i1" 5 (Some 0)]
    [ItemTransaction.mk "t1" "i1" (Some "o1") "check-out" 5]
    [OrderActivity.mk "a1" "o1" "item_added" "Added 5x B-10 (Bolt) to order"]
    [].
Definition gen : Generated := mkGenerated "l2" 1000.
End SampleWarehouse.

(** An item after the lines given have been released. *)
Definition released (lines : list OrderItem.t) (i : Item.t) : Item.t :=
  Item.withReserved (Item.reservedStock i - totalOrdered (Item.id i) lines) i.

Ltac tables :=
  cbn [setItems setOrders setOrderItems setItemTransactions setOrderActivities
       items orders orderItems itemTransactions orderActivities shipments] in *.

(** ** Host language: examples *)

Example toISODate_epoch : Js.toISODate 0 = "1970-01-01".
Proof. reflexivity. Qed.

Example toISODate_2024 : Js.toISODate 1705309200000 = "2024-01-15".
Proof. vm_compute. reflexivity. Qed.

Example toISODate_leap : Js.toISODate 1709251199999 = "2024-02-29".
Proof. vm_compute. reflexivity. Qed.

Example toISODate_before_epoch : Js.toISODate (-1) = "1969-12-31".
Proof. vm_compute. reflexivity. Qed.

Example toFixed2_200 : Js.toFixed2 (Js.ofZ 200) = Some "200.00".
Proof. vm_compute. reflexivity. Qed.

Example toFixed2_small : Js.toFixed2 (Js.parseFloat2 5) = Some "0.05".
Proof. vm_compute. reflexivity. Qed.

(** ** Lists: the stable sort *)

Section SortFacts.
Context {A : Type}.
Variable before : A -> A -> bool.
Hypothesis before_total : forall a b, before a b = true \/ before b a = true.
Hypothesis before_trans :
  forall a b c, before a b = true -> before b c = true -> before a c = true.

Let R (a b : A) : Prop := before a b = true.

Lemma insertBy_perm (x : A) (l : list A) : Permutation (Js.insertBy before x l) (x :: l).
Proof.
  induction l as [|y l IH]; simpl.
  - apply Permutation_refl.
  - destruct (before x y).
    + apply Permutation_refl.
    + apply perm_trans with (y :: x :: l).
      * apply perm_skip, IH.
      * apply perm_swap.
Qed.

Lemma sortBy_perm (l : list A) : Permutation (Js.sortBy before l) l.
Proof.
  induction l as [|x l IH]; simpl.
  - apply perm_nil.
  - apply perm_trans with (x :: Js.sortBy before l).
    + apply insertBy_perm.
    + apply perm_skip, IH.
Qed.

Lemma sortBy_In (l : list A) (a : A) : In a (Js.sortBy before l) <-> In a l.
Proof.
  split; apply Permutation_in.
  - apply sortBy_perm.
  - apply Permutation_sym, sortBy_perm.
Qed.

Lemma insertBy_sorted (x : A) (l : list A) :
  StronglySorted R l -> StronglySorted R (Js.insertBy before x l).
Proof.
  induction 1 as [|y l Hs IH Hy]; simpl.
  - constructor; [constructor | constructor].
  - destruct (before x y) eqn:Hxy.
    + constructor.
      * constructor; assumption.
      * constructor; [exact Hxy|].
        rewrite Forall_forall in *. intros z Hz.
        apply before_trans with y; [exact Hxy | apply Hy, Hz].
    + constructor; [exact IH|].
      rewrite Forall_forall in *. intros z Hz.
      apply (Permutation_in _ (insertBy_perm x l)) in Hz.
      destruct Hz as [<- | Hz].
      * destruct (before_total x y) as [H | H]; [congruence | exact H].
      * apply Hy, Hz.
Qed.

Lemma sortBy_sorted (l : list A) : StronglySorted R (Js.sortBy before l).
Proof.
  induction l as [|x l IH]; simpl.
  - constructor.
  - apply insertBy_sorted, IH.
Qed.

Lemma insertBy_least (x : A) (l : list A) :
  Forall (R x) l -> Js.insertBy before x l = x :: l.
Proof.
  destruct l as [|y l]; simpl; [reflexivity|].
  intros H. inversion H as [|? ? Hxy ?]; subst.
  unfold R in Hxy. rewrite Hxy. reflexivity.
Qed.

(** Sorting a sorted list leaves it as it is: the sort is stable. *)
Lemma sortBy_sorted_id (l : list A) : StronglySorted R l -> Js.sortBy before l = l.
Proof.
  induction 1 as [|x l Hs IH Hx]; simpl.
  - reflexivity.
  - rewrite IH. apply insertBy_least, Hx.
Qed.

Lemma filter_insertBy (p : A -> bool) (x : A) (l : list A) :
  StronglySorted R l ->
  filter p (Js.insertBy before x l)
  = if p x then Js.insertBy before x (filter p l) else filter p l.
Proof.
  induction 1 as [|y l Hs IH Hy]; simpl.
  - destruct (p x); reflexivity.
  - destruct (before x y) eqn:Hxy; simpl.
    + destruct (p x) eqn:Hpx; [|reflexivity].
      symmetry. apply insertBy_least.
      assert (Hall : Forall (R x) (y :: l)).
      { constructor; [exact Hxy|].
        rewrite Forall_forall in *. intros z Hz.
        apply before_trans with y; [exact Hxy | apply Hy, Hz]. }
      rewrite Forall_forall in *. intros z Hz.
      apply Hall. change (In z (filter p (y :: l))) in Hz.
      apply filter_In in Hz. apply Hz.
    + rewrite IH. destruct (p y) eqn:Hpy, (p x) eqn:Hpx; simpl;
        rewrite ?Hxy; reflexivity.
Qed.

(** Selecting rows commutes with the stable sort. *)
Lemma filter_sortBy (p : A -> bool) (l : list A) :
  filter p (Js.sortBy before l) = Js.sortBy before (filter p l).
Proof.
  induction l as [|x l IH]; simpl; [reflexivity|].
  rewrite filter_insertBy by apply sortBy_sorted.
  rewrite IH. destruct (p x); reflexivity.
Qed.

Lemma sortBy_head (l : list A) (a : A) :
  hd_error (Js.sortBy before l) = Some a ->
  In a l /\ forall b, In b l -> before a b = true.
Proof.
  intros H. pose proof (sortBy_sorted l) as Hs.
  destruct (Js.sortBy before l) as [|h t] eqn:E; [discriminate|].
  simpl in H. injection H as ->.
  assert (Hin : forall b, In b l <-> In b (a :: t)).
  { intros b. rewrite <- E. symmetry. apply sortBy_In. }
  split.
  - apply Hin. left. reflexivity.
  - intros b Hb. apply Hin in Hb. inversion Hs as [|? ? _ Hall]; subst.
    destruct Hb as [<- | Hb].
    + destruct (before_total a a); assumption.
    + rewrite Forall_forall in Hall. apply Hall, Hb.
Qed.

Lemma sortBy_head_none (l : list A) : hd_error (Js.sortBy before l) = None -> l = [].
Proof.
  intros H. pose proof (sortBy_perm l) as Hp.
  destruct (Js.sortBy before l); [|discriminate].
  apply Permutation_nil in Hp. exact Hp.
Qed.

End SortFacts.

Lemma byTimestamp_total (a b : ClockLog.t) : byTimestamp a b = true \/ byTimestamp b a = true.
Proof. unfold byTimestamp. rewrite !Z.leb_le. lia. Qed.

Lemma byTimestamp_trans (a b c : ClockLog.t) :
  byTimestamp a b = true -> byTimestamp b c = true -> byTimestamp a c = true.
Proof. unfold byTimestamp. rewrite !Z.leb_le. lia. Qed.

Lemma byTimestampDesc_total (a b : ClockLog.t) :
  byTimestampDesc a b = true \/ byTimestampDesc b a = true.
Proof. unfold byTimestampDesc. rewrite !Z.leb_le. lia. Qed.

Lemma byTimestampDesc_trans (a b c : ClockLog.t) :
  byTimestampDesc a b = true -> byTimestampDesc b c = true -> byTimestampDesc a c = true.
Proof. unfold byTimestampDesc. rewrite !Z.leb_le. lia. Qed.

Lemma StronglySorted_impl {A : Type} (P Q : A -> A -> Prop) (l : list A) :
  (forall a b, P a b -> Q a b) -> StronglySorted P l -> StronglySorted Q l.
Proof.
  intros HPQ. induction 1 as [|x l Hs IH Hx]; constructor.
  - exact IH.
  - rewrite Forall_forall in *. intros z Hz. apply HPQ, Hx, Hz.
Qed.

Lemma StronglySorted_filter {A : Type} (P : A -> A -> Prop) (p : A -> bool) (l : list A) :
  StronglySorted P l -> StronglySorted P (filter p l).
Proof.
  induction 1 as [|x l Hs IH Hx]; simpl; [constructor|].
  destruct (p x); [|exact IH].
  constructor; [exact IH|].
  rewrite Forall_forall in *. intros z Hz. apply filter_In in Hz. apply Hx, Hz.
Qed.

Lemma orderBy_sorted (l : list ClockLog.t) : StronglySorted ascending (orderBy l).
Proof.
  apply StronglySorted_impl with (P := fun a b => byTimestamp a b = true).
  - intros a b H. unfold ascending. apply Z.leb_le, H.
  - apply sortBy_sorted; [apply byTimestamp_total | apply byTimestamp_trans].
Qed.

Lemma orderBy_perm (l : list ClockLog.t) : Permutation (orderBy l) l.
Proof. apply sortBy_perm. Qed.

Lemma orderByDesc_sorted (l : list ClockLog.t) : StronglySorted descending (orderByDesc l).
Proof.
  apply StronglySorted_impl with (P := fun a b => byTimestampDesc a b = true).
  - intros a b H. unfold descending. apply Z.leb_le, H.
  - apply sortBy_sorted; [apply byTimestampDesc_total | apply byTimestampDesc_trans].
Qed.

(** ** The daily report object *)

Lemma lookup_None (date : string) (r : DailyReport) :
  lookup date r = None <-> ~ In date (keys r).
Proof.
  induction r as [|[k d] r IH]; simpl.
  - tauto.
  - destruct (String.eqb_spec k date) as [-> | Hne].
    + split; [discriminate | intros H; exfalso; apply H; left; reflexivity].
    + rewrite IH. tauto.
Qed.

Lemma lookup_In (date : string) (d : DayReport.t) (r : DailyReport) :
  lookup date r = Some d -> In (date, d) r.
Proof.
  induction r as [|[k d'] r IH]; simpl; [discriminate|].
  destruct (String.eqb_spec k date) as [-> | Hne].
  - intros [= ->]. left. reflexivity.
  - intros H. right. apply IH, H.
Qed.

Lemma In_lookup (date : string) (d : DayReport.t) (r : DailyReport) :
  NoDup (keys r) -> In (date, d) r -> lookup date r = Some d.
Proof.
  induction r as [|[k d'] r IH]; simpl; [tauto|].
  intros Hnd [Heq | Hin].
  - injection Heq as -> ->. rewrite String.eqb_refl. reflexivity.
  - inversion Hnd as [|? ? Hk Hnd']; subst.
    destruct (String.eqb_spec k date) as [-> | Hne].
    + exfalso. apply Hk. change (In (fst (date, d)) (map fst r)). apply in_map, Hin.
    + apply IH; assumption.
Qed.

Lemma lookup_app_last (date k : string) (v : DayReport.t) (r : DailyReport) :
  lookup date (r ++ [(k, v)])
  = match lookup date r with
    | Some d => Some d
    | None => if String.eqb k date then Some v else None
    end.
Proof.
  induction r as [|[k' d'] r IH]; simpl.
  - reflexivity.
  - destruct (String.eqb k' date); [reflexivity | exact IH].
Qed.

Lemma lookup_alter (f : DayReport.t -> DayReport.t) (date k : string) (r : DailyReport) :
  lookup date (alter f k r)
  = if String.eqb k date then option_map f (lookup date r) else lookup date r.
Proof.
  induction r as [|[k' d'] r IH]; simpl.
  - destruct (String.eqb k date); reflexivity.
  - destruct (String.eqb_spec k' k) as [-> | Hne]; simpl.
    + destruct (String.eqb k date); reflexivity.
    + destruct (String.eqb_spec k' date) as [-> | Hne'].
      * destruct (String.eqb_spec k date) as [-> | _]; [congruence | reflexivity].
      * exact IH.
Qed.

Lemma keys_alter (f : DayReport.t -> DayReport.t) (k : string) (r : DailyReport) :
  keys (alter f k r) = keys r.
Proof.
  induction r as [|[k' d'] r IH]; simpl; [reflexivity|].
  destruct (String.eqb k' k); simpl; [reflexivity|].
  f_equal. exact IH.
Qed.

Lemma keys_addLog (r : DailyReport) (log : ClockLog.t) :
  keys (addLog r log)
  = match lookup (dateOf log) r with
    | Some _ => keys r
    | None => keys r ++ [dateOf log]
    end.
Proof.
  unfold addLog. fold (dateOf log). rewrite keys_alter.
  destruct (lookup (dateOf log) r); [reflexivity|].
  unfold keys. rewrite map_app. reflexivity.
Qed.

Lemma NoDup_snoc {A : Type} (l : list A) (a : A) : NoDup l -> ~ In a l -> NoDup (l ++ [a]).
Proof.
  induction 1 as [|x l Hx Hnd IH]; simpl; intros Ha.
  - constructor; [tauto | constructor].
  - constructor.
    + rewrite in_app_iff. simpl. intros [H | [H | []]]; [tauto | subst; tauto].
    + apply IH. tauto.
Qed.

Lemma groupByDate_snoc (logs : list ClockLog.t) (log : ClockLog.t) :
  groupByDate (logs ++ [log]) = addLog (groupByDate logs) log.
Proof. unfold groupByDate. rewrite fold_left_app. reflexivity. Qed.

Lemma groupByDate_NoDup (logs : list ClockLog.t) : NoDup (keys (groupByDate logs)).
Proof.
  induction logs as [|log logs IH] using rev_ind.
  - constructor.
  - rewrite groupByDate_snoc, keys_addLog.
    destruct (lookup (dateOf log) (groupByDate logs)) eqn:E; [exact IH|].
    apply NoDup_snoc; [exact IH | apply lookup_None, E].
Qed.

(** The entry of a date holds the punches of that date, in the order of the
    list, and no entry is empty. *)
Lemma groupByDate_lookup (logs : list ClockLog.t) (date : string) :
  lookup date (groupByDate logs)
  = match filter (onDate date) logs with
    | [] => None
    | dayLogs => Some (DayReport.mk dayLogs 0 0)
    end.
Proof.
  induction logs as [|log logs IH] using rev_ind.
  - reflexivity.
  - rewrite groupByDate_snoc, filter_app. simpl.
    unfold addLog. fold (dateOf log). rewrite lookup_alter.
    unfold onDate at 2.
    destruct (String.eqb_spec (dateOf log) date) as [<- | Hne].
    + destruct (lookup (dateOf log) (groupByDate logs)) as [d|] eqn:E.
      * rewrite E.
        destruct (filter (onDate (dateOf log)) logs) as [|l0 ls]; [discriminate|].
        injection IH as ->. reflexivity.
      * rewrite lookup_app_last, E, String.eqb_refl.
        destruct (filter (onDate (dateOf log)) logs) as [|l0 ls]; [|discriminate].
        reflexivity.
    + rewrite app_nil_r.
      destruct (lookup (dateOf log) (groupByDate logs)) as [d|] eqn:E.
      * exact IH.
      * rewrite lookup_app_last.
        destruct (String.eqb_spec (dateOf log) date) as [Heq | _]; [contradiction|].
        rewrite IH. destruct (filter (onDate date) logs); reflexivity.
Qed.

Lemma groupByDate_entry (logs : list ClockLog.t) (date : string) (d : DayReport.t) :
  In (date, d) (groupByDate logs) ->
  d = DayReport.mk (filter (onDate date) logs) 0 0 /\ filter (onDate date) logs <> [].
Proof.
  intros H. apply In_lookup in H; [|apply groupByDate_NoDup].
  rewrite groupByDate_lookup in H.
  destruct (filter (onDate date) logs) as [|l0 ls]; [discriminate|].
  injection H as <-. split; [reflexivity | discriminate].
Qed.

Lemma groupByDate_keys (logs : list ClockLog.t) (date : string) :
  In date (keys (groupByDate logs)) <-> exists log, In log logs /\ dateOf log = date.
Proof.
  split.
  - intros H. destruct (lookup date (groupByDate logs)) as [d|] eqn:E.
    + rewrite groupByDate_lookup in E.
      destruct (filter (onDate date) logs) as [|l0 ls] eqn:F; [discriminate|].
      assert (Hin : In l0 (filter (onDate date) logs)) by (rewrite F; left; reflexivity).
      apply filter_In in Hin. destruct Hin as [Hin Hd].
      exists l0. split; [exact Hin | apply String.eqb_eq, Hd].
    + apply lookup_None in E. contradiction.
  - intros (log & Hin & Hd).
    destruct (lookup date (groupByDate logs)) as [d|] eqn:E.
    + apply lookup_In in E. change date with (fst (date, d)). apply in_map, E.
    + rewrite groupByDate_lookup in E.
      assert (Hf : In log (filter (onDate date) logs)).
      { apply filter_In. split; [exact Hin | apply String.eqb_eq, Hd]. }
      destruct (filter (onDate date) logs); [destruct Hf | discriminate].
Qed.

(** The second pass: each key is visited once, and only its own entry
    changes. *)
Lemma processDay_frame (ks : list string) (k : string) (d : DayReport.t)
      (r : DailyReport) (total : Z) :
  ~ In k ks ->
  fold_left processDay ks ((k, d) :: r, total)
  = ((k, d) :: fst (fold_left processDay ks (r, total)),
     snd (fold_left processDay ks (r, total))).
Proof.
  revert r total. induction ks as [|k' ks IH]; intros r total Hk; simpl.
  - reflexivity.
  - assert (Hne : k <> k') by (intros ->; apply Hk; left; reflexivity).
    assert (Hks : ~ In k ks) by (intros H; apply Hk; right; exact H).
    destruct (String.eqb_spec k k') as [Heq | _]; [contradiction|].
    destruct (lookup k' r) as [day|] eqn:E.
    + rewrite IH by exact Hks. reflexivity.
    + rewrite IH by exact Hks. reflexivity.
Qed.

Lemma processDay_keys (r : DailyReport) (total : Z) :
  NoDup (keys r) ->
  fold_left processDay (keys r) (r, total)
  = (map finishEntry r,
     total + sumZ (map (fun kd => DayReport.workingTime (finish (snd kd))) r)).
Proof.
  revert total. induction r as [|[k d] r IH]; intros total Hnd; simpl.
  - f_equal. lia.
  - inversion Hnd as [|? ? Hk Hnd']; subst.
    rewrite String.eqb_refl.
    rewrite processDay_frame by exact Hk.
    rewrite IH by exact Hnd'. simpl.
    f_equal. lia.
Qed.

Lemma dayTotals_eq (logs : list ClockLog.t) :
  dayTotals logs
  = (map finishEntry (groupByDate logs),
     sumZ (map (fun kd => DayReport.workingTime (snd kd)) (map finishEntry (groupByDate logs)))).
Proof.
  unfold dayTotals. rewrite processDay_keys by apply groupByDate_NoDup.
  f_equal. rewrite map_map. reflexivity.
Qed.

(** ** The timecard, in closed form *)

Lemma getEmployeeTimeCard_eq (employeeId : string) (startDate endDate : Z) (db : Db) :
  getEmployeeTimeCard employeeId startDate endDate db
  = match hd_error (filter (hasId employeeId) (clockEmployees db)) with
    | None => (inl NotFound, db)
    | Some employee =>
        (inr (cardOf employee (selected employeeId startDate endDate db) startDate endDate), db)
    end.
Proof.
  unfold getEmployeeTimeCard, bind, getClockEmployee, throw. simpl.
  destruct (hd_error (filter (hasId employeeId) (clockEmployees db))) as [employee|];
    [|reflexivity].
  unfold selectPunches, ret. fold (selected employeeId startDate endDate db).
  rewrite dayTotals_eq. reflexivity.
Qed.

Lemma getEmployeeTimeCard_found (employeeId : string) (startDate endDate : Z) (db : Db)
      (employee : ClockEmployee.t) :
  fst (getClockEmployee employeeId db) = inr (Some employee) ->
  getEmployeeTimeCard employeeId startDate endDate db
  = (inr (cardOf employee (selected employeeId startDate endDate db) startDate endDate), db).
Proof.
  unfold getClockEmployee. simpl. intros [= H].
  rewrite getEmployeeTimeCard_eq, H. reflexivity.
Qed.

Lemma inRange_iff (employeeId : string) (startDate endDate : Z) (log : ClockLog.t) :
  inRange employeeId startDate endDate log = true
  <-> ClockLog.employeeId log = employeeId
      /\ startDate <= ClockLog.timestamp log <= endDate.
Proof.
  unfold inRange, ofEmployee.
  rewrite !andb_true_iff, String.eqb_eq, !Z.leb_le. tauto.
Qed.

Lemma logsOf_finishEntry (r : DailyReport) : map logsOf (map finishEntry r) = map logsOf r.
Proof. rewrite map_map. apply map_ext. intros [k d]. reflexivity. Qed.

Lemma keys_finishEntry (r : DailyReport) : keys (map finishEntry r) = keys r.
Proof. unfold keys. rewrite map_map. apply map_ext. intros [k d]. reflexivity. Qed.

Lemma concat_alter_push (log : ClockLog.t) (k : string) (r : DailyReport) :
  In k (keys r) ->
  Permutation (List.concat (map logsOf (alter (DayReport.push log) k r)))
              (log :: List.concat (map logsOf r)).
Proof.
  induction r as [|[k' d] r IH]; simpl; [tauto|].
  destruct (String.eqb_spec k' k) as [-> | Hne]; intros H; simpl.
  - unfold logsOf at 1 3. simpl. rewrite <- app_assoc. simpl.
    apply Permutation_sym, Permutation_middle.
  - destruct H as [H | H]; [contradiction|].
    apply perm_trans with (logsOf (k', d) ++ log :: List.concat (map logsOf r)).
    + apply Permutation_app_head, IH, H.
    + apply Permutation_sym, Permutation_middle.
Qed.

Lemma concat_groupByDate (logs : list ClockLog.t) :
  Permutation (List.concat (map logsOf (groupByDate logs))) logs.
Proof.
  induction logs as [|log logs IH] using rev_ind.
  - apply perm_nil.
  - rewrite groupByDate_snoc. unfold addLog. fold (dateOf log).
    apply perm_trans with (log :: logs);
      [|apply Permutation_cons_append].
    destruct (lookup (dateOf log) (groupByDate logs)) as [d|] eqn:E.
    + apply perm_trans with (log :: List.concat (map logsOf (groupByDate logs))).
      * apply concat_alter_push. apply lookup_In in E.
        change (dateOf log) with (fst (dateOf log, d)). apply in_map, E.
      * apply perm_skip, IH.
    + apply perm_trans
        with (log :: List.concat (map logsOf (groupByDate logs ++ [(dateOf log, DayReport.empty)]))).
      * apply concat_alter_push. unfold keys. rewrite map_app, in_app_iff.
        right. left. reflexivity.
      * apply perm_skip. rewrite map_app, concat_app. simpl.
        rewrite app_nil_r. exact IH.
Qed.

Lemma finished_entry (logs : list ClockLog.t) (date : string) (d : DayReport.t) :
  In (date, d) (map finishEntry (groupByDate logs)) ->
  filter (onDate date) logs <> []
  /\ d = DayReport.mk (filter (onDate date) logs)
           (DayLoop.workingTime (replay (filter (onDate date) logs)))
           (DayLoop.lunchTime (replay (filter (onDate date) logs))).
Proof.
  intros H. apply in_map_iff in H. destruct H as ([k d0] & Heq & Hin).
  unfold finishEntry in Heq. simpl in Heq. injection Heq as -> <-.
  apply groupByDate_entry in Hin. destruct Hin as [-> Hne].
  split; [exact Hne | reflexivity].
Qed.

(** ** The replay of one day *)

Lemma truthy_isSet (cursor : option Z) : nonzero cursor -> truthy cursor = Spec.isSet cursor.
Proof.
  destruct cursor as [t|]; simpl; [|reflexivity].
  intros H. apply Z.eqb_neq in H. rewrite H. reflexivity.
Qed.

Lemma punch_refines (st : DayLoop.t) (log : ClockLog.t) :
  nonzero (DayLoop.clockInTime st) -> nonzero (DayLoop.lunchOutTime st) ->
  ClockLog.timestamp log <> 0 ->
  punch st log = Spec.punch st log
  /\ nonzero (DayLoop.clockInTime (punch st log))
  /\ nonzero (DayLoop.lunchOutTime (punch st log)).
Proof.
  destruct st as [w l ci lo]. simpl. intros Hci Hlo Hts.
  unfold punch, Spec.punch. simpl.
  punch_cases log; simpl; auto.
  - rewrite (truthy_isSet ci Hci). destruct ci as [t|]; simpl; auto.
  - rewrite (truthy_isSet lo Hlo). destruct lo as [t|]; simpl; auto.
  - rewrite (truthy_isSet ci Hci). destruct ci as [t|]; simpl; auto.
Qed.

Lemma replay_refines_from (logs : list ClockLog.t) (st : DayLoop.t) :
  Forall (fun log => ClockLog.timestamp log <> 0) logs ->
  nonzero (DayLoop.clockInTime st) -> nonzero (DayLoop.lunchOutTime st) ->
  fold_left punch logs st = fold_left Spec.punch logs st.
Proof.
  revert st. induction logs as [|log logs IH]; intros st Hall Hci Hlo; simpl.
  - reflexivity.
  - inversion Hall as [|? ? Hts Hall']; subst.
    destruct (punch_refines st log Hci Hlo Hts) as (Heq & Hci' & Hlo').
    rewrite <- Heq. apply IH; assumption.
Qed.

Lemma replay_refines (logs : list ClockLog.t) :
  Forall (fun log => ClockLog.timestamp log <> 0) logs ->
  replay logs = Spec.replay logs.
Proof.
  intros H. unfold replay, Spec.replay.
  apply replay_refines_from; [exact H | exact I | exact I].
Qed.

Lemma punch_nonneg (st : DayLoop.t) (log : ClockLog.t) :
  notAfter (DayLoop.clockInTime st) (ClockLog.timestamp log) ->
  notAfter (DayLoop.lunchOutTime st) (ClockLog.timestamp log) ->
  0 <= DayLoop.workingTime st -> 0 <= DayLoop.lunchTime st ->
  0 <= DayLoop.workingTime (punch st log)
  /\ 0 <= DayLoop.lunchTime (punch st log)
  /\ forall bound, ClockLog.timestamp log <= bound ->
       notAfter (DayLoop.clockInTime st) bound ->
       notAfter (DayLoop.lunchOutTime st) bound ->
       notAfter (DayLoop.clockInTime (punch st log)) bound
       /\ notAfter (DayLoop.lunchOutTime (punch st log)) bound.
Proof.
  destruct st as [w l ci lo]. simpl. intros Hci Hlo Hw Hl.
  unfold punch.
  punch_cases log; simpl; auto.
  - destruct ci as [t|]; simpl in *; [destruct (t =? 0)|]; simpl;
      repeat split; auto; lia.
  - destruct lo as [t|]; simpl in *; [destruct (t =? 0)|]; simpl;
      repeat split; auto; lia.
  - destruct ci as [t|]; simpl in *; [destruct (t =? 0)|]; simpl;
      repeat split; auto; lia.
Qed.

Lemma replay_nonneg_from (logs : list ClockLog.t) (st : DayLoop.t) :
  StronglySorted ascending logs ->
  Forall (fun log => notAfter (DayLoop.clockInTime st) (ClockLog.timestamp log)
                     /\ notAfter (DayLoop.lunchOutTime st) (ClockLog.timestamp log)) logs ->
  0 <= DayLoop.workingTime st -> 0 <= DayLoop.lunchTime st ->
  0 <= DayLoop.workingTime (fold_left punch logs st)
  /\ 0 <= DayLoop.lunchTime (fold_left punch logs st).
Proof.
  revert st. induction logs as [|log logs IH]; intros st Hs Hb Hw Hl; simpl.
  - split; assumption.
  - inversion Hs as [|? ? Hs' Hlog]; subst.
    inversion Hb as [|? ? [Hci Hlo] Hb']; subst.
    destruct (punch_nonneg st log Hci Hlo Hw Hl) as (Hw' & Hl' & Hnext).
    apply IH; try assumption.
    rewrite Forall_forall in *. intros y Hy.
    apply Hnext.
    + apply Hlog, Hy.
    + apply Hb', Hy.
    + apply Hb', Hy.
Qed.

Lemma replay_nonneg (logs : list ClockLog.t) :
  StronglySorted ascending logs ->
  0 <= DayLoop.workingTime (replay logs) /\ 0 <= DayLoop.lunchTime (replay logs).
Proof.
  intros Hs. unfold replay. apply replay_nonneg_from; simpl; try lia; [exact Hs|].
  apply Forall_forall. intros y _. split; exact I.
Qed.

Lemma sumZ_nonneg (l : list Z) : Forall (fun z => 0 <= z) l -> 0 <= sumZ l.
Proof. induction 1 as [|z l Hz _ IH]; simpl; lia. Qed.

Lemma ascending_trans : Relations_1.Transitive ascending.
Proof. intros a b c. unfold ascending. lia. Qed.

(** ** Signs in binary64 *)

Lemma binary_round_aux_sign (m e : Z) (l : location) :
  signClear (binary_round_aux Js.prec Js.emax false m e l).
Proof.
  unfold binary_round_aux.
  destruct (shr_fexp Js.prec Js.emax m e l) as [mrs' e'].
  destruct (shr_fexp Js.prec Js.emax _ e' loc_Exact) as [mrs'' e''].
  destruct (shr_m mrs''); [reflexivity | | exact I].
  destruct (Z.leb _ _); reflexivity.
Qed.

Lemma ofZ_sign (z : Z) : 0 <= z -> signClear (Js.ofZ z).
Proof.
  intros Hz. unfold Js.ofZ, binary_normalize.
  destruct z as [|p|p]; [reflexivity | | lia].
  unfold binary_round.
  destruct (shl_align p 0 _) as [mz ez]. apply binary_round_aux_sign.
Qed.

Lemma div_sign (x y : Js.number) : signClear x -> signClear y -> signClear (Js.div x y).
Proof.
  unfold Js.div, SFdiv.
  destruct x as [sx|sx| |sx mx ex], y as [sy|sy| |sy my ey]; simpl;
    try tauto; try (intros -> ->; reflexivity).
  intros -> ->. simpl.
  destruct (SFdiv_core_binary Js.prec Js.emax (Z.pos mx) ex (Z.pos my) ey) as [[mz ez] lz].
  apply binary_round_aux_sign.
Qed.

Lemma mul_sign (x y : Js.number) : signClear x -> signClear y -> signClear (Js.mul x y).
Proof.
  unfold Js.mul, SFmul.
  destruct x as [sx|sx| |sx mx ex], y as [sy|sy| |sy my ey]; simpl;
    try tauto; try (intros -> ->; reflexivity).
  intros -> ->. simpl. apply binary_round_aux_sign.
Qed.

Lemma signClear_not_negative (x : Js.number) : signClear x -> Js.negative x = false.
Proof.
  unfold Js.negative, SFltb, Js.zero.
  destruct x as [s|s| |s m e]; simpl; try reflexivity; intros ->; reflexivity.
Qed.

Lemma pay_not_negative (totalWorkingTime payRate : Z) :
  0 <= totalWorkingTime -> 0 <= payRate -> Js.negative (pay totalWorkingTime payRate) = false.
Proof.
  intros Ht Hr. apply signClear_not_negative. unfold pay, hours, Js.parseFloat2.
  apply mul_sign; apply div_sign; apply ofZ_sign; (assumption || (unfold msPerHour; lia) || lia).
Qed.

(** ** Magnitudes in binary64: no overflow and no NaN below [2^53] *)

Lemma fexp_eq (x : Z) : fexp Js.prec Js.emax x = Z.max (x - 53) (-1074).
Proof. reflexivity. Qed.

Lemma digits2_pos_size (p : positive) : digits2_pos p = Pos.size p.
Proof. induction p as [p IH|p IH|]; simpl; rewrite ?IH; reflexivity. Qed.

Lemma Zdigits2_log2 (p : positive) : Zdigits2 (Zpos p) = Z.log2 (Zpos p) + 1.
Proof.
  simpl. rewrite digits2_pos_size.
  destruct p as [p|p|]; simpl; try reflexivity; rewrite Pos.add_1_r; reflexivity.
Qed.

Lemma Zdigits2_nonneg (m : Z) : 0 <= Zdigits2 m.
Proof. destruct m; simpl; lia. Qed.

Lemma Zdigits2_mono (a b : Z) : 0 <= a <= b -> Zdigits2 a <= Zdigits2 b.
Proof.
  intros [Ha Hab]. destruct a as [|a|a]; [apply Zdigits2_nonneg | | lia].
  destruct b as [|b|b]; try lia.
  rewrite !Zdigits2_log2. apply Z.add_le_mono_r, Z.log2_le_mono, Hab.
Qed.

Lemma Zdigits2_succ (m : Z) : 0 <= m -> Zdigits2 (m + 1) <= Zdigits2 m + 1.
Proof.
  intros Hm. destruct m as [|m|m]; [simpl; lia | | lia].
  replace (Zpos m + 1) with (Zpos (m + 1)) by lia.
  rewrite !Zdigits2_log2.
  pose proof (Z.log2_succ_le (Zpos m)). replace (Z.succ (Zpos m)) with (Zpos (m+1)) in H by lia. lia.
Qed.

Lemma Zdigits2_shiftr (m n : Z) :
  0 <= m -> 0 <= n -> Zdigits2 (m / 2 ^ n) <= Z.max 0 (Zdigits2 m - n).
Proof.
  intros Hm Hn. rewrite <- Z.shiftr_div_pow2 by exact Hn.
  destruct m as [|m|m]; [rewrite Z.shiftr_0_l; simpl; lia | | lia].
  destruct (Z_lt_le_dec (Z.log2 (Zpos m)) n) as [Hlt | Hle].
  - rewrite Z.shiftr_eq_0 by (try exact Hlt; lia). simpl. lia.
  - pose proof (Z.log2_shiftr (Zpos m) n ltac:(lia)) as Hlog.
    pose proof (Z.shiftr_nonneg (Zpos m) n) as Hnn.
    destruct (Z.shiftr (Zpos m) n) as [|r|r] eqn:Er; [simpl; lia | | lia].
    rewrite !Zdigits2_log2, Hlog. lia.
Qed.

Lemma shr_1_half (mrs : shr_record) : 0 <= shr_m mrs -> shr_m (shr_1 mrs) = shr_m mrs / 2.
Proof.
  destruct mrs as [m r s]. simpl. intros Hm.
  destruct m as [|[p|p|]|p]; simpl; try reflexivity; try lia.
  - rewrite Pos2Z.inj_xI. apply Z.div_unique with 1; lia.
  - rewrite Pos2Z.inj_xO. apply Z.div_unique with 0; lia.
Qed.

Lemma iter_shr_1 (p : positive) (mrs : shr_record) :
  0 <= shr_m mrs -> shr_m (iter_pos shr_1 p mrs) = shr_m mrs / 2 ^ Zpos p.
Proof.
  revert mrs. induction p as [p IH|p IH|]; intros mrs Hm; simpl iter_pos.
  - assert (H1 : 0 <= shr_m (shr_1 mrs)) by (rewrite shr_1_half by exact Hm; apply Z.div_pos; lia).
    assert (H2 : 0 <= shr_m (iter_pos shr_1 p (shr_1 mrs)))
      by (rewrite IH by exact H1; apply Z.div_pos; [exact H1 | apply Z.pow_pos_nonneg; lia]).
    rewrite IH by exact H2. rewrite IH by exact H1. rewrite shr_1_half by exact Hm.
    rewrite !Z.div_div by (first [apply Z.pow_pos_nonneg; lia | apply Z.pow_nonzero; lia | lia]).
    f_equal. replace (Z.pos p~1) with (1 + Z.pos p + Z.pos p) by lia.
    rewrite !Z.pow_add_r by lia. rewrite Z.pow_1_r. ring.
  - assert (H2 : 0 <= shr_m (iter_pos shr_1 p mrs))
      by (rewrite IH by exact Hm; apply Z.div_pos; [exact Hm | apply Z.pow_pos_nonneg; lia]).
    rewrite IH by exact H2. rewrite IH by exact Hm.
    rewrite Z.div_div by (first [apply Z.pow_pos_nonneg; lia | apply Z.pow_nonzero; lia | lia]).
    f_equal. replace (Z.pos p~0) with (Z.pos p + Z.pos p) by lia.
    rewrite Z.pow_add_r by lia. reflexivity.
  - rewrite shr_1_half by exact Hm. reflexivity.
Qed.

Lemma shr_fexp_bound (m e : Z) (l : location) :
  0 <= m ->
  0 <= shr_m (fst (shr_fexp Js.prec Js.emax m e l))
  /\ Zdigits2 (shr_m (fst (shr_fexp Js.prec Js.emax m e l))) <= 53
  /\ snd (shr_fexp Js.prec Js.emax m e l) <= Z.max e (fexp Js.prec Js.emax (Zdigits2 m + e))
  /\ Zdigits2 (shr_m (fst (shr_fexp Js.prec Js.emax m e l))) + snd (shr_fexp Js.prec Js.emax m e l)
     <= Z.max (Zdigits2 m + e) (-1074).
Proof.
  intros Hm. unfold shr_fexp, shr.
  assert (Hrec : shr_m (shr_record_of_loc m l) = m) by (destruct l as [|[| |]]; reflexivity).
  pose proof (Zdigits2_nonneg m) as Hd.
  rewrite fexp_eq.
  destruct (Z.max (Zdigits2 m + e - 53) (-1074) - e) as [|n|n] eqn:En; simpl fst; simpl snd.
  - rewrite Hrec. repeat split; lia.
  - rewrite iter_shr_1 by (rewrite Hrec; exact Hm). rewrite Hrec.
    pose proof (Zdigits2_shiftr m (Zpos n) Hm ltac:(lia)).
    split; [apply Z.div_pos; [exact Hm | apply Z.pow_pos_nonneg; lia]|].
    repeat split; lia.
  - rewrite Hrec. repeat split; lia.
Qed.

Lemma round_nearest_even_bound (m : Z) (l : location) :
  0 <= m -> m <= round_nearest_even m l <= m + 1.
Proof.
  intros Hm. destruct l as [|[| |]]; simpl; try lia.
  destruct (Z.even m); lia.
Qed.

Lemma binary_round_aux_stages (mx ex : Z) (lx : location) :
  0 <= mx ->
  exists m e,
    0 <= m /\ Zdigits2 m <= 53
    /\ e <= Z.max ex (fexp Js.prec Js.emax (Zdigits2 mx + ex)) + 1
    /\ Zdigits2 m + e <= Z.max (Zdigits2 mx + ex) (-1074) + 1
    /\ binary_round_aux Js.prec Js.emax false mx ex lx
       = match m with
         | Z0 => S754_zero false
         | Zpos p => if e <=? Js.emax - Js.prec then S754_finite false p e
                     else S754_infinity false
         | Zneg _ => S754_nan
         end.
Proof.
  intros Hmx. unfold binary_round_aux.
  pose proof (shr_fexp_bound mx ex lx Hmx) as (H1 & H2 & H3 & H4).
  destruct (shr_fexp Js.prec Js.emax mx ex lx) as [mrs' e']. cbn [fst snd] in H1, H2, H3, H4.
  set (m1 := round_nearest_even (shr_m mrs') (loc_of_shr_record mrs')).
  pose proof (round_nearest_even_bound (shr_m mrs') (loc_of_shr_record mrs') H1) as Hm1.
  fold m1 in Hm1.
  assert (Hm1pos : 0 <= m1) by lia.
  assert (Hd1 : Zdigits2 m1 <= Zdigits2 (shr_m mrs') + 1).
  { pose proof (Zdigits2_mono m1 (shr_m mrs' + 1) ltac:(lia)).
    pose proof (Zdigits2_succ (shr_m mrs') H1). lia. }
  pose proof (shr_fexp_bound m1 e' loc_Exact Hm1pos) as (K1 & K2 & K3 & K4).
  destruct (shr_fexp Js.prec Js.emax m1 e' loc_Exact) as [mrs'' e''].
  cbn [fst snd] in K1, K2, K3, K4.
  exists (shr_m mrs''), e''.
  split; [exact K1|]. split; [exact K2|].
  rewrite fexp_eq in *.
  split; [lia|]. split; [lia | reflexivity].
Qed.

Lemma binary_round_aux_small (mx ex : Z) (lx : location) (B D : Z) :
  0 <= mx ->
  Z.max ex (fexp Js.prec Js.emax (Zdigits2 mx + ex)) + 1 <= B -> B <= 971 ->
  Z.max (Zdigits2 mx + ex) (-1074) + 1 <= D ->
  small B D (binary_round_aux Js.prec Js.emax false mx ex lx).
Proof.
  intros Hmx HB H971 HD.
  destruct (binary_round_aux_stages mx ex lx Hmx) as (m & e & Hm & Hd & He & Hs & ->).
  destruct m as [|p|p]; [reflexivity | | lia].
  replace (e <=? Js.emax - Js.prec) with true
    by (symmetry; apply Z.leb_le; unfold Js.emax, Js.prec; lia).
  simpl. repeat split; [exact Hd | lia | exact (Z.le_trans _ _ _ Hs HD)].
Qed.

Lemma binary_round_aux_nonneg (mx ex : Z) (lx : location) :
  0 <= mx -> Js.nonneg (binary_round_aux Js.prec Js.emax false mx ex lx) = true.
Proof.
  intros Hmx.
  destruct (binary_round_aux_stages mx ex lx Hmx) as (m & e & Hm & _ & _ & _ & ->).
  destruct m as [|p|p]; [reflexivity | | lia].
  destruct (e <=? Js.emax - Js.prec); reflexivity.
Qed.

Lemma digits2_pos_iter_xO (p d : positive) :
  Zpos (digits2_pos (Pos.iter xO p d)) = Zpos (digits2_pos p) + Zpos d.
Proof.
  induction d as [|d IH] using Pos.peano_ind.
  - simpl. lia.
  - rewrite Pos.iter_succ. simpl digits2_pos. lia.
Qed.

Lemma shl_align_bound (mx : positive) (ex ex' : Z) :
  snd (shl_align mx ex ex') <= ex
  /\ Zdigits2 (Zpos (fst (shl_align mx ex ex'))) + snd (shl_align mx ex ex')
     = Zdigits2 (Zpos mx) + ex.
Proof.
  unfold shl_align. destruct (ex' - ex) as [|d|d] eqn:E; simpl fst; simpl snd;
    try (split; [lia | reflexivity]).
  split; [lia|]. simpl Zdigits2. rewrite digits2_pos_iter_xO. lia.
Qed.

Lemma Zdigits2_below (p : positive) (k : Z) : Zpos p < 2 ^ k -> Zdigits2 (Zpos p) <= k.
Proof.
  intros Hlt. rewrite Zdigits2_log2.
  pose proof (proj1 (Z.log2_lt_pow2 (Zpos p) k ltac:(lia)) Hlt). lia.
Qed.

Lemma Zdigits2_above (p : positive) : Zpos p < 2 ^ Zdigits2 (Zpos p).
Proof.
  rewrite Zdigits2_log2.
  pose proof (Z.log2_spec (Zpos p) ltac:(lia)) as [_ H].
  replace (Z.log2 (Zpos p) + 1) with (Z.succ (Z.log2 (Zpos p))) by lia. exact H.
Qed.

Lemma ofZ_small (z k : Z) : 0 <= k <= 53 -> 0 <= z < 2 ^ k -> small 1 (k + 1) (Js.ofZ z).
Proof.
  intros Hk [Hz Hlt]. unfold Js.ofZ, binary_normalize.
  destruct z as [|p|p]; [reflexivity | | lia].
  unfold binary_round.
  pose proof (shl_align_bound p 0 (fexp Js.prec Js.emax (Zpos (digits2_pos p) + 0))) as [He Hd].
  destruct (shl_align p 0 _) as [mz ez]. cbn [fst snd] in He, Hd.
  pose proof (Zdigits2_below p k Hlt) as Hp.
  apply binary_round_aux_small; rewrite ?fexp_eq; lia.
Qed.

Lemma Zdigits2_mul_pow2 (m : positive) (s : Z) :
  0 <= s -> Zdigits2 (Zpos m * 2 ^ s) = Zdigits2 (Zpos m) + s.
Proof.
  intros Hs.
  assert (Hpos : 0 < Zpos m * 2 ^ s) by (apply Z.mul_pos_pos; [lia | apply Z.pow_pos_nonneg; lia]).
  destruct (Zpos m * 2 ^ s) as [|q|q] eqn:E; try lia.
  rewrite !Zdigits2_log2, <- E, Z.log2_mul_pow2 by lia. lia.
Qed.

Lemma Zdigits2_mul (a b : positive) :
  Zdigits2 (Zpos (a * b)) <= Zdigits2 (Zpos a) + Zdigits2 (Zpos b).
Proof.
  rewrite !Zdigits2_log2, Pos2Z.inj_mul.
  pose proof (Z.log2_mul_above (Zpos a) (Zpos b) ltac:(lia) ltac:(lia)). lia.
Qed.

(** The quotient of [a] by [b] has at most one digit more than [a] has
    over [b]. *)
Lemma Zdigits2_quotient (a : Z) (b q : positive) :
  Zpos q * Zpos b <= a -> Zdigits2 (Zpos q) <= Zdigits2 a - Zdigits2 (Zpos b) + 1.
Proof.
  intros Hq.
  destruct a as [|a|a]; try lia.
  pose proof (Zdigits2_above a) as Ha.
  rewrite !Zdigits2_log2 in *.
  pose proof (Z.log2_spec (Zpos q) ltac:(lia)) as [Hq1 _].
  pose proof (Z.log2_spec (Zpos b) ltac:(lia)) as [Hb1 _].
  pose proof (Z.log2_nonneg (Zpos q)) as Hq0.
  pose proof (Z.log2_nonneg (Zpos b)) as Hb0.
  pose proof (Z.log2_nonneg (Zpos a)) as Ha0.
  assert (Hprod : 2 ^ (Z.log2 (Zpos q) + Z.log2 (Zpos b)) < 2 ^ (Z.log2 (Zpos a) + 1)).
  { rewrite Z.pow_add_r by lia.
    apply Z.le_lt_trans with (Zpos q * Zpos b); [|lia].
    apply Z.mul_le_mono_nonneg; try lia; apply Z.pow_nonneg; lia. }
  apply Z.pow_lt_mono_r_iff in Hprod; lia.
Qed.

Lemma SFdiv_core_bound (mx my : positive) (ex ey : Z) :
  Zdigits2 (Zpos mx) <= 53 ->
  let '(mz, ez, _) := SFdiv_core_binary Js.prec Js.emax (Zpos mx) ex (Zpos my) ey in
  0 <= mz
  /\ Z.max ez (fexp Js.prec Js.emax (Zdigits2 mz + ez)) <= Z.max (ex - ey) (-1074)
  /\ Zdigits2 mz + ez
     <= Z.max (Zdigits2 (Zpos mx) + ex - (Zdigits2 (Zpos my) + ey) + 1) (-1074).
Proof.
  intros Hdx. unfold SFdiv_core_binary.
  set (e' := Z.min _ (ex - ey)).
  assert (He' : e' <= ex - ey) by (unfold e'; lia).
  assert (He'' : e' <= Z.max (Zdigits2 (Zpos mx) + ex - (Zdigits2 (Zpos my) + ey) - 53) (-1074)).
  { unfold e'. rewrite fexp_eq. apply Z.le_min_l. }
  set (m' := match ex - ey - e' with
             | Z0 => Zpos mx
             | Zpos _ => Z.shiftl (Zpos mx) (ex - ey - e')
             | Zneg _ => 0
             end).
  assert (Hm' : m' = Zpos mx * 2 ^ (ex - ey - e')).
  { unfold m'. destruct (ex - ey - e') as [|s|s] eqn:Es; [simpl; lia | | lia].
    apply Z.shiftl_mul_pow2. lia. }
  pose proof (Z_div_mod m' (Zpos my) ltac:(lia)) as Hdm.
  destruct (Z.div_eucl m' (Zpos my)) as [q r]. destruct Hdm as [Hq Hr].
  assert (Hm'pos : 0 < m').
  { rewrite Hm'. apply Z.mul_pos_pos; [lia | apply Z.pow_pos_nonneg; lia]. }
  assert (Hq0 : 0 <= q) by nia.
  assert (Hqm : q <= m') by nia.
  split; [exact Hq0|].
  pose proof (Zdigits2_mono q m' ltac:(lia)) as Hdq.
  assert (Hdm' : Zdigits2 m' = Zdigits2 (Zpos mx) + (ex - ey - e')).
  { rewrite Hm'. apply Zdigits2_mul_pow2. lia. }
  split; [rewrite fexp_eq; lia|].
  destruct q as [|q|q]; [change (Zdigits2 0) with 0; lia | | lia].
  pose proof (Zdigits2_quotient m' my q ltac:(nia)) as Hquot. lia.
Qed.

Lemma div_small (x : Js.number) (my : positive) (ey Bx Dx B D : Z) :
  small Bx Dx x ->
  Z.max (Bx - ey) (-1074) + 1 <= B -> B <= 971 ->
  Z.max (Dx - (Zdigits2 (Zpos my) + ey) + 1) (-1074) + 1 <= D ->
  small B D (Js.div x (S754_finite false my ey)).
Proof.
  intros Hx HB H971 HD. unfold Js.div, SFdiv.
  destruct x as [s|s| |s mx ex]; unfold small in Hx; try contradiction.
  - subst s. reflexivity.
  - destruct Hx as (-> & Hd & He & Hs). simpl xorb.
    pose proof (SFdiv_core_bound mx my ex ey Hd) as Hcore.
    destruct (SFdiv_core_binary Js.prec Js.emax (Zpos mx) ex (Zpos my) ey) as [[mz ez] lz].
    destruct Hcore as (Hmz & Hez & Hsz).
    apply binary_round_aux_small; [exact Hmz | lia | exact H971 | lia].
Qed.

Lemma mul_small (x y : Js.number) (Bx Dx By Dy B D : Z) :
  small Bx Dx x -> small By Dy y ->
  Z.max (Bx + By) (Z.max (Dx + Dy - 53) (-1074)) + 1 <= B -> B <= 971 ->
  Z.max (Dx + Dy) (-1074) + 1 <= D ->
  small B D (Js.mul x y).
Proof.
  intros Hx Hy HB H971 HD. unfold Js.mul, SFmul.
  destruct x as [sx|sx| |sx mx ex]; unfold small in Hx; try contradiction;
    destruct y as [sy|sy| |sy my ey]; unfold small in Hy; try contradiction.
  - subst. reflexivity.
  - destruct Hy as (-> & _). subst. reflexivity.
  - destruct Hx as (-> & _). subst. reflexivity.
  - destruct Hx as (-> & Hdx & Hex & Hsx), Hy as (-> & Hdy & Hey & Hsy). simpl xorb.
    pose proof (Zdigits2_mul mx my) as Hmul.
    apply binary_round_aux_small; rewrite ?fexp_eq; lia.
Qed.

Lemma small_nonneg (B D : Z) (x : Js.number) : small B D x -> Js.nonneg x = true.
Proof.
  destruct x as [s|s| |s m e]; unfold small; try contradiction.
  - intros ->. reflexivity.
  - intros (-> & _). reflexivity.
Qed.

Lemma nearestHundredths_nonneg (m : positive) (e : Z) : 0 <= Js.nearestHundredths m e.
Proof.
  unfold Js.nearestHundredths. destruct e as [|e|k].
  - lia.
  - pose proof (Z.pow_nonneg 2 (Zpos e) ltac:(lia)). nia.
  - apply Z.div_pos.
    + pose proof (Z.pow_nonneg 2 (Zpos k) ltac:(lia)). lia.
    + apply Z.pow_pos_nonneg; lia.
Qed.

(** Below [2^69] the number is below [10^21], so [toFixed(2)] writes it in
    fixed notation, and without a sign. *)
Lemma small_toFixed2 (B D : Z) (x : Js.number) :
  small B D x -> D <= 69 ->
  exists n, 0 <= n /\ Js.toFixed2 x = Some (Js.fixed2 n).
Proof.
  destruct x as [s|s| |s m e]; unfold small, Js.toFixed2; try contradiction.
  - intros _ _. exists 0. split; [lia | reflexivity].
  - intros (-> & Hd & He & Hs) HD.
    assert (Hlt : Js.atLeast1e21 m e = false).
    { pose proof (Zdigits2_above m) as Hm.
      pose proof (Zdigits2_nonneg (Zpos m)) as Hd0.
      assert (H69 : 2 ^ 69 < 10 ^ 21) by reflexivity.
      unfold Js.atLeast1e21. destruct e as [|e|k]; apply Z.leb_gt.
      - rewrite Z.pow_0_r, Z.mul_1_r.
        apply Z.lt_trans with (2 ^ 69); [|exact H69].
        apply Z.lt_le_trans with (2 ^ Zdigits2 (Zpos m)); [exact Hm|].
        apply Z.pow_le_mono_r; lia.
      - apply Z.lt_trans with (2 ^ 69); [|exact H69].
        apply Z.lt_le_trans with (2 ^ Zdigits2 (Zpos m) * 2 ^ Zpos e).
        + apply Z.mul_lt_mono_pos_r; [apply Z.pow_pos_nonneg; lia | exact Hm].
        + rewrite <- Z.pow_add_r by lia. apply Z.pow_le_mono_r; lia.
      - apply Z.lt_le_trans with (2 ^ Zdigits2 (Zpos m)); [exact Hm|].
        apply Z.le_trans with (2 ^ 69 * 2 ^ Zpos k).
        + rewrite <- Z.pow_add_r by lia. apply Z.pow_le_mono_r; lia.
        + apply Z.mul_le_mono_nonneg_r; [apply Z.pow_nonneg; lia | lia]. }
    rewrite Hlt. exists (Js.nearestHundredths m e).
    split; [apply nearestHundredths_nonneg | reflexivity].
Qed.

Lemma hours_small (totalWorkingTime : Z) :
  0 <= totalWorkingTime < 2 ^ 53 -> small 33 34 (hours totalWorkingTime).
Proof.
  intros Ht. unfold hours.
  replace (Js.ofZ msPerHour) with (S754_finite false 7730941132800000 (-31))
    by (vm_compute; reflexivity).
  apply div_small with (Bx := 1) (Dx := 54);
    [apply (ofZ_small _ 53); [lia | exact Ht] | lia | lia | simpl Zdigits2; lia].
Qed.

Lemma pay_nonneg (totalWorkingTime payRate : Z) :
  0 <= totalWorkingTime < 2 ^ 53 -> 0 <= payRate < 2 ^ 53 ->
  Js.nonneg (pay totalWorkingTime payRate) = true.
Proof.
  intros Ht Hr. unfold pay, Js.parseFloat2.
  replace (Js.ofZ 100) with (S754_finite false 7036874417766400 (-46))
    by (vm_compute; reflexivity).
  apply small_nonneg with (B := 82) (D := 84).
  apply mul_small with (Bx := 33) (Dx := 34) (By := 48) (Dy := 49);
    [apply hours_small, Ht | | lia | lia | lia].
  apply div_small with (Bx := 1) (Dx := 54);
    [apply (ofZ_small _ 53); [lia | exact Hr] | lia | lia | simpl Zdigits2; lia].
Qed.


(** ** Rounding in [toFixed(2)] *)

Lemma substring_length (s : string) :
  forall n m : nat, (n + m <= String.length s)%nat -> String.length (substring n m s) = m.
Proof.
  induction s as [|c s IH]; intros n m H; simpl in H.
  - destruct n, m; simpl in *; try reflexivity; lia.
  - destruct n as [|n]; [destruct m as [|m]|]; simpl.
    + reflexivity.
    + f_equal. apply (IH O m). simpl. lia.
    + apply IH. lia.
Qed.

Lemma append_length (a b : string) :
  String.length (String.append a b) = (String.length a + String.length b)%nat.
Proof. induction a as [|c a IH]; simpl; [reflexivity | rewrite IH; reflexivity]. Qed.

Lemma zeros_length (k : nat) : String.length (Js.zeros k) = k.
Proof. induction k as [|k IH]; simpl; [reflexivity | rewrite IH; reflexivity]. Qed.

(** The text has a point and exactly two digits after it. *)
Lemma fixed2_shape (n : Z) :
  exists whole cents,
    Js.fixed2 n = String.append whole (String.append "." cents)
    /\ String.length cents = 2%nat
    /\ (1 <= String.length whole)%nat.
Proof.
  unfold Js.fixed2.
  set (m := Js.padStart 3 (Js.digits n)).
  assert (Hm : (3 <= String.length m)%nat).
  { unfold m, Js.padStart. rewrite append_length, zeros_length. lia. }
  exists (substring 0 (String.length m - 2) m), (substring (String.length m - 2) 2 m).
  split; [reflexivity|].
  rewrite !substring_length by lia. lia.
Qed.

Lemma nearestHundredths_nearest (m k : positive) :
  let n := Js.nearestHundredths m (Zneg k) in
  2 ^ (Zpos k + 1) * n <= 200 * Zpos m + 2 ^ Zpos k < 2 ^ (Zpos k + 1) * (n + 1).
Proof.
  cbv zeta. unfold Js.nearestHundredths.
  assert (Hpos : 0 < 2 ^ (Zpos k + 1)) by (apply Z.pow_pos_nonneg; lia).
  pose proof (Z.div_mod (200 * Zpos m + 2 ^ Zpos k) (2 ^ (Zpos k + 1))) as Hdm.
  pose proof (Z.mod_pos_bound (200 * Zpos m + 2 ^ Zpos k) (2 ^ (Zpos k + 1)) Hpos) as Hb.
  specialize (Hdm ltac:(lia)).
  set (q := (200 * Zpos m + 2 ^ Zpos k) / 2 ^ (Zpos k + 1)) in *.
  set (r := (200 * Zpos m + 2 ^ Zpos k) mod 2 ^ (Zpos k + 1)) in *.
  lia.
Qed.

Lemma nearestHundredths_exact (m : positive) (e : Z) :
  0 <= e -> Js.nearestHundredths m e = 100 * (Zpos m * 2 ^ e).
Proof. destruct e; [reflexivity | reflexivity | lia]. Qed.

(** ** Timecard: totals *)

(** C4.  The total worked duration of a timecard is the sum of the worked
    durations of its daily entries, whatever the punches are. *)
Theorem timecard_total_is_sum_of_days
        (employeeId : string) (startDate endDate : Z) (db : Db) (employee : ClockEmployee.t) :
  fst (getClockEmployee employeeId db) = inr (Some employee) ->
  exists tc,
    getEmployeeTimeCard employeeId startDate endDate db = (inr tc, db)
    /\ TimeCard.totalWorkingTime tc
       = sumZ (map (fun kd => DayReport.workingTime (snd kd)) (TimeCard.dailyReport tc)).
Proof.
  intros Hfound. rewrite (getEmployeeTimeCard_found _ _ _ _ _ Hfound).
  eexists. split; reflexivity.
Qed.

Lemma timecard_total_is_sum_of_days_witness :
  fst (getClockEmployee "e1" SampleDb.twoDaysDb) = inr (Some Sample.ann)
  /\ exists tc,
       getEmployeeTimeCard "e1" (Sample.at_ 0) (Sample.at_ 48) SampleDb.twoDaysDb
       = (inr tc, SampleDb.twoDaysDb)
       /\ TimeCard.totalWorkingTime tc
          = sumZ (map (fun kd => DayReport.workingTime (snd kd)) (TimeCard.dailyReport tc)).
Proof.
  split; [reflexivity|].
  apply (timecard_total_is_sum_of_days "e1" (Sample.at_ 0) (Sample.at_ 48)
           SampleDb.twoDaysDb Sample.ann).
  reflexivity.
Defined.

Example two_days_total :
  option_map (fun tc => (dayFigures tc, TimeCard.totalWorkingTime tc, TimeCard.totalPay tc))
    (resolved (getEmployeeTimeCard "e1" (Sample.at_ 0) (Sample.at_ 48) SampleDb.twoDaysDb))
  = Some ([("2024-01-15", 8 * msPerHour, 0); ("2024-01-16", 4 * msPerHour, 0)],
          12 * msPerHour, Some "300.00").
Proof. vm_compute. reflexivity. Qed.

(** ** The date text and the UTC day *)

Lemma allFrom_spec (p : Z -> bool) (count : nat) (from z : Z) :
  allFrom p from count = true -> from <= z < from + Z.of_nat count -> p z = true.
Proof.
  revert from. induction count as [|count IH]; intros from Hall Hz; [lia|].
  cbn [allFrom] in Hall. apply andb_true_iff in Hall. destruct Hall as [Hfrom Hrest].
  destruct (Z.eq_dec z from) as [-> | Hneq]; [exact Hfrom|].
  apply (IH (from + 1)); [exact Hrest | lia].
Qed.

Lemma civilFromDays_era (day k : Z) :
  Js.civilFromDays (day + 146097 * k)
  = let '(y, m, d) := Js.civilFromDays day in (y + 400 * k, m, d).
Proof.
  unfold Js.civilFromDays.
  replace (day + 146097 * k + 719468) with (day + 719468 + k * 146097) by lia.
  rewrite Z.div_add, Z.mod_add by lia.
  set (doe := (day + 719468) mod 146097).
  set (yoe := (doe - doe / 1460 + doe / 36524 - doe / 146096) / 365).
  set (doy := doe - (365 * yoe + yoe / 4 - yoe / 100)).
  set (mp := (5 * doy + 2) / 153).
  cbv zeta.
  destruct ((if mp <? 10 then mp + 3 else mp - 9) <=? 2); f_equal; f_equal; lia.
Qed.

Lemma dayFromYear_era (y k : Z) : Ecma.dayFromYear (y + 400 * k) = Ecma.dayFromYear y + 146097 * k.
Proof.
  unfold Ecma.dayFromYear.
  replace (y + 400 * k - 1969) with (y - 1969 + (100 * k) * 4) by lia.
  replace (y + 400 * k - 1901) with (y - 1901 + (4 * k) * 100) by lia.
  replace (y + 400 * k - 1601) with (y - 1601 + k * 400) by lia.
  rewrite !Z.div_add by lia. lia.
Qed.

Lemma inLeapYear_era (y k : Z) : Ecma.inLeapYear (y + 400 * k) = Ecma.inLeapYear y.
Proof.
  unfold Ecma.inLeapYear.
  replace (y + 400 * k) with (y + (100 * k) * 4) at 1 by lia.
  replace (y + 400 * k) with (y + (4 * k) * 100) at 1 by lia.
  replace (y + 400 * k) with (y + k * 400) by lia.
  rewrite !Z.mod_add by lia. reflexivity.
Qed.

Lemma daysBefore_era (y k m : Z) : Ecma.daysBefore (y + 400 * k) m = Ecma.daysBefore y m.
Proof. unfold Ecma.daysBefore. rewrite inLeapYear_era. reflexivity. Qed.

Lemma years_checked (yoe : Z) : 0 <= yoe <= 399 -> yearChecked yoe = true.
Proof.
  intros H. apply (allFrom_spec yearChecked 400 0); [vm_compute; reflexivity | lia].
Qed.

Lemma days_checked (doy : Z) : 0 <= doy <= 365 -> dayChecked doy = true.
Proof.
  intros H. apply (allFrom_spec dayChecked 366 0); [vm_compute; reflexivity | lia].
Qed.

Lemma yearOfEra_step (doe : Z) :
  0 <= doe < 146096 ->
  doe - doe / 1460 + doe / 36524 - doe / 146096
  <= doe + 1 - (doe + 1) / 1460 + (doe + 1) / 36524 - (doe + 1) / 146096.
Proof. intros H. Z.div_mod_to_equations. lia. Qed.

Lemma yearOfEra_mono (a b : Z) : 0 <= a <= b -> b <= 146096 -> yearOfEra a <= yearOfEra b.
Proof.
  intros [Ha Hab] Hb. unfold yearOfEra. apply Z.div_le_mono; [lia|].
  revert Hb. pattern b. apply (Zlt_lower_bound_ind _ a); [|exact Hab].
  intros x IH Hx Hb. destruct (Z.eq_dec x a) as [-> | Hneq]; [lia|].
  pose proof (IH (x - 1) ltac:(lia) ltac:(lia)) as Hprev.
  pose proof (yearOfEra_step (x - 1) ltac:(lia)) as Hstep.
  replace (x - 1 + 1) with x in Hstep by lia. lia.
Qed.

(** The year of the era that [civilFromDays] finds is the one the day
    lies in. *)
Lemma yearOfEra_spec (doe : Z) :
  0 <= doe <= 146096 ->
  0 <= yearOfEra doe <= 399 /\ yearStart (yearOfEra doe) <= doe <= yearEnd (yearOfEra doe).
Proof.
  intros Hdoe.
  assert (Hat : forall yoe, 0 <= yoe <= 399 ->
                            yearOfEra (yearStart yoe) = yoe /\ yearOfEra (yearEnd yoe) = yoe
                            /\ 0 <= yearStart yoe <= yearEnd yoe /\ yearEnd yoe <= 146096).
  { intros yoe Hy. pose proof (years_checked yoe Hy) as Hc. unfold yearChecked in Hc.
    rewrite !andb_true_iff, !Z.eqb_eq in Hc. destruct Hc as (((((H1 & H2) & _) & _) & H5) & _).
    split; [exact H1|]. split; [exact H2|].
    assert (0 <= leapDay (yoe + 1) <= 1) by (unfold leapDay; destruct Ecma.inLeapYear; lia).
    assert (0 <= yearStart yoe).
    { unfold yearStart. Z.div_mod_to_equations. lia. }
    assert (yearEnd yoe <= 146096).
    { unfold yearEnd. destruct (yoe =? 399) eqn:E; [lia|]. apply Z.eqb_neq in E.
      unfold yearStart. Z.div_mod_to_equations. lia. }
    lia. }
  assert (Hlow : 0 <= yearOfEra doe).
  { change 0 with (yearOfEra 0). apply yearOfEra_mono; lia. }
  assert (Hhigh : yearOfEra doe <= 399).
  { change 399 with (yearOfEra 146096). apply yearOfEra_mono; lia. }
  split; [lia|].
  set (yoe := yearOfEra doe) in *.
  destruct (Hat yoe ltac:(lia)) as (_ & _ & Hse & Hend).
  split.
  - destruct (Z_lt_le_dec doe (yearStart yoe)) as [Hlt | Hle]; [exfalso | exact Hle].
    assert (Hpos : 1 <= yoe).
    { destruct (Z.eq_dec yoe 0) as [E | E]; [|lia]. rewrite E in Hlt.
      change (yearStart 0) with 0 in Hlt. lia. }
    destruct (Hat (yoe - 1) ltac:(lia)) as (_ & Hprev & _ & Hprevend).
    assert (Hadj : yearEnd (yoe - 1) = yearStart yoe - 1).
    { unfold yearEnd. replace (yoe - 1 + 1) with yoe by lia.
      destruct (yoe - 1 =? 399) eqn:E; [apply Z.eqb_eq in E; lia | reflexivity]. }
    pose proof (yearOfEra_mono doe (yearEnd (yoe - 1)) ltac:(lia) Hprevend) as Hm.
    fold yoe in Hm. lia.
  - destruct (Z_lt_le_dec (yearEnd yoe) doe) as [Hlt | Hle]; [exfalso | exact Hle].
    assert (Hnot : yoe <> 399).
    { intros E. rewrite E in Hlt. change (yearEnd 399) with 146096 in Hlt. lia. }
    destruct (Hat (yoe + 1) ltac:(lia)) as (Hnext & _ & Hnn & _).
    assert (Hadj : yearEnd yoe = yearStart (yoe + 1) - 1).
    { unfold yearEnd. destruct (yoe =? 399) eqn:E; [apply Z.eqb_eq in E; lia | reflexivity]. }
    pose proof (yearOfEra_mono (yearStart (yoe + 1)) doe ltac:(lia) ltac:(lia)) as Hm.
    fold yoe in Hm. lia.
Qed.

Lemma civilFromDays_steps (doe : Z) :
  0 <= doe <= 146096 ->
  Js.civilFromDays (doe - 719468)
  = let yoe := yearOfEra doe in
    let '(m, d) := monthDay (doe - yearStart yoe) in
    (if m <=? 2 then yoe + 1 else yoe, m, d).
Proof.
  intros H. unfold Js.civilFromDays, monthDay, yearStart, yearOfEra.
  replace (doe - 719468 + 719468) with doe by lia.
  rewrite (Z.div_small doe 146097), (Z.mod_small doe 146097) by lia. cbv zeta.
  rewrite Z.mul_0_l, Z.add_0_r. reflexivity.
Qed.

Lemma daysBefore_leap (y m : Z) :
  1 <= m <= 13 ->
  Ecma.daysBefore y m = Ecma.daysBefore 1 m + (if 3 <=? m then leapDay y else 0).
Proof.
  intros Hm.
  assert (Hcases : m = 1 \/ m = 2 \/ m = 3 \/ m = 4 \/ m = 5 \/ m = 6 \/ m = 7 \/ m = 8
                   \/ m = 9 \/ m = 10 \/ m = 11 \/ m = 12 \/ m = 13) by lia.
  unfold Ecma.daysBefore, leapDay. change (Ecma.inLeapYear 1) with false. cbv iota.
  repeat (destruct Hcases as [-> | Hcases]; [simpl; lia|]). subst m. simpl. lia.
Qed.

(** Within the era that holds the epoch. *)
Lemma civilFromDays_isDate_era (doe : Z) :
  0 <= doe <= 146096 ->
  let '(y, m, d) := Js.civilFromDays (doe - 719468) in Ecma.isDate (doe - 719468) y m d.
Proof.
  intros Hdoe. rewrite (civilFromDays_steps doe Hdoe). cbv zeta.
  destruct (yearOfEra_spec doe Hdoe) as [Hyoe [Hstart Hend]].
  set (yoe := yearOfEra doe) in *.
  pose proof (years_checked yoe Hyoe) as Hc. unfold yearChecked in Hc.
  rewrite !andb_true_iff, !Z.eqb_eq in Hc.
  destruct Hc as (((((_ & _) & Hmarch) & Hjan) & Hlen) & Hnext).
  set (doy := doe - yearStart yoe) in *.
  assert (Hleap : 0 <= leapDay (yoe + 1) <= 1) by (unfold leapDay; destruct Ecma.inLeapYear; lia).
  assert (Hleap0 : 0 <= leapDay yoe <= 1) by (unfold leapDay; destruct Ecma.inLeapYear; lia).
  assert (Hdoy : 0 <= doy <= 365) by lia.
  pose proof (days_checked doy Hdoy) as Hd. unfold dayChecked in Hd.
  destruct (monthDay doy) as [m d].
  destruct (doy <=? 305) eqn:Ehalf.
  - apply Z.leb_le in Ehalf.
    rewrite !andb_true_iff, !Z.leb_le, Z.ltb_lt, Z.eqb_eq in Hd.
    destruct Hd as ((((Hm3 & Hm12) & Hlo) & Hhi) & ->).
    replace (m <=? 2) with false by (symmetry; apply Z.leb_gt; lia).
    unfold Ecma.isDate.
    rewrite (daysBefore_leap yoe m ltac:(lia)), (daysBefore_leap yoe (m + 1) ltac:(lia)).
    replace (3 <=? m) with true by (symmetry; apply Z.leb_le; lia).
    replace (3 <=? m + 1) with true by (symmetry; apply Z.leb_le; lia).
    lia.
  - apply Z.leb_gt in Ehalf.
    rewrite !andb_true_iff, orb_true_iff, !Z.leb_le, Z.ltb_lt, !Z.eqb_eq in Hd.
    destruct Hd as ((((Hm1 & Hm2) & Hlo) & Hhi) & ->).
    replace (m <=? 2) with true by (symmetry; apply Z.leb_le; lia).
    unfold Ecma.isDate.
    replace (yoe + 1 + 1) with (yoe + 2) by lia.
    rewrite (daysBefore_leap (yoe + 1) m ltac:(lia)),
            (daysBefore_leap (yoe + 1) (m + 1) ltac:(lia)).
    replace (3 <=? m) with false by (symmetry; apply Z.leb_gt; lia).
    assert (Hm : m = 1 \/ m = 2) by lia.
    destruct Hm as [-> | ->];
      change (Ecma.daysBefore 1 1) with 0 in *; change (Ecma.daysBefore 1 2) with 31 in *;
      change (Ecma.daysBefore 1 (1 + 1)) with 31; change (Ecma.daysBefore 1 (2 + 1)) with 59;
      change (3 <=? 1 + 1) with false; change (3 <=? 2 + 1) with true; cbv iota;
      destruct Hhi as [Hhi | Hhi]; try discriminate Hhi; lia.
Qed.

(** [civilFromDays] computes the date of ECMA-262, for every day number. *)
Lemma civilFromDays_isDate (day : Z) :
  let '(y, m, d) := Js.civilFromDays day in Ecma.isDate day y m d.
Proof.
  set (k := (day + 719468) / 146097).
  set (doe := (day + 719468) mod 146097).
  assert (Hday : day = doe - 719468 + 146097 * k).
  { unfold doe, k. pose proof (Z.div_mod (day + 719468) 146097 ltac:(lia)). lia. }
  assert (Hdoe : 0 <= doe <= 146096).
  { unfold doe. pose proof (Z.mod_pos_bound (day + 719468) 146097 ltac:(lia)). lia. }
  pose proof (civilFromDays_isDate_era doe Hdoe) as Hok.
  rewrite Hday, civilFromDays_era.
  destruct (Js.civilFromDays (doe - 719468)) as [[y m] d].
  unfold Ecma.isDate in *.
  replace (y + 400 * k + 1) with (y + 1 + 400 * k) by lia.
  rewrite !dayFromYear_era, !daysBefore_era. lia.
Qed.

Lemma dayFromYear_step (y : Z) : Ecma.dayFromYear y + 365 <= Ecma.dayFromYear (y + 1).
Proof.
  unfold Ecma.dayFromYear.
  pose proof (Z.div_le_mono (y - 1969) (y + 1 - 1969) 4 ltac:(lia) ltac:(lia)).
  pose proof (Z.div_le_mono (y - 1601) (y + 1 - 1601) 400 ltac:(lia) ltac:(lia)).
  assert ((y + 1 - 1901) / 100 - (y - 1901) / 100 <= (y + 1 - 1969) / 4 - (y - 1969) / 4
          + ((y + 1 - 1601) / 400 - (y - 1601) / 400)).
  { Z.div_mod_to_equations. lia. }
  lia.
Qed.

Lemma isDate_day (day y m d : Z) :
  Ecma.isDate day y m d -> day = Ecma.dayFromYear y + Ecma.daysBefore y m + (d - 1).
Proof. unfold Ecma.isDate. lia. Qed.

Lemma isDate_month_day (day y m d : Z) : Ecma.isDate day y m d -> 1 <= m <= 12 /\ 1 <= d <= 31.
Proof.
  unfold Ecma.isDate. intros (_ & Hm & Hin & ->). split; [exact Hm|].
  assert (Hcases : m = 1 \/ m = 2 \/ m = 3 \/ m = 4 \/ m = 5 \/ m = 6 \/ m = 7 \/ m = 8
                   \/ m = 9 \/ m = 10 \/ m = 11 \/ m = 12) by lia.
  revert Hin. unfold Ecma.daysBefore.
  destruct (Ecma.inLeapYear y);
    repeat (destruct Hcases as [-> | Hcases]; [simpl; lia|]); subst m; simpl; lia.
Qed.

Lemma civilFromDays_inj (a b : Z) : Js.civilFromDays a = Js.civilFromDays b -> a = b.
Proof.
  intros Heq. pose proof (civilFromDays_isDate a) as Ha. pose proof (civilFromDays_isDate b) as Hb.
  rewrite Heq in Ha. destruct (Js.civilFromDays b) as [[y m] d].
  rewrite (isDate_day _ _ _ _ Ha), (isDate_day _ _ _ _ Hb). reflexivity.
Qed.

Lemma toISODate_same_day (a b : Z) : Js.Day a = Js.Day b -> Js.toISODate a = Js.toISODate b.
Proof. unfold Js.toISODate. intros ->. reflexivity. Qed.

(** *** Decimal text read back *)

Lemma numberOf_digits (n : Z) : numberOf (Js.digits n) = Some (Z.to_N n).
Proof.
  unfold numberOf, Js.digits.
  pose proof (DecimalN.Unsigned.of_to (Z.to_N n)) as Hback.
  destruct (N.to_uint (Z.to_N n)) as [|d|d|d|d|d|d|d|d|d|d] eqn:E;
    try (unfold NilZero.string_of_uint; rewrite NilEmpty.usu; cbn [option_map];
         rewrite Hback; reflexivity).
  simpl. rewrite <- Hback. reflexivity.
Qed.

Lemma numberOf_zero (s : string) : numberOf (String "0" s) = numberOf s.
Proof.
  unfold numberOf. cbn [NilEmpty.uint_of_string].
  destruct (NilEmpty.uint_of_string s); reflexivity.
Qed.

Lemma numberOf_padStart (width : nat) (n : Z) :
  numberOf (Js.padStart width (Js.digits n)) = Some (Z.to_N n).
Proof.
  unfold Js.padStart.
  induction (width - String.length (Js.digits n))%nat as [|k IH]; cbn [Js.zeros String.append].
  - apply numberOf_digits.
  - rewrite numberOf_zero. exact IH.
Qed.

Lemma padStart_digits_inj (width width' : nat) (a b : Z) :
  0 <= a -> 0 <= b ->
  Js.padStart width (Js.digits a) = Js.padStart width' (Js.digits b) -> a = b.
Proof.
  intros Ha Hb Heq.
  pose proof (numberOf_padStart width a) as H1. rewrite Heq, numberOf_padStart in H1.
  injection H1 as H1. lia.
Qed.

Lemma numberOf_signed (s : string) :
  numberOf (String "-" s) = None /\ numberOf (String "+" s) = None.
Proof.
  unfold numberOf. cbn [NilEmpty.uint_of_string].
  destruct (NilEmpty.uint_of_string s); split; reflexivity.
Qed.

Lemma yearText_inj (y y' : Z) : Js.yearText y = Js.yearText y' -> y = y'.
Proof.
  unfold Js.yearText.
  destruct ((0 <=? y) && (y <=? 9999)) eqn:E; destruct ((0 <=? y') && (y' <=? 9999)) eqn:E'.
  - apply andb_true_iff in E, E'. apply padStart_digits_inj; lia.
  - intros Heq. pose proof (numberOf_padStart 4 y) as H. rewrite Heq in H.
    destruct (y' <? 0); cbn [String.append] in H;
      [rewrite (proj1 (numberOf_signed _)) in H | rewrite (proj2 (numberOf_signed _)) in H];
      discriminate H.
  - intros Heq. pose proof (numberOf_padStart 4 y') as H. rewrite <- Heq in H.
    destruct (y <? 0); cbn [String.append] in H;
      [rewrite (proj1 (numberOf_signed _)) in H | rewrite (proj2 (numberOf_signed _)) in H];
      discriminate H.
  - destruct (y <? 0) eqn:S; destruct (y' <? 0) eqn:S'; cbn [String.append];
      intros Heq; try discriminate Heq; injection Heq as Heq;
      apply padStart_digits_inj in Heq; lia.
Qed.

Lemma append_inj (a a' b b' : string) :
  String.length b = String.length b' ->
  String.append a b = String.append a' b' -> a = a' /\ b = b'.
Proof.
  intros Hlen Heq.
  assert (Hsame : String.length a = String.length a').
  { pose proof (f_equal String.length Heq) as H. rewrite !append_length in H. lia. }
  clear Hlen. revert a' Hsame Heq.
  induction a as [|c a IH]; intros [|c' a'] Hsame Heq; try discriminate Hsame.
  - split; [reflexivity | exact Heq].
  - cbn [String.append] in Heq. injection Heq as -> Heq.
    destruct (IH a') as [-> ->]; [simpl in Hsame; lia | exact Heq |]. split; reflexivity.
Qed.

Lemma two_digits (n : Z) :
  0 <= n < 100 ->
  String.length (Js.padStart 2 (Js.digits n)) = 2%nat.
Proof.
  intros Hn.
  apply (allFrom_spec (fun n => Nat.eqb (String.length (Js.padStart 2 (Js.digits n))) 2)
           100 0 n) in Hn; [apply Nat.eqb_eq, Hn | vm_compute; reflexivity].
Qed.

Lemma dateText_inj (y m d y' m' d' : Z) :
  1 <= m <= 12 -> 1 <= d <= 31 -> 1 <= m' <= 12 -> 1 <= d' <= 31 ->
  Js.dateText (y, m, d) = Js.dateText (y', m', d') -> y = y' /\ m = m' /\ d = d'.
Proof.
  intros Hm Hd Hm' Hd'. unfold Js.dateText. intros Heq.
  pose proof (two_digits m ltac:(lia)) as Lm. pose proof (two_digits d ltac:(lia)) as Ld.
  pose proof (two_digits m' ltac:(lia)) as Lm'. pose proof (two_digits d' ltac:(lia)) as Ld'.
  apply append_inj in Heq.
  2:{ cbn [String.append String.length]. rewrite !append_length.
      cbn [String.append String.length]. rewrite Lm, Ld, Lm', Ld'. reflexivity. }
  destruct Heq as [Hy Hrest]. apply yearText_inj in Hy.
  cbn [String.append] in Hrest. injection Hrest as Hrest.
  apply append_inj in Hrest.
  2:{ cbn [String.append String.length]. rewrite Ld, Ld'. reflexivity. }
  destruct Hrest as [Hmm Hdd]. cbn [String.append] in Hdd. injection Hdd as Hdd.
  apply padStart_digits_inj in Hmm; [|lia|lia].
  apply padStart_digits_inj in Hdd; [|lia|lia].
  repeat split; assumption.
Qed.

(** The date texts of two time values agree exactly when the time values
    lie in the same UTC day. *)
Lemma toISODate_iff_Day (a b : Z) : Js.toISODate a = Js.toISODate b <-> Js.Day a = Js.Day b.
Proof.
  split; [|apply toISODate_same_day].
  unfold Js.toISODate. intros Heq. apply civilFromDays_inj.
  pose proof (civilFromDays_isDate (Js.Day a)) as Ha.
  pose proof (civilFromDays_isDate (Js.Day b)) as Hb.
  destruct (Js.civilFromDays (Js.Day a)) as [[y m] d].
  destruct (Js.civilFromDays (Js.Day b)) as [[y' m'] d'].
  apply isDate_month_day in Ha, Hb.
  apply dateText_inj in Heq; [|tauto|tauto|tauto|tauto].
  destruct Heq as (-> & -> & ->). reflexivity.
Qed.

Lemma Day_window (t day : Z) : Js.Day t = day <-> 86400000 * day <= t < 86400000 * (day + 1).
Proof.
  unfold Js.Day, Js.msPerDay. split.
  - intros <-. pose proof (Z.div_mod t 86400000 ltac:(lia)).
    pose proof (Z.mod_pos_bound t 86400000 ltac:(lia)). lia.
  - intros H. symmetry. apply (Z.div_unique t 86400000 day (t - 86400000 * day)); lia.
Qed.

Lemma same_Day_window (a b : Z) :
  Js.Day a = Js.Day b
  <-> exists day, 86400000 * day <= a < 86400000 * (day + 1)
                  /\ 86400000 * day <= b < 86400000 * (day + 1).
Proof.
  split.
  - intros H. exists (Js.Day a). split; apply Day_window; [reflexivity | symmetry; exact H].
  - intros (day & Ha & Hb). apply Day_window in Ha, Hb. congruence.
Qed.

(** ** Timecard: selection and grouping *)

(** C8.  The timecard holds exactly the employee's punches with a timestamp
    in the closed range; each daily entry is keyed by the UTC date text of
    its punches and lists them by ascending timestamp, as the sorted query
    returned them.  Two punches of the timecard are in the same entry
    exactly when their timestamps lie in the same UTC day, the 86 400 000
    ms from one midnight UTC to the next.  The key of a punch is the text
    YYYY-MM-DD of the date that ECMA-262 assigns to its UTC day: year,
    month and day of the month in the proleptic Gregorian calendar.  A
    shift from 22:00 to 02:00 UTC is split over two entries; 1970-01-01
    ends with the millisecond 86 399 999. *)
Theorem timecard_groups_range_by_utc_date :
  (forall (employeeId : string) (startDate endDate : Z) (db : Db) (employee : ClockEmployee.t),
      fst (getClockEmployee employeeId db) = inr (Some employee) ->
      exists tc,
        getEmployeeTimeCard employeeId startDate endDate db = (inr tc, db)
        /\ Permutation (List.concat (map logsOf (TimeCard.dailyReport tc)))
                       (filter (inRange employeeId startDate endDate) (clockLogs db))
        /\ (forall log,
              In log (List.concat (map logsOf (TimeCard.dailyReport tc)))
              <-> In log (clockLogs db)
                  /\ ClockLog.employeeId log = employeeId
                  /\ startDate <= ClockLog.timestamp log <= endDate)
        /\ NoDup (keys (TimeCard.dailyReport tc))
        /\ (forall date d,
              In (date, d) (TimeCard.dailyReport tc) ->
              DayReport.logs d <> []
              /\ StronglySorted ascending (DayReport.logs d)
              /\ Forall (fun log => Js.toISODate (ClockLog.timestamp log) = date)
                        (DayReport.logs d)
              /\ DayReport.logs d
                 = filter (onDate date) (selected employeeId startDate endDate db))
        /\ (forall log,
              In log (clockLogs db) ->
              ClockLog.employeeId log = employeeId ->
              startDate <= ClockLog.timestamp log <= endDate ->
              exists d,
                In (Js.toISODate (ClockLog.timestamp log), d) (TimeCard.dailyReport tc)
                /\ In log (DayReport.logs d))
        /\ (forall date d date' d' log log',
              In (date, d) (TimeCard.dailyReport tc) -> In log (DayReport.logs d) ->
              In (date', d') (TimeCard.dailyReport tc) -> In log' (DayReport.logs d') ->
              (date = date'
               <-> exists day,
                     86400000 * day <= ClockLog.timestamp log < 86400000 * (day + 1)
                     /\ 86400000 * day <= ClockLog.timestamp log' < 86400000 * (day + 1))))
  /\ (forall t, exists day y m d,
         86400000 * day <= t < 86400000 * (day + 1)
         /\ Ecma.dayFromYear y <= day < Ecma.dayFromYear (y + 1)
         /\ 1 <= m <= 12
         /\ Ecma.daysBefore y m <= day - Ecma.dayFromYear y < Ecma.daysBefore y (m + 1)
         /\ d = day - Ecma.dayFromYear y - Ecma.daysBefore y m + 1
         /\ Js.toISODate t
            = String.append (Js.yearText y)
                (String.append "-" (String.append (Js.padStart 2 (Js.digits m))
                   (String.append "-" (Js.padStart 2 (Js.digits d))))))
  /\ (forall a b,
         Js.toISODate a = Js.toISODate b
         <-> exists day, 86400000 * day <= a < 86400000 * (day + 1)
                         /\ 86400000 * day <= b < 86400000 * (day + 1))
  /\ option_map entryPunches
       (resolved (getEmployeeTimeCard "e1" (Sample.at_ 0) (Sample.at_ 48) SampleDb.nightDb))
     = Some [("2024-01-15", ["p1"]); ("2024-01-16", ["p2"])]
  /\ option_map entryPunches
       (resolved (getEmployeeTimeCard "e1" (Sample.at_ 0) (Sample.at_ 48) SampleDb.twoDaysDb))
     = Some [("2024-01-15", ["p1"; "p2"]); ("2024-01-16", ["p3"; "p4"])]
  /\ map Js.toISODate [0; 86399999; 86400000; -1; 1709251199999; 1709251200000]
     = ["1970-01-01"; "1970-01-01"; "1970-01-02"; "1969-12-31"; "2024-02-29"; "2024-03-01"]
  /\ map Js.toISODate [-62167219200000; -62167219200001; 253402300799999; 253402300800000]
     = ["0000-01-01"; "-000001-12-31"; "9999-12-31"; "+010000-01-01"].
Proof.
  split; [|split; [|split; [|repeat split; vm_compute; reflexivity]]].
  - intros employeeId startDate endDate db employee Hfound.
    rewrite (getEmployeeTimeCard_found _ _ _ _ _ Hfound).
    eexists. split; [reflexivity|].
    unfold cardOf. simpl.
    set (logs := selected employeeId startDate endDate db).
    assert (Hperm : Permutation (List.concat (map logsOf (map finishEntry (groupByDate logs))))
                                (filter (inRange employeeId startDate endDate) (clockLogs db))).
    { rewrite logsOf_finishEntry.
      apply perm_trans with logs; [apply concat_groupByDate | apply orderBy_perm]. }
    assert (Hmem : forall log,
               In log (filter (inRange employeeId startDate endDate) (clockLogs db))
               <-> In log (clockLogs db)
                   /\ ClockLog.employeeId log = employeeId
                   /\ startDate <= ClockLog.timestamp log <= endDate).
    { intros log. rewrite filter_In, inRange_iff. tauto. }
    assert (Hkey : forall date d log,
               In (date, d) (map finishEntry (groupByDate logs)) -> In log (DayReport.logs d) ->
               Js.toISODate (ClockLog.timestamp log) = date).
    { intros date d log Hin Hlog. apply finished_entry in Hin. destruct Hin as [_ ->].
      simpl in Hlog. apply filter_In in Hlog. apply String.eqb_eq, Hlog. }
    split; [exact Hperm|].
    split.
    { intros log. rewrite <- Hmem. split; apply Permutation_in.
      - exact Hperm.
      - apply Permutation_sym, Hperm. }
    split.
    { rewrite keys_finishEntry. apply groupByDate_NoDup. }
    split.
    { intros date d Hin. pose proof (Hkey date d) as Hd.
      apply finished_entry in Hin. destruct Hin as [Hne ->]. simpl.
      split; [exact Hne|].
      split; [apply StronglySorted_filter, orderBy_sorted|].
      split; [|reflexivity].
      apply Forall_forall. intros log Hlog. apply filter_In in Hlog.
      apply String.eqb_eq, Hlog. }
    split.
    { intros log Hin Hid Hrange.
      assert (Hsel : In log logs).
      { apply (Permutation_in _ (Permutation_sym (orderBy_perm _))).
        apply Hmem. tauto. }
      assert (Hday : In log (filter (onDate (dateOf log)) logs)).
      { apply filter_In. split; [exact Hsel | apply String.eqb_refl]. }
      exists (finish (DayReport.mk (filter (onDate (dateOf log)) logs) 0 0)).
      split; [|exact Hday].
      apply in_map_iff.
      exists (dateOf log, DayReport.mk (filter (onDate (dateOf log)) logs) 0 0).
      split; [reflexivity|].
      apply lookup_In. rewrite groupByDate_lookup.
      destruct (filter (onDate (dateOf log)) logs); [destruct Hday | reflexivity]. }
    intros date d date' d' log log' Hin Hlog Hin' Hlog'.
    rewrite <- (Hkey _ _ _ Hin Hlog), <- (Hkey _ _ _ Hin' Hlog').
    rewrite toISODate_iff_Day. apply same_Day_window.
  - intros t. pose proof (civilFromDays_isDate (Js.Day t)) as Hdate.
    unfold Js.toISODate. destruct (Js.civilFromDays (Js.Day t)) as [[y m] d].
    exists (Js.Day t), y, m, d. destruct Hdate as (Hy & Hm & Hin & Hd).
    split; [apply Day_window; reflexivity|]. repeat split; tauto || lia || assumption.
  - intros a b. rewrite toISODate_iff_Day. apply same_Day_window.
Qed.

Lemma timecard_groups_range_by_utc_date_witness :
  fst (getClockEmployee "e1" SampleDb.fullDayDb) = inr (Some Sample.ann)
  /\ exists tc,
       getEmployeeTimeCard "e1" (Sample.at_ 10) (Sample.at_ 13) SampleDb.fullDayDb
       = (inr tc, SampleDb.fullDayDb)
       /\ NoDup (keys (TimeCard.dailyReport tc)).
Proof.
  split; [reflexivity|].
  destruct (proj1 timecard_groups_range_by_utc_date "e1" (Sample.at_ 10) (Sample.at_ 13)
              SampleDb.fullDayDb Sample.ann eq_refl) as (tc & Heq & _ & _ & Hnd & _).
  exists tc. split; assumption.
Defined.

(** The cursors start unset on every UTC day: a shift across midnight
    leaves a clock-in without its clock-out on the first day and a clock-out
    without its clock-in on the second. *)
Example night_shift_splits_at_utc_midnight :
  option_map (fun tc => (dayFigures tc, TimeCard.totalWorkingTime tc))
    (resolved (getEmployeeTimeCard "e1" (Sample.at_ 0) (Sample.at_ 48) SampleDb.nightDb))
  = Some ([("2024-01-15", 0, 0); ("2024-01-16", 0, 0)], 0).
Proof. vm_compute. reflexivity. Qed.

Example timecard_range_is_closed :
  option_map (fun tc => map (fun l => ClockLog.id l) (List.concat (map logsOf (TimeCard.dailyReport tc))))
             (resolved (getEmployeeTimeCard "e1" (Sample.at_ 12) (Sample.at_ 13)
                          SampleDb.fullDayDb))
  = Some ["p2"; "p3"].
Proof. vm_compute. reflexivity. Qed.

(** ** Timecard: signs *)

Lemma dayTotals_nonneg (logs : list ClockLog.t) :
  StronglySorted ascending logs ->
  (forall date d, In (date, d) (fst (dayTotals logs)) ->
                  0 <= DayReport.workingTime d /\ 0 <= DayReport.lunchTime d)
  /\ 0 <= snd (dayTotals logs).
Proof.
  intros Hs. rewrite dayTotals_eq. simpl.
  assert (Hday : forall date d, In (date, d) (map finishEntry (groupByDate logs)) ->
                                0 <= DayReport.workingTime d /\ 0 <= DayReport.lunchTime d).
  { intros date d Hin. apply finished_entry in Hin. destruct Hin as [_ ->]. simpl.
    apply replay_nonneg, StronglySorted_filter, Hs. }
  split; [exact Hday|].
  apply sumZ_nonneg, Forall_forall. intros z Hz.
  apply in_map_iff in Hz. destruct Hz as ([date d] & <- & Hin).
  apply (Hday date d Hin).
Qed.

(** C10.  On punches in ascending timestamp order the replay yields
    non-negative worked and lunch durations, for one day and for every
    daily entry; the total is non-negative, and with a non-negative pay rate
    the pay is never below zero: [totalPay < 0] is false, and while the
    total and the rate stay below [2^53], where the integers of the host are
    exact, [0 <= totalPay] is true. *)
Theorem replay_durations_nonneg (logs : list ClockLog.t) (payRate : Z) :
  Sorted ascending logs ->
  (0 <= DayLoop.workingTime (replay logs) /\ 0 <= DayLoop.lunchTime (replay logs))
  /\ (forall date d, In (date, d) (fst (dayTotals logs)) ->
                     0 <= DayReport.workingTime d /\ 0 <= DayReport.lunchTime d)
  /\ 0 <= snd (dayTotals logs)
  /\ (0 <= payRate -> Js.negative (pay (snd (dayTotals logs)) payRate) = false)
  /\ (0 <= payRate < 2 ^ 53 -> snd (dayTotals logs) < 2 ^ 53 ->
      Js.nonneg (pay (snd (dayTotals logs)) payRate) = true).
Proof.
  intros Hs. apply Sorted_StronglySorted in Hs; [|exact ascending_trans].
  destruct (dayTotals_nonneg logs Hs) as [Hday Htotal].
  split; [apply replay_nonneg, Hs|].
  split; [exact Hday|].
  split; [exact Htotal|].
  split.
  - intros Hr. apply pay_not_negative; assumption.
  - intros Hr Hlt. apply pay_nonneg; [split; assumption | exact Hr].
Qed.

Lemma replay_durations_nonneg_witness :
  Sorted ascending Sample.fullDay
  /\ 0 <= snd (dayTotals Sample.fullDay)
  /\ Js.negative (pay (snd (dayTotals Sample.fullDay)) 2500) = false
  /\ Js.nonneg (pay (snd (dayTotals Sample.fullDay)) 2500) = true.
Proof.
  assert (Hs : Sorted ascending Sample.fullDay) by (unfold Sample.fullDay; ascending_list).
  split; [exact Hs|].
  destruct (replay_durations_nonneg Sample.fullDay 2500 Hs) as (_ & _ & Ht & Hp & Hq).
  split; [exact Ht|].
  split; [apply Hp; discriminate|].
  apply Hq; [split; [discriminate | reflexivity] | reflexivity].
Defined.

(** The query sorts, so every timecard has non-negative figures. *)
Lemma timecard_nonneg
      (employeeId : string) (startDate endDate : Z) (db db' : Db) (tc : TimeCard.t) :
  getEmployeeTimeCard employeeId startDate endDate db = (inr tc, db') ->
  Forall (fun fig => 0 <= snd (fst fig) /\ 0 <= snd fig) (dayFigures tc)
  /\ 0 <= TimeCard.totalWorkingTime tc.
Proof.
  rewrite getEmployeeTimeCard_eq.
  destruct (hd_error (filter (hasId employeeId) (clockEmployees db))) as [employee|];
    [|discriminate].
  intros [= <- _].
  pose proof (dayTotals_nonneg (selected employeeId startDate endDate db)
                               (orderBy_sorted _)) as [Hday Htotal].
  rewrite dayTotals_eq in Hday, Htotal. simpl in Hday, Htotal.
  split; [|exact Htotal].
  unfold dayFigures, cardOf. simpl. apply Forall_forall. intros fig Hfig.
  apply in_map_iff in Hfig. destruct Hfig as ([date d] & <- & Hin). simpl.
  apply (Hday date d Hin).
Qed.

(** ** Timecard: the replay of each day *)

(** C1, amended.  For punches with non-zero timestamps, every daily entry
    holds its punches in ascending timestamp order and its worked and lunch
    durations are those of the replay with the two cursors, both unset at
    first, in which a punch without its cursor changes nothing and raises
    nothing.  The day 09:00 in, 12:00 lunch out, 13:00 lunch in, 17:00 out
    gives 7 h worked and 1 h lunch; the day with 09:00 in alone gives 0 h. *)
Theorem timecard_replays_each_day :
  (forall (employeeId : string) (startDate endDate : Z) (db : Db) (employee : ClockEmployee.t),
      fst (getClockEmployee employeeId db) = inr (Some employee) ->
      (forall log, In log (clockLogs db) ->
                   ClockLog.employeeId log = employeeId ->
                   startDate <= ClockLog.timestamp log <= endDate ->
                   ClockLog.timestamp log <> 0) ->
      exists tc,
        getEmployeeTimeCard employeeId startDate endDate db = (inr tc, db)
        /\ forall date d,
            In (date, d) (TimeCard.dailyReport tc) ->
            StronglySorted ascending (DayReport.logs d)
            /\ DayReport.workingTime d = DayLoop.workingTime (Spec.replay (DayReport.logs d))
            /\ DayReport.lunchTime d = DayLoop.lunchTime (Spec.replay (DayReport.logs d)))
  /\ option_map dayFigures
       (resolved (getEmployeeTimeCard "e1" (Sample.at_ 0) (Sample.at_ 24) SampleDb.fullDayDb))
     = Some [("2024-01-15", 7 * msPerHour, 1 * msPerHour)]
  /\ option_map dayFigures
       (resolved (getEmployeeTimeCard "e1" (Sample.at_ 0) (Sample.at_ 24) SampleDb.openDayDb))
     = Some [("2024-01-15", 0, 0)].
Proof.
  split; [|split; vm_compute; reflexivity].
  intros employeeId startDate endDate db employee Hfound Hnz.
  rewrite (getEmployeeTimeCard_found _ _ _ _ _ Hfound).
  eexists. split; [reflexivity|].
  unfold cardOf. simpl. intros date d Hin.
  apply finished_entry in Hin. destruct Hin as [_ ->]. simpl.
  assert (Hall : Forall (fun log => ClockLog.timestamp log <> 0)
                        (filter (onDate date) (selected employeeId startDate endDate db))).
  { apply Forall_forall. intros log Hlog. apply filter_In in Hlog. destruct Hlog as [Hlog _].
    apply (Permutation_in _ (orderBy_perm _)) in Hlog.
    apply filter_In in Hlog. destruct Hlog as [Hlog Hr].
    apply inRange_iff in Hr. destruct Hr as [Hid Hr].
    apply Hnz; assumption. }
  split; [apply StronglySorted_filter, orderBy_sorted|].
  rewrite (replay_refines _ Hall). split; reflexivity.
Qed.

Lemma timecard_replays_each_day_witness :
  fst (getClockEmployee "e1" SampleDb.fullDayDb) = inr (Some Sample.ann)
  /\ exists tc,
       getEmployeeTimeCard "e1" (Sample.at_ 0) (Sample.at_ 24) SampleDb.fullDayDb
       = (inr tc, SampleDb.fullDayDb)
       /\ forall date d,
           In (date, d) (TimeCard.dailyReport tc) ->
           StronglySorted ascending (DayReport.logs d)
           /\ DayReport.workingTime d = DayLoop.workingTime (Spec.replay (DayReport.logs d))
           /\ DayReport.lunchTime d = DayLoop.lunchTime (Spec.replay (DayReport.logs d)).
Proof.
  split; [reflexivity|].
  apply (proj1 timecard_replays_each_day "e1" (Sample.at_ 0) (Sample.at_ 24)
           SampleDb.fullDayDb Sample.ann).
  - reflexivity.
  - intros log Hin _ _. simpl in Hin.
    destruct Hin as [<- | [<- | [<- | [<- | []]]]]; discriminate.
Defined.

(** C1, as stated, fails on its own example: the replay credits 3 h before
    lunch and 4 h after it, 25 200 000 ms, not the 8 h from first to last
    punch. *)
Lemma full_day_is_seven_hours_not_eight :
  option_map dayFigures
    (resolved (getEmployeeTimeCard "e1" (Sample.at_ 0) (Sample.at_ 24) SampleDb.fullDayDb))
  = Some [("2024-01-15", 25200000, 3600000)]
  /\ (25200000 =? 8 * msPerHour) = false
  /\ DayLoop.workingTime (Spec.replay Sample.fullDay) = 25200000.
Proof. vm_compute. repeat split; reflexivity. Qed.

(** A cursor holding the timestamp 0 tests false in [if (clockInTime)]: the
    shift that starts at the epoch is dropped, where the replay with set and
    unset cursors credits it. *)
Example epoch_clock_in_is_dropped :
  option_map dayFigures
    (resolved (getEmployeeTimeCard "e1" 0 msPerHour SampleDb.epochDb))
  = Some [("1970-01-01", 0, 0)]
  /\ DayLoop.workingTime (Spec.replay (clockLogs SampleDb.epochDb)) = msPerHour.
Proof. vm_compute. split; reflexivity. Qed.

(** ** Timecard: the pay *)




(** ** Payroll export *)

Lemma hasId_self (employee : ClockEmployee.t) : hasId (ClockEmployee.id employee) employee = true.
Proof. unfold hasId. apply String.eqb_refl. Qed.

Lemma listed_employee_found (employee : ClockEmployee.t) (rows : list ClockEmployee.t) :
  In employee rows ->
  exists first, hd_error (filter (hasId (ClockEmployee.id employee)) rows) = Some first.
Proof.
  intros Hin.
  assert (H : In employee (filter (hasId (ClockEmployee.id employee)) rows)).
  { apply filter_In. split; [exact Hin | apply hasId_self]. }
  destruct (filter (hasId (ClockEmployee.id employee)) rows) as [|first rest];
    [destruct H | exists first; reflexivity].
Qed.

Lemma exportRow_listed (startDate endDate : Z) (db : Db) (employee : ClockEmployee.t) :
  In employee (clockEmployees db) ->
  exists row,
    exportRow startDate endDate employee db = (inr row, db)
    /\ rowMatches startDate endDate db employee row.
Proof.
  intros Hin. destruct (listed_employee_found _ _ Hin) as [first Hfirst].
  unfold exportRow, bind. rewrite getEmployeeTimeCard_eq, Hfirst.
  eexists. split; [reflexivity|].
  unfold rowMatches. eexists. rewrite getEmployeeTimeCard_eq, Hfirst.
  split; [reflexivity|]. simpl. repeat split; reflexivity.
Qed.

Lemma forEach_exportRow (startDate endDate : Z) (db : Db) (l : list ClockEmployee.t) :
  incl l (clockEmployees db) ->
  exists rows,
    forEach (exportRow startDate endDate) l db = (inr rows, db)
    /\ Forall2 (rowMatches startDate endDate db) l rows.
Proof.
  induction l as [|employee l IH]; intros Hincl; simpl.
  - exists []. split; [reflexivity | constructor].
  - destruct (exportRow_listed startDate endDate db employee) as (row & Hrow & Hmatch).
    { apply Hincl. left. reflexivity. }
    destruct IH as (rows & Hrows & Hall).
    { intros x Hx. apply Hincl. right. exact Hx. }
    exists (row :: rows). unfold bind. rewrite Hrow, Hrows.
    split; [reflexivity | constructor; assumption].
Qed.

Lemma Forall2_weaken {A B : Type} (R R' : A -> B -> Prop) (l : list A) (l' : list B) :
  (forall a b, R a b -> R' a b) -> Forall2 R l l' -> Forall2 R' l l'.
Proof. intros Himp. induction 1; constructor; auto. Qed.

Lemma hoursText_nearest (totalWorkingTime : Z) (sgn : bool) (m : positive) (e : Z) :
  hours totalWorkingTime = S754_finite sgn m e ->
  Js.atLeast1e21 m e = false ->
  exists n,
    Js.toFixed2 (hours totalWorkingTime)
    = Some (String.append (if sgn then "-" else "") (Js.fixed2 n))
    /\ (0 <= e -> n = 100 * (Zpos m * 2 ^ e))
    /\ (forall k, e = Zneg k ->
                  2 ^ (Zpos k + 1) * n <= 200 * Zpos m + 2 ^ Zpos k
                  < 2 ^ (Zpos k + 1) * (n + 1)).
Proof.
  intros Hhours Hsmall. rewrite Hhours. simpl. rewrite Hsmall.
  exists (Js.nearestHundredths m e).
  split; [reflexivity|].
  split; [apply nearestHundredths_exact | intros k ->; apply nearestHundredths_nearest].
Qed.

(** C5.  The export resolves for every range, leaves the database as it
    was, and has one row per employee row, in the order of the table; each
    row carries the employee's identifier, name and pay rate, the total pay
    and the daily report of that employee's timecard over the same range,
    and the hours as text: the worked milliseconds of that timecard divided
    by 3 600 000 in binary64 and written by [toFixed(2)], which below
    [10^21] gives the hundredths nearest to that double, the larger one at
    a tie, and below [2^53] milliseconds an unsigned text with two digits
    after the point.  Eight hours at 25.00 are exported as "8.00" and
    "200.00"; 7 h 45 min at 25.00 as "7.75" and "193.75"; 20 min at 18.50
    as "0.33" and "6.17"; an employee with an open shift only as "0.00" and
    "0.00". *)
Theorem exportAllHours_one_row_per_employee :
  (forall (startDate endDate : Z) (db : Db),
      exists rows,
        exportAllHours startDate endDate db
        = (inr (PayrollExport.mk (Js.toISODate startDate) (Js.toISODate endDate) rows), db)
        /\ List.length rows = List.length (clockEmployees db)
        /\ Forall2 (rowMatches startDate endDate db) (clockEmployees db) rows
        /\ Forall2
             (fun employee row =>
                exists tc,
                  getEmployeeTimeCard (ClockEmployee.id employee) startDate endDate db
                  = (inr tc, db)
                  /\ ExportRow.totalPay row = TimeCard.totalPay tc
                  /\ ExportRow.dailyBreakdown row = TimeCard.dailyReport tc
                  /\ (forall sgn m e,
                        hours (TimeCard.totalWorkingTime tc) = S754_finite sgn m e ->
                        Js.atLeast1e21 m e = false ->
                        exists n,
                          ExportRow.totalHours row
                          = Some (String.append (if sgn then "-" else "") (Js.fixed2 n))
                          /\ (0 <= e -> n = 100 * (Zpos m * 2 ^ e))
                          /\ (forall k, e = Zneg k ->
                                        2 ^ (Zpos k + 1) * n <= 200 * Zpos m + 2 ^ Zpos k
                                        < 2 ^ (Zpos k + 1) * (n + 1)))
                  /\ (TimeCard.totalWorkingTime tc = 0 ->
                      ExportRow.totalHours row = Some "0.00")
                  /\ (TimeCard.totalWorkingTime tc < 2 ^ 53 ->
                      exists n whole cents,
                        0 <= n
                        /\ ExportRow.totalHours row = Some (Js.fixed2 n)
                        /\ Js.fixed2 n = String.append whole (String.append "." cents)
                        /\ String.length cents = 2%nat))
             (clockEmployees db) rows)
  /\ option_map (fun report => map exportedRow (PayrollExport.employees report))
       (resolved (exportAllHours (Sample.at_ 0) (Sample.at_ 24) SampleDb.straightDayDb))
     = Some [("e1", "Ann", 2500, Some "8.00", Some "200.00")]
  /\ option_map (fun report => map exportedRow (PayrollExport.employees report))
       (resolved (exportAllHours (Sample.at_ 0) (Sample.at_ 24) SampleDb.partDaysDb))
     = Some [("e1", "Ann", 2500, Some "7.75", Some "193.75");
             ("e2", "Bo", 1850, Some "0.33", Some "6.17")]
  /\ option_map (fun report => map exportedRow (PayrollExport.employees report))
       (resolved (exportAllHours (Sample.at_ 0) (Sample.at_ 48) SampleDb.twoDaysDb))
     = Some [("e1", "Ann", 2500, Some "12.00", Some "300.00");
             ("e2", "Bo", 1850, Some "0.00", Some "0.00")].
Proof.
  split; [|repeat split; vm_compute; reflexivity].
  intros startDate endDate db.
  destruct (forEach_exportRow startDate endDate db (clockEmployees db)) as (rows & Hrows & Hall).
  { apply incl_refl. }
  exists rows. unfold exportAllHours, bind, getClockEmployees. rewrite Hrows.
  split; [reflexivity|].
  split; [symmetry; apply (Forall2_length Hall)|].
  split; [exact Hall|].
  apply (Forall2_weaken (rowMatches startDate endDate db)); [|exact Hall].
  intros employee row (tc & Htc & _ & _ & _ & Hhours & Hpay & Hdays).
  exists tc. split; [exact Htc|]. split; [exact Hpay|]. split; [exact Hdays|].
  rewrite Hhours. split; [apply hoursText_nearest|].
  split; [intros ->; reflexivity|].
  intros Hbound.
  pose proof (timecard_nonneg _ _ _ _ _ _ Htc) as [_ Hnonneg].
  destruct (small_toFixed2 33 34 (hours (TimeCard.totalWorkingTime tc)))
    as (n & Hn & Htext); [apply hours_small; lia | lia |].
  destruct (fixed2_shape n) as (whole & cents & Hshape & Hcents & _).
  exists n, whole, cents. repeat split; assumption.
Qed.

(** ** The clock state machine *)

Lemma sortBy_ext {A : Type} (f g : A -> A -> bool) (l : list A) :
  (forall a b, f a b = g a b) -> Js.sortBy f l = Js.sortBy g l.
Proof.
  intros Hfg. induction l as [|x l IH]; simpl; [reflexivity|].
  rewrite IH. generalize (Js.sortBy g l) as s.
  induction s as [|y s IHs]; simpl; [reflexivity|].
  rewrite Hfg, IHs. reflexivity.
Qed.

Lemma filter_idem {A : Type} (p : A -> bool) (l : list A) : filter p (filter p l) = filter p l.
Proof.
  induction l as [|x l IH]; simpl; [reflexivity|].
  destruct (p x) eqn:E; simpl; rewrite ?E, IH; reflexivity.
Qed.

Lemma orderByDesc_filter (p : ClockLog.t -> bool) (l : list ClockLog.t) :
  filter p (orderByDesc l) = orderByDesc (filter p l).
Proof.
  apply filter_sortBy; [apply byTimestampDesc_total | apply byTimestampDesc_trans].
Qed.

Lemma sort_orderByDesc (l : list ClockLog.t) :
  Js.sort (fun a b => ClockLog.timestamp b - ClockLog.timestamp a) (orderByDesc l)
  = orderByDesc l.
Proof.
  unfold Js.sort.
  rewrite (sortBy_ext _ byTimestampDesc).
  - apply sortBy_sorted_id.
    apply sortBy_sorted; [apply byTimestampDesc_total | apply byTimestampDesc_trans].
  - intros a b. unfold byTimestampDesc.
    destruct (Z.leb_spec (ClockLog.timestamp b - ClockLog.timestamp a) 0);
      destruct (Z.leb_spec (ClockLog.timestamp b) (ClockLog.timestamp a)); (reflexivity || lia).
Qed.

(** The look-back of the [working] branch finds the employee's latest
    punch, also for the empty identifier, for which [getClockLogs] returns
    the whole log. *)
Lemma lastLog_getClockLogs (employeeId : string) (db : Db) :
  exists logs,
    getClockLogs (Some employeeId) db = (inr logs, db)
    /\ lastLog employeeId logs = mostRecentPunch employeeId db.
Proof.
  unfold getClockLogs, lastLog, mostRecentPunch.
  destruct employeeId as [|c s]; eexists; (split; [reflexivity|]).
  - rewrite orderByDesc_filter, sort_orderByDesc. reflexivity.
  - rewrite orderByDesc_filter, filter_idem, sort_orderByDesc. reflexivity.
Qed.

Lemma mostRecentPunch_latest (employeeId : string) (db : Db) (l : ClockLog.t) :
  mostRecentPunch employeeId db = Some l ->
  In l (clockLogs db)
  /\ ClockLog.employeeId l = employeeId
  /\ forall l', In l' (clockLogs db) -> ClockLog.employeeId l' = employeeId ->
                ClockLog.timestamp l' <= ClockLog.timestamp l.
Proof.
  unfold mostRecentPunch, orderByDesc. intros H.
  apply sortBy_head in H;
    [|apply byTimestampDesc_total | apply byTimestampDesc_trans].
  destruct H as [Hin Hmax]. apply filter_In in Hin. destruct Hin as [Hin Hid].
  split; [exact Hin|].
  split; [apply String.eqb_eq, Hid|].
  intros l' Hin' Hid'. apply Z.leb_le. apply (Hmax l').
  apply filter_In. split; [exact Hin' | apply String.eqb_eq, Hid'].
Qed.

Lemma mostRecentPunch_none (employeeId : string) (db : Db) :
  mostRecentPunch employeeId db = None ->
  forall l, In l (clockLogs db) -> ClockLog.employeeId l <> employeeId.
Proof.
  unfold mostRecentPunch, orderByDesc. intros H l Hin Hid.
  apply sortBy_head_none in H.
  assert (Hl : In l (filter (ofEmployee employeeId) (clockLogs db))).
  { apply filter_In. split; [exact Hin | apply String.eqb_eq, Hid]. }
  rewrite H in Hl. destruct Hl.
Qed.

Lemma mostRecentPunch_after_insert
      (employeeId type uuid : string) (now bound : Z) (rows : list ClockEmployee.t) (db : Db) :
  punchedBy employeeId bound db -> bound < now ->
  mostRecentPunch employeeId
    (mkDb rows (clockLogs db ++ [ClockLog.mk uuid employeeId type now None]))
  = Some (ClockLog.mk uuid employeeId type now None).
Proof.
  intros Hby Hlt. set (new := ClockLog.mk uuid employeeId type now None).
  destruct (mostRecentPunch employeeId (mkDb rows (clockLogs db ++ [new]))) as [l|] eqn:E.
  - apply mostRecentPunch_latest in E. simpl in E. destruct E as (Hin & Hid & Hmax).
    apply in_app_or in Hin. destruct Hin as [Hold | [<- | []]]; [|reflexivity].
    exfalso. specialize (Hby l Hold Hid).
    assert (Hnew : ClockLog.timestamp new <= ClockLog.timestamp l).
    { apply Hmax; [apply in_or_app; right; left; reflexivity | reflexivity]. }
    simpl in Hnew. lia.
  - exfalso. apply (mostRecentPunch_none _ _ E new).
    + simpl. apply in_or_app. right. left. reflexivity.
    + reflexivity.
Qed.

Lemma filter_hasId_setStatus (employeeId next : string) (env : Env) (rows : list ClockEmployee.t) :
  filter (hasId employeeId) (map (setStatus employeeId next env) rows)
  = map (ClockEmployee.assign (ClockEmployee.onlyStatus next) (updateTime env))
        (filter (hasId employeeId) rows).
Proof.
  induction rows as [|row rows IH]; [reflexivity|].
  cbn [map filter]. destruct (hasId employeeId row) eqn:E.
  - assert (Hset : setStatus employeeId next env row
                   = ClockEmployee.assign (ClockEmployee.onlyStatus next) (updateTime env) row)
      by (unfold setStatus; rewrite E; reflexivity).
    rewrite Hset.
    assert (Hid : hasId employeeId
                    (ClockEmployee.assign (ClockEmployee.onlyStatus next) (updateTime env) row)
                  = true) by exact E.
    rewrite Hid. cbn [map]. f_equal. exact IH.
  - assert (Hset : setStatus employeeId next env row = row)
      by (unfold setStatus; rewrite E; reflexivity).
    rewrite Hset, E. exact IH.
Qed.

Lemma decide_eq (employeeId : string) (e : ClockEmployee.t) (db : Db) :
  decide employeeId e db
  = if statusIs "inactive" e then (inr ("working", "clock-in", "Clocked In"), db)
    else if statusIs "working" e then
      if isLunchIn (mostRecentPunch employeeId db)
      then (inr ("inactive", "clock-out", "Clocked Out"), db)
      else (inr ("on-lunch", "lunch-out", "Started Lunch"), db)
    else if statusIs "on-lunch" e then (inr ("working", "lunch-in", "Ended Lunch"), db)
    else (inl InvalidState, db).
Proof.
  unfold decide.
  destruct (statusIs "inactive" e); [reflexivity|].
  destruct (statusIs "working" e).
  - destruct (lastLog_getClockLogs employeeId db) as (logs & Hlogs & Hlast).
    unfold bind. rewrite Hlogs, Hlast.
    destruct (isLunchIn (mostRecentPunch employeeId db)); reflexivity.
  - destruct (statusIs "on-lunch" e); reflexivity.
Qed.

Lemma clockAction_decided
      (employeeId : string) (env : Env) (db : Db) (e : ClockEmployee.t)
      (next type label : string) :
  fst (getClockEmployee employeeId db) = inr (Some e) ->
  decide employeeId e db = (inr (next, type, label), db) ->
  applied employeeId env db e next type label.
Proof.
  unfold getClockEmployee. simpl. intros [= Hfound] Hdecide.
  destruct (filter (hasId employeeId) (clockEmployees db)) as [|first rest] eqn:Hrows;
    [discriminate|].
  simpl in Hfound. injection Hfound as ->.
  unfold applied. cbv zeta.
  split.
  { unfold clockAction, bind, getClockEmployee. rewrite Hrows. cbv beta iota.
    change (hd_error (e :: rest)) with (Some e). cbv beta iota.
    rewrite Hdecide. cbv beta iota.
    unfold updateClockEmployee. rewrite Hrows. reflexivity. }
  split; [reflexivity|].
  split; [reflexivity|].
  assert (Hafter : hd_error (filter (hasId employeeId)
                                    (map (setStatus employeeId next env) (clockEmployees db)))
                   = Some (ClockEmployee.assign (ClockEmployee.onlyStatus next) (updateTime env) e)).
  { rewrite filter_hasId_setStatus, Hrows. reflexivity. }
  split.
  - unfold getClockEmployee. cbn [fst clockEmployees]. rewrite Hafter. reflexivity.
  - unfold statusOf. cbn [clockEmployees]. rewrite Hafter. reflexivity.
Qed.

Lemma statusIs_eq (s : string) (e : ClockEmployee.t) (x : string) :
  ClockEmployee.status e = Some x -> statusIs s e = String.eqb x s.
Proof. unfold statusIs. intros ->. reflexivity. Qed.

Lemma advance_four (p : Phase) : advance 4 p = p.
Proof. destruct p; reflexivity. Qed.

Lemma advance_add (a b : nat) (p : Phase) : advance (a + b) p = advance b (advance a p).
Proof. revert p. induction a as [|a IH]; intros p; simpl; [reflexivity | apply IH]. Qed.

Lemma advance_cycles (n : nat) (p : Phase) : advance (4 * n) p = p.
Proof.
  induction n as [|n IH]; [reflexivity|].
  replace (4 * S n)%nat with (4 + 4 * n)%nat by lia.
  rewrite advance_add, advance_four. exact IH.
Qed.

(** C2.  For an existing employee the call follows the transition table:
    from [inactive] to [working] with a [clock-in] punch and "Clocked In";
    from [working] to [inactive] with [clock-out] and "Clocked Out" when the
    employee's latest punch by timestamp is a [lunch-in], and to [on-lunch]
    with [lunch-out] and "Started Lunch" when it is anything else or there
    is none; from [on-lunch] to [working] with [lunch-in] and "Ended Lunch".
    Each time the employee's row gets the next status, exactly one punch of
    that type is appended for the employee, and the updated row, the label
    and the punch are returned. *)
Theorem clockAction_follows_transition_table
        (employeeId : string) (env : Env) (db : Db) (e : ClockEmployee.t) :
  fst (getClockEmployee employeeId db) = inr (Some e) ->
  (ClockEmployee.status e = Some "inactive" ->
   applied employeeId env db e "working" "clock-in" "Clocked In")
  /\ (ClockEmployee.status e = Some "working" ->
      (exists l, mostRecentPunch employeeId db = Some l /\ ClockLog.type l = "lunch-in") ->
      applied employeeId env db e "inactive" "clock-out" "Clocked Out")
  /\ (ClockEmployee.status e = Some "working" ->
      (forall l, mostRecentPunch employeeId db = Some l -> ClockLog.type l <> "lunch-in") ->
      applied employeeId env db e "on-lunch" "lunch-out" "Started Lunch")
  /\ (ClockEmployee.status e = Some "on-lunch" ->
      applied employeeId env db e "working" "lunch-in" "Ended Lunch")
  /\ (forall l, mostRecentPunch employeeId db = Some l ->
                In l (clockLogs db)
                /\ ClockLog.employeeId l = employeeId
                /\ forall l', In l' (clockLogs db) -> ClockLog.employeeId l' = employeeId ->
                              ClockLog.timestamp l' <= ClockLog.timestamp l)
  /\ (mostRecentPunch employeeId db = None ->
      forall l, In l (clockLogs db) -> ClockLog.employeeId l <> employeeId).
Proof.
  intros Hfound.
  split.
  { intros Hst. apply clockAction_decided; [exact Hfound|].
    rewrite decide_eq, (statusIs_eq _ _ _ Hst). reflexivity. }
  split.
  { intros Hst (l & Hlast & Hty). apply clockAction_decided; [exact Hfound|].
    rewrite decide_eq, !(statusIs_eq _ _ _ Hst), Hlast. simpl. rewrite Hty. reflexivity. }
  split.
  { intros Hst Hlast. apply clockAction_decided; [exact Hfound|].
    rewrite decide_eq, !(statusIs_eq _ _ _ Hst). simpl.
    destruct (mostRecentPunch employeeId db) as [l|]; simpl; [|reflexivity].
    destruct (String.eqb_spec (ClockLog.type l) "lunch-in") as [Hty | _]; [|reflexivity].
    exfalso. apply (Hlast l eq_refl Hty). }
  split.
  { intros Hst. apply clockAction_decided; [exact Hfound|].
    rewrite decide_eq, !(statusIs_eq _ _ _ Hst). reflexivity. }
  split.
  - apply mostRecentPunch_latest.
  - apply mostRecentPunch_none.
Qed.

Lemma clockAction_follows_transition_table_witness :
  fst (getClockEmployee "e1" SampleDb.openDayDb) = inr (Some Sample.ann)
  /\ applied "e1" (Sample.tick (Sample.at_ 12) "p2") SampleDb.openDayDb Sample.ann
       "working" "clock-in" "Clocked In".
Proof.
  split; [reflexivity|].
  apply (clockAction_follows_transition_table "e1" (Sample.tick (Sample.at_ 12) "p2")
           SampleDb.openDayDb Sample.ann eq_refl).
  reflexivity.
Defined.

(** C7.  For an identifier without an employee row the call is rejected
    with "Employee not found"; the database, punches and statuses, is left
    as it was. *)
Theorem clockAction_unknown_employee (employeeId : string) (env : Env) (db : Db) :
  fst (getClockEmployee employeeId db) = inr None ->
  clockAction employeeId env db = (inl NotFound, db)
  /\ NotFound = mkError "Employee not found".
Proof.
  unfold getClockEmployee. simpl. intros [= Hnone].
  split; [|reflexivity].
  unfold clockAction, bind, getClockEmployee. rewrite Hnone. reflexivity.
Qed.

Lemma clockAction_unknown_employee_witness :
  fst (getClockEmployee "e2" SampleDb.fullDayDb) = inr None
  /\ clockAction "e2" (Sample.tick (Sample.at_ 18) "p5") SampleDb.fullDayDb
     = (inl NotFound, SampleDb.fullDayDb).
Proof.
  split; [reflexivity|].
  apply (clockAction_unknown_employee "e2" (Sample.tick (Sample.at_ 18) "p5")
           SampleDb.fullDayDb).
  reflexivity.
Defined.

Lemma clockAction_step (employeeId : string) (p : Phase) (db : Db) (bound : Z) (env : Env) :
  inPhase employeeId p db -> punchedBy employeeId bound db -> bound < dateNow env ->
  exists r db',
    clockAction employeeId env db = (inr r, db')
    /\ ClockEmployee.status (ClockAction.employee r) = Some (phaseStatus (after p))
    /\ inPhase employeeId (after p) db'
    /\ punchedBy employeeId (dateNow env) db'.
Proof.
  intros [(e & Hfound & Hst) Hlast] Hby Hlt.
  assert (Hdecide : exists type label,
             decide employeeId e db = (inr (phaseStatus (after p), type, label), db)
             /\ match after p with
                | Morning => String.eqb type "lunch-in" = false
                | Afternoon => String.eqb type "lunch-in" = true
                | _ => True
                end).
  { rewrite decide_eq, !(statusIs_eq _ _ _ Hst).
    destruct p; simpl in *; rewrite ?Hlast; do 2 eexists; split; reflexivity || exact I. }
  destruct Hdecide as (type & label & Hdecide & Htype).
  destruct (clockAction_decided employeeId env db e _ type label Hfound Hdecide)
    as (Hrun & Hnext & _ & Hfound' & _).
  do 2 eexists. split; [exact Hrun|].
  split; [exact Hnext|].
  split; [split|].
  - eexists. split; [exact Hfound' | exact Hnext].
  - destruct (after p); try exact I;
      rewrite (mostRecentPunch_after_insert _ _ _ _ bound _ _ Hby Hlt); exact Htype.
  - intros l Hin Hid. simpl in Hin. apply in_app_or in Hin.
    destruct Hin as [Hold | [<- | []]].
    + specialize (Hby l Hold Hid). lia.
    + simpl. lia.
Qed.

Lemma clockActions_run (employeeId : string) (envs : list Env) :
  forall (p : Phase) (db : Db) (bound : Z),
    inPhase employeeId p db -> punchedBy employeeId bound db -> increasing bound envs ->
    exists rs db',
      clockActions employeeId envs db = (inr rs, db')
      /\ map (fun r => ClockEmployee.status (ClockAction.employee r)) rs
         = map Some (trace p (List.length envs))
      /\ inPhase employeeId (advance (List.length envs) p) db'
      /\ punchedBy employeeId (lastDateNow bound envs) db'.
Proof.
  induction envs as [|env envs IH]; intros p db bound Hp Hby Hinc.
  - exists [], db. repeat split; assumption || reflexivity || apply Hp.
  - destruct Hinc as [Hlt Hinc].
    destruct (clockAction_step employeeId p db bound env Hp Hby Hlt)
      as (r & db1 & Hr & Hst & Hp1 & Hby1).
    destruct (IH (after p) db1 (dateNow env) Hp1 Hby1 Hinc) as (rs & db2 & Hrs & Htr & Hp2 & Hby2).
    exists (r :: rs), db2. simpl. unfold bind. rewrite Hr, Hrs.
    split; [reflexivity|].
    split; [rewrite Hst, Htr; reflexivity|].
    split; assumption.
Qed.

(** C6, amended.  Starting from [inactive], calls whose clock readings grow
    strictly, from above every earlier punch of the employee, all succeed and
    take the status through working, on-lunch, working, inactive, again and
    again: the status is [inactive] after every fourth call. *)
Theorem clockAction_cycles_under_increasing_clock
        (employeeId : string) (db : Db) (e : ClockEmployee.t) (bound : Z) (envs : list Env) :
  fst (getClockEmployee employeeId db) = inr (Some e) ->
  ClockEmployee.status e = Some "inactive" ->
  punchedBy employeeId bound db ->
  increasing bound envs ->
  exists rs db',
    clockActions employeeId envs db = (inr rs, db')
    /\ map (fun r => ClockEmployee.status (ClockAction.employee r)) rs
       = map Some (trace Idle (List.length envs))
    /\ statusOf employeeId db' = Some (Some (phaseStatus (advance (List.length envs) Idle)))
    /\ (List.length envs = 4%nat ->
        map (fun r => ClockEmployee.status (ClockAction.employee r)) rs
        = [Some "working"; Some "on-lunch"; Some "working"; Some "inactive"])
    /\ (forall n, List.length envs = (4 * n)%nat ->
                  statusOf employeeId db' = Some (Some "inactive")).
Proof.
  intros Hfound Hst Hby Hinc.
  assert (Hp : inPhase employeeId Idle db).
  { split; [|exact I]. exists e. split; assumption. }
  destruct (clockActions_run employeeId envs Idle db bound Hp Hby Hinc)
    as (rs & db' & Hrs & Htr & [(e' & Hfound' & Hst') _] & _).
  assert (Hstatus : statusOf employeeId db'
                    = Some (Some (phaseStatus (advance (List.length envs) Idle)))).
  { unfold statusOf. unfold getClockEmployee in Hfound'. simpl in Hfound'.
    injection Hfound' as Hfound'. unfold hasId in *. rewrite Hfound'. simpl.
    rewrite Hst'. reflexivity. }
  exists rs, db'.
  split; [exact Hrs|].
  split; [exact Htr|].
  split; [exact Hstatus|].
  split.
  - intros Hlen. rewrite Htr, Hlen. reflexivity.
  - intros n Hlen. rewrite Hstatus, Hlen, advance_cycles. reflexivity.
Qed.

Lemma clockAction_cycles_under_increasing_clock_witness :
  fst (getClockEmployee "e1" (mkDb [Sample.ann] [])) = inr (Some Sample.ann)
  /\ increasing 0 [Sample.tick 1000 "a"; Sample.tick 2000 "b";
                   Sample.tick 3000 "c"; Sample.tick 4000 "d"]
  /\ exists rs db',
       clockActions "e1" [Sample.tick 1000 "a"; Sample.tick 2000 "b";
                          Sample.tick 3000 "c"; Sample.tick 4000 "d"]
                    (mkDb [Sample.ann] []) = (inr rs, db')
       /\ statusOf "e1" db' = Some (Some "inactive").
Proof.
  assert (Hinc : increasing 0 [Sample.tick 1000 "a"; Sample.tick 2000 "b";
                               Sample.tick 3000 "c"; Sample.tick 4000 "d"]).
  { simpl. repeat split; reflexivity. }
  split; [reflexivity|].
  split; [exact Hinc|].
  destruct (clockAction_cycles_under_increasing_clock "e1" (mkDb [Sample.ann] []) Sample.ann 0
              [Sample.tick 1000 "a"; Sample.tick 2000 "b";
               Sample.tick 3000 "c"; Sample.tick 4000 "d"]
              eq_refl eq_refl) as (rs & db' & Hrs & _ & _ & _ & Hcycle).
  - intros l [].
  - exact Hinc.
  - exists rs, db'. split; [exact Hrs | apply (Hcycle 1%nat); reflexivity].
Defined.

(** C6, as stated, fails when the clock does not grow: with the third
    reading behind the second, the fourth call finds the [lunch-out] punch as
    the latest and starts lunch again; and with a [lunch-in] punch stamped
    ahead of the clock, the second call clocks out. *)
Lemma cycle_breaks_when_clock_steps_back :
  option_map (map (fun r => (ClockEmployee.status (ClockAction.employee r),
                             ClockAction.status r)))
    (resolved (clockActions "e1"
                 [Sample.tick 1000 "a"; Sample.tick 2000 "b";
                  Sample.tick 1500 "c"; Sample.tick 2500 "d"]
                 (mkDb [Sample.ann] [])))
  = Some [(Some "working", "Clocked In"); (Some "on-lunch", "Started Lunch");
          (Some "working", "Ended Lunch"); (Some "on-lunch", "Started Lunch")]
  /\ option_map (map (fun r => (ClockEmployee.status (ClockAction.employee r),
                                ClockAction.status r)))
       (resolved (clockActions "e1"
                    [Sample.tick 1000 "a"; Sample.tick 2000 "b";
                     Sample.tick 3000 "c"; Sample.tick 4000 "d"]
                    (mkDb [Sample.ann] [Sample.punchAt "p0" "lunch-in" 5000])))
     = Some [(Some "working", "Clocked In"); (Some "inactive", "Clocked Out");
             (Some "working", "Clocked In"); (Some "inactive", "Clocked Out")].
Proof. vm_compute. split; reflexivity. Qed.

Example four_calls_sample :
  option_map (map (fun r => (ClockEmployee.status (ClockAction.employee r),
                             ClockAction.status r,
                             ClockLog.type (ClockAction.log r),
                             ClockLog.timestamp (ClockAction.log r))))
    (resolved (clockActions "e1"
                 [Sample.tick 1000 "a"; Sample.tick 2000 "b";
                  Sample.tick 3000 "c"; Sample.tick 4000 "d"]
                 (mkDb [Sample.ann] [])))
  = Some [(Some "working", "Clocked In", "clock-in", 1000);
          (Some "on-lunch", "Started Lunch", "lunch-out", 2000);
          (Some "working", "Ended Lunch", "lunch-in", 3000);
          (Some "inactive", "Clocked Out", "clock-out", 4000)].
Proof. vm_compute. reflexivity. Qed.

Example trace_two_rounds :
  trace Idle 8 = ["working"; "on-lunch"; "working"; "inactive";
                  "working"; "on-lunch"; "working"; "inactive"].
Proof. reflexivity. Qed.

Example clockAction_invalid_status :
  fst (clockAction "e1" (Sample.tick 1000 "a")
         (mkDb [ClockEmployee.mk "e1" "Ann" None 2500 None None] []))
  = inl (mkError "Invalid employee status").
Proof. reflexivity. Qed.


Lemma filter_hasId_other (id other : string) (updates : ClockEmployee.partial) (now : Z)
      (rows : list ClockEmployee.t) :
  other <> id ->
  filter (hasId other)
         (map (fun e => if hasId id e then ClockEmployee.assign updates now e else e) rows)
  = filter (hasId other) rows.
Proof.
  intros Hneq. induction rows as [|row rows IH]; [reflexivity|].
  cbn [map filter]. destruct (hasId id row) eqn:E.
  - assert (Hid : hasId other (ClockEmployee.assign updates now row) = hasId other row)
      by reflexivity.
    rewrite Hid.
    assert (Hno : hasId other row = false).
    { unfold hasId in *. apply String.eqb_eq in E. apply String.eqb_neq. congruence. }
    rewrite Hno. exact IH.
  - destruct (hasId other row); [f_equal|]; exact IH.
Qed.

Lemma map_unmatched (id : string) (f : ClockEmployee.t -> ClockEmployee.t)
      (rows : list ClockEmployee.t) :
  filter (hasId id) rows = [] ->
  map (fun e => if hasId id e then f e else e) rows = rows.
Proof.
  induction rows as [|row rows IH]; [reflexivity|].
  cbn [map filter]. destruct (hasId id row) eqn:E; [discriminate|].
  intros H. f_equal. apply IH. exact H.
Qed.

Lemma found_rows (id : string) (db : Db) (e : ClockEmployee.t) :
  fst (getClockEmployee id db) = inr (Some e) ->
  exists rest, filter (hasId id) (clockEmployees db) = e :: rest.
Proof.
  unfold getClockEmployee. simpl. intros [= H].
  destruct (filter (hasId id) (clockEmployees db)) as [|first rest]; [discriminate|].
  injection H as ->. exists rest. reflexivity.
Qed.

Lemma missing_rows (id : string) (db : Db) :
  fst (getClockEmployee id db) = inr None ->
  filter (hasId id) (clockEmployees db) = [].
Proof.
  unfold getClockEmployee. simpl. intros [= H].
  destruct (filter (hasId id) (clockEmployees db)); [reflexivity | discriminate].
Qed.

Lemma db_eta (db : Db) : mkDb (clockEmployees db) (clockLogs db) = db.
Proof. destruct db. reflexivity. Qed.

(** X1.  [getClockLogs] with an identifier: exactly the punches of that
    employee, latest first, and the database is not changed. *)
Theorem getClockLogs_latest_first (employeeId : string) (db : Db) :
  employeeId <> "" ->
  exists logs,
    getClockLogs (Some employeeId) db = (inr logs, db)
    /\ StronglySorted descending logs
    /\ Permutation logs (filter (ofEmployee employeeId) (clockLogs db))
    /\ forall log, In log logs
                   <-> In log (clockLogs db) /\ ClockLog.employeeId log = employeeId.
Proof.
  intros Hne. destruct employeeId as [|c s]; [congruence|].
  eexists. split; [reflexivity|].
  split; [apply orderByDesc_sorted|].
  split; [apply sortBy_perm|].
  intros log. unfold orderByDesc. rewrite sortBy_In, filter_In.
  unfold ofEmployee. rewrite String.eqb_eq. reflexivity.
Qed.

Lemma getClockLogs_latest_first_witness :
  "e1" <> ""
  /\ exists logs,
       getClockLogs (Some "e1") SampleDb.twoDaysDb = (inr logs, SampleDb.twoDaysDb)
       /\ StronglySorted descending logs
       /\ Permutation logs (filter (ofEmployee "e1") (clockLogs SampleDb.twoDaysDb))
       /\ forall log, In log logs
                      <-> In log (clockLogs SampleDb.twoDaysDb)
                          /\ ClockLog.employeeId log = "e1".
Proof.
  split; [discriminate | apply (getClockLogs_latest_first "e1" SampleDb.twoDaysDb); discriminate].
Defined.

(** X2.  [getClockLogs] with the empty text as identifier answers like the
    call without identifier: every punch of every employee, latest first. *)
Theorem getClockLogs_empty_id_lists_everyone (db : Db) :
  getClockLogs (Some "") db = getClockLogs None db
  /\ exists logs,
       getClockLogs (Some "") db = (inr logs, db)
       /\ StronglySorted descending logs
       /\ Permutation logs (clockLogs db).
Proof.
  split; [reflexivity|].
  eexists. split; [reflexivity|].
  split; [apply orderByDesc_sorted | apply sortBy_perm].
Qed.

Lemma numeric10_2_iff (rate : Z) : numeric10_2 rate = true <-> - 10 ^ 10 < rate < 10 ^ 10.
Proof. unfold numeric10_2. rewrite Z.ltb_lt. lia. Qed.

Lemma payRateFits_iff (updates : ClockEmployee.partial) :
  payRateFits updates = true
  <-> forall rate, ClockEmployee.set_payRate updates = Some rate -> - 10 ^ 10 < rate < 10 ^ 10.
Proof.
  unfold payRateFits. destruct (ClockEmployee.set_payRate updates) as [rate|].
  - rewrite numeric10_2_iff. split.
    + intros H r [= <-]. exact H.
    + intros H. apply H. reflexivity.
  - split; [intros _ r; discriminate | reflexivity].
Qed.



(** X3.  [updateClockEmployee] on an identifier that no row has leaves the
    database as before and never answers a row; with no pay rate among the
    updates, or one that the column can hold, it resolves with
    [undefined]. *)
Theorem updateClockEmployee_unknown_changes_nothing
        (id : string) (updates : ClockEmployee.partial) (now : Z) (db : Db) :
  fst (getClockEmployee id db) = inr None ->
  snd (updateClockEmployee id updates now db) = db
  /\ (forall r, fst (updateClockEmployee id updates now db) = inr r -> r = None)
  /\ ((forall rate, ClockEmployee.set_payRate updates = Some rate ->
                    - 10 ^ 10 < rate < 10 ^ 10) ->
      updateClockEmployee id updates now db = (inr None, db)).
Proof.
  intros H. apply missing_rows in H. unfold updateClockEmployee.
  rewrite H, (map_unmatched id _ _ H), db_eta. cbn [map hd_error].
  split; [destruct (payRateFits updates); reflexivity|].
  split.
  - destruct (payRateFits updates); cbn [fst]; intros r [= <-]. reflexivity.
  - intros Hfits. apply payRateFits_iff in Hfits. rewrite Hfits. reflexivity.
Qed.

Lemma updateClockEmployee_unknown_changes_nothing_witness :
  fst (getClockEmployee "e9" SampleDb.twoDaysDb) = inr None
  /\ updateClockEmployee "e9" (ClockEmployee.mkPartial None None (Some 3000) None) 5
                         SampleDb.twoDaysDb
     = (inr None, SampleDb.twoDaysDb).
Proof.
  split; [reflexivity|].
  apply (updateClockEmployee_unknown_changes_nothing "e9"
           (ClockEmployee.mkPartial None None (Some 3000) None) 5 SampleDb.twoDaysDb).
  - reflexivity.
  - cbn [ClockEmployee.set_payRate]. intros rate [= <-]. lia.
Defined.



Lemma setStatus_payData (employeeId next : string) (env : Env) (rows : list ClockEmployee.t) :
  map payData (map (setStatus employeeId next env) rows) = map payData rows.
Proof.
  rewrite map_map. apply map_ext. intros row. unfold setStatus.
  destruct (hasId employeeId row); reflexivity.
Qed.

Lemma setStatus_others (employeeId next : string) (env : Env) (rows : list ClockEmployee.t) :
  filter (fun e => negb (hasId employeeId e)) (map (setStatus employeeId next env) rows)
  = filter (fun e => negb (hasId employeeId e)) rows.
Proof.
  induction rows as [|row rows IH]; [reflexivity|].
  cbn [map filter]. unfold setStatus at 1 2. destruct (hasId employeeId row) eqn:E.
  - assert (Hid : hasId employeeId
                    (ClockEmployee.assign (ClockEmployee.onlyStatus next) (updateTime env) row)
                  = true) by exact E.
    rewrite Hid. exact IH.
  - rewrite E. cbn [negb]. f_equal. exact IH.
Qed.

(** The three ways a call to [clockAction] ends. *)
Lemma clockAction_cases (employeeId : string) (env : Env) (db : Db) :
  (fst (getClockEmployee employeeId db) = inr None
   /\ clockAction employeeId env db = (inl NotFound, db))
  \/ (exists e, fst (getClockEmployee employeeId db) = inr (Some e)
                /\ clockAction employeeId env db = (inl InvalidState, db))
  \/ (exists e next type label,
         fst (getClockEmployee employeeId db) = inr (Some e)
         /\ In (next, label, type) outcomes
         /\ applied employeeId env db e next type label).
Proof.
  destruct (filter (hasId employeeId) (clockEmployees db)) as [|e rest] eqn:Hrows.
  - left. unfold clockAction, bind, getClockEmployee. rewrite Hrows. split; reflexivity.
  - right.
    assert (Hfound : fst (getClockEmployee employeeId db) = inr (Some e)).
    { unfold getClockEmployee. cbn [fst]. rewrite Hrows. reflexivity. }
    pose proof (decide_eq employeeId e db) as Hdecide.
    destruct (statusIs "inactive" e).
    { right. exists e, "working", "clock-in", "Clocked In".
      split; [exact Hfound|]. split; [simpl; auto|].
      apply clockAction_decided; assumption. }
    destruct (statusIs "working" e).
    { destruct (isLunchIn (mostRecentPunch employeeId db)).
      - right. exists e, "inactive", "clock-out", "Clocked Out".
        split; [exact Hfound|]. split; [simpl; auto|].
        apply clockAction_decided; assumption.
      - right. exists e, "on-lunch", "lunch-out", "Started Lunch".
        split; [exact Hfound|]. split; [simpl; auto|].
        apply clockAction_decided; assumption. }
    destruct (statusIs "on-lunch" e).
    { right. exists e, "working", "lunch-in", "Ended Lunch".
      split; [exact Hfound|]. split; [simpl; auto|].
      apply clockAction_decided; assumption. }
    left. exists e. split; [exact Hfound|].
    unfold clockAction, bind, getClockEmployee. rewrite Hrows. cbv beta iota.
    change (hd_error (e :: rest)) with (Some e). cbv beta iota.
    rewrite Hdecide. reflexivity.
Qed.

(** X5.  A call to [clockAction] that fails has changed nothing, and it
    fails with "Employee not found" or with "Invalid employee status":
    the error "Failed to update employee status" is never raised. *)
Theorem clockAction_failure_changes_nothing
        (employeeId : string) (env : Env) (db db' : Db) (err : Error) :
  clockAction employeeId env db = (inl err, db') ->
  db' = db /\ (err = NotFound \/ err = InvalidState) /\ err <> UpdateFailed.
Proof.
  intros H.
  destruct (clockAction_cases employeeId env db)
    as [[_ Hc] | [(e & _ & Hc) | (e & next & type & label & _ & _ & Hc & _)]];
    rewrite Hc in H; try discriminate; injection H as <- <-.
  - split; [reflexivity|]. split; [left; reflexivity | discriminate].
  - split; [reflexivity|]. split; [right; reflexivity | discriminate].
Qed.

Lemma clockAction_failure_changes_nothing_witness :
  clockAction "e2" (Sample.tick 5 "p9") SampleDb.fullDayDb = (inl NotFound, SampleDb.fullDayDb)
  /\ SampleDb.fullDayDb = SampleDb.fullDayDb
  /\ (NotFound = NotFound \/ NotFound = InvalidState) /\ NotFound <> UpdateFailed.
Proof.
  split; [reflexivity|].
  apply (clockAction_failure_changes_nothing "e2" (Sample.tick 5 "p9")). reflexivity.
Defined.

(** X6.  A call to [clockAction] that succeeds appends exactly one punch, of
    the calling employee and stamped with the clock reading, after the
    punches that were there; status, label and punch type are one of the
    four rows of the transition table; identifier, name, pin and pay rate
    of every employee row are as before, and so is every row of another
    employee. *)
Theorem clockAction_success_frame
        (employeeId : string) (env : Env) (db db' : Db) (r : ClockAction.result) :
  clockAction employeeId env db = (inr r, db') ->
  clockLogs db' = clockLogs db ++ [ClockAction.log r]
  /\ ClockLog.employeeId (ClockAction.log r) = employeeId
  /\ ClockLog.timestamp (ClockAction.log r) = dateNow env
  /\ ClockLog.id (ClockAction.log r) = randomUuid env
  /\ (exists next label type,
         In (next, label, type) outcomes /\ outcomeOf r = (Some next, label, type))
  /\ map payData (clockEmployees db') = map payData (clockEmployees db)
  /\ others employeeId db' = others employeeId db
  /\ fst (getClockEmployee employeeId db') = inr (Some (ClockAction.employee r)).
Proof.
  intros H.
  destruct (clockAction_cases employeeId env db)
    as [[_ Hc] | [(e & _ & Hc) | (e & next & type & label & _ & Hin & Hc & Hst & _ & Hget & _)]];
    rewrite Hc in H; try discriminate.
  injection H as <- <-. cbn [clockLogs clockEmployees ClockAction.log ClockAction.employee
                             ClockLog.employeeId ClockLog.timestamp ClockLog.id].
  split; [reflexivity|]. split; [reflexivity|]. split; [reflexivity|]. split; [reflexivity|].
  split.
  { exists next, label, type. split; [exact Hin|].
    unfold outcomeOf. cbn [ClockAction.employee ClockAction.status ClockAction.log ClockLog.type].
    rewrite Hst. reflexivity. }
  split; [apply setStatus_payData|].
  split; [unfold others; cbn [clockEmployees]; apply setStatus_others|].
  exact Hget.
Qed.

Lemma clockAction_success_frame_witness :
  exists r db',
    clockAction "e1" (Sample.tick (Sample.at_ 12) "p2") SampleDb.openDayDb = (inr r, db')
    /\ (clockLogs db' = clockLogs SampleDb.openDayDb ++ [ClockAction.log r]
        /\ ClockLog.employeeId (ClockAction.log r) = "e1"
        /\ ClockLog.timestamp (ClockAction.log r) = dateNow (Sample.tick (Sample.at_ 12) "p2")
        /\ ClockLog.id (ClockAction.log r) = randomUuid (Sample.tick (Sample.at_ 12) "p2")
        /\ (exists next label type,
               In (next, label, type) outcomes /\ outcomeOf r = (Some next, label, type))
        /\ map payData (clockEmployees db') = map payData (clockEmployees SampleDb.openDayDb)
        /\ others "e1" db' = others "e1" SampleDb.openDayDb
        /\ fst (getClockEmployee "e1" db') = inr (Some (ClockAction.employee r))).
Proof.
  eexists. eexists.
  refine ((fun H => conj H (clockAction_success_frame _ _ _ _ _ H)) _).
  reflexivity.
Defined.

Lemma selected_after_punch (a b : string) (startDate endDate : Z) (rows rows' : list ClockEmployee.t)
      (logs : list ClockLog.t) (log : ClockLog.t) :
  a <> b -> ClockLog.employeeId log = a ->
  selected b startDate endDate (mkDb rows' (logs ++ [log]))
  = selected b startDate endDate (mkDb rows logs).
Proof.
  intros Hneq Hlog. unfold selected. cbn [clockLogs]. rewrite filter_app. cbn [filter].
  assert (Hout : inRange b startDate endDate log = false).
  { unfold inRange, ofEmployee. rewrite Hlog.
    assert (E : String.eqb a b = false) by (apply String.eqb_neq; exact Hneq).
    rewrite E. reflexivity. }
  rewrite Hout, app_nil_r. reflexivity.
Qed.

(** X7.  A punch of one employee does not change the timecard of another:
    whatever [clockAction] does for [a], the timecard of [b] over any range
    is the same before and after. *)
Theorem clockAction_keeps_other_timecards
        (a b : string) (env : Env) (startDate endDate : Z) (db : Db) :
  a <> b ->
  fst (getEmployeeTimeCard b startDate endDate (snd (clockAction a env db)))
  = fst (getEmployeeTimeCard b startDate endDate db).
Proof.
  intros Hneq.
  destruct (clockAction_cases a env db)
    as [[_ Hc] | [(e & _ & Hc) | (e & next & type & label & _ & _ & Hc & _)]];
    rewrite Hc; cbn [snd]; try reflexivity.
  rewrite !getEmployeeTimeCard_eq. cbn [clockEmployees].
  assert (Hrows : filter (hasId b) (map (setStatus a next env) (clockEmployees db))
                  = filter (hasId b) (clockEmployees db)).
  { apply (filter_hasId_other a b (ClockEmployee.onlyStatus next) (updateTime env)).
    congruence. }
  rewrite Hrows.
  destruct (hd_error (filter (hasId b) (clockEmployees db))) as [employee|]; [|reflexivity].
  cbn [fst]. do 2 f_equal.
  rewrite <- (db_eta db) at 2.
  apply (selected_after_punch a b startDate endDate (clockEmployees db));
    [exact Hneq | reflexivity].
Qed.

Lemma clockAction_keeps_other_timecards_witness :
  "e2" <> "e1"
  /\ fst (getEmployeeTimeCard "e1" (Sample.at_ 0) (Sample.at_ 48)
            (snd (clockAction "e2" (Sample.tick (Sample.at_ 11) "q2") SampleDb.twoDaysDb)))
     = fst (getEmployeeTimeCard "e1" (Sample.at_ 0) (Sample.at_ 48) SampleDb.twoDaysDb).
Proof.
  split; [discriminate | apply (clockAction_keeps_other_timecards "e2" "e1"); discriminate].
Defined.

(** ** A day driven through the state machine, on the timecard *)

Lemma clockAction_step_log
      (employeeId : string) (p : Phase) (db : Db) (bound : Z) (env : Env) :
  inPhase employeeId p db -> punchedBy employeeId bound db -> bound < dateNow env ->
  exists r db',
    clockAction employeeId env db = (inr r, db')
    /\ ClockAction.log r = punchOf employeeId p env
    /\ clockLogs db' = clockLogs db ++ [punchOf employeeId p env]
    /\ inPhase employeeId (after p) db'
    /\ punchedBy employeeId (dateNow env) db'.
Proof.
  intros [(e & Hfound & Hst) Hlast] Hby Hlt.
  assert (Hdecide : exists label,
             decide employeeId e db = (inr (phaseStatus (after p), punchType p, label), db)).
  { rewrite decide_eq, !(statusIs_eq _ _ _ Hst).
    destruct p; simpl in *; rewrite ?Hlast; eexists; reflexivity. }
  destruct Hdecide as (label & Hdecide).
  destruct (clockAction_decided employeeId env db e _ _ label Hfound Hdecide)
    as (Hrun & Hnext & _ & Hfound' & _).
  do 2 eexists. split; [exact Hrun|].
  split; [reflexivity|].
  split; [reflexivity|].
  split; [split|].
  - eexists. split; [exact Hfound' | exact Hnext].
  - destruct p; try exact I;
      cbn [after]; rewrite (mostRecentPunch_after_insert _ _ _ _ bound _ _ Hby Hlt); reflexivity.
  - intros l Hin Hid. simpl in Hin. apply in_app_or in Hin.
    destruct Hin as [Hold | [<- | []]].
    + specialize (Hby l Hold Hid). lia.
    + simpl. lia.
Qed.

Lemma Day_between (a b c : Z) : a <= b <= c -> Js.Day a = Js.Day c -> Js.Day b = Js.Day a.
Proof.
  unfold Js.Day, Js.msPerDay. intros [Hab Hbc] Heq.
  pose proof (Z.div_le_mono a b 86400000 ltac:(lia) Hab).
  pose proof (Z.div_le_mono b c 86400000 ltac:(lia) Hbc).
  lia.
Qed.

Lemma replay_day (employeeId : string) (env1 env2 env3 env4 : Env) :
  dateNow env1 <> 0 -> dateNow env2 <> 0 -> dateNow env3 <> 0 ->
  replay (dayPunches employeeId env1 env2 env3 env4)
  = DayLoop.mk ((dateNow env2 - dateNow env1) + (dateNow env4 - dateNow env3))
               (dateNow env3 - dateNow env2)
               (Some (dateNow env3)) (Some (dateNow env2)).
Proof.
  intros H1 H2 H3. unfold replay, dayPunches, punchOf. cbn [fold_left punchType].
  unfold punch, DayLoop.init.
  cbn [ClockLog.type ClockLog.timestamp String.eqb Ascii.eqb Bool.eqb andb].
  unfold truthy, toNumber.
  apply Z.eqb_neq in H1, H2, H3.
  cbn [String.eqb Ascii.eqb Bool.eqb]. rewrite ?H1. cbn [negb].
  cbn [String.eqb Ascii.eqb Bool.eqb]. rewrite ?H2. cbn [negb].
  cbn [String.eqb Ascii.eqb Bool.eqb]. rewrite ?H3. cbn [negb].
  reflexivity.
Qed.

Lemma groupByDate_one_day (date : string) (logs : list ClockLog.t) :
  logs <> [] -> Forall (fun log => dateOf log = date) logs ->
  groupByDate logs = [(date, DayReport.mk logs 0 0)].
Proof.
  induction logs as [|log logs IH] using rev_ind; [congruence|].
  intros _ Hall. apply Forall_app in Hall. destruct Hall as [Hall Hlog].
  inversion Hlog as [|? ? Hdate _]; subst.
  rewrite groupByDate_snoc. unfold addLog. fold (dateOf log).
  destruct logs as [|first logs].
  - cbn [groupByDate fold_left lookup app alter]. rewrite String.eqb_refl. reflexivity.
  - rewrite IH by (congruence || exact Hall).
    cbn [lookup]. rewrite String.eqb_refl. cbn [alter]. rewrite String.eqb_refl.
    reflexivity.
Qed.

Lemma filter_none {A : Type} (p : A -> bool) (l : list A) :
  (forall a, In a l -> p a = false) -> filter p l = [].
Proof.
  induction l as [|a l IH]; intros H; [reflexivity|].
  cbn [filter]. rewrite (H a (or_introl eq_refl)). apply IH.
  intros b Hb. apply H. right. exact Hb.
Qed.

(** X8.  A day driven through the state machine shows on the timecard as
    worked: for an inactive employee whose earlier punches all lie before
    the range, four calls with clock readings that grow, are positive and
    fall on one UTC date inside the range write clock-in, lunch-out,
    lunch-in and clock-out, and the timecard over the range then has that
    one day, with the morning plus the afternoon as working time and the
    break as lunch time. *)
Theorem punched_day_on_the_timecard
        (employeeId : string) (db : Db) (e : ClockEmployee.t)
        (env1 env2 env3 env4 : Env) (startDate endDate : Z) :
  fst (getClockEmployee employeeId db) = inr (Some e) ->
  ClockEmployee.status e = Some "inactive" ->
  (forall log, In log (clockLogs db) -> ClockLog.employeeId log = employeeId ->
               ClockLog.timestamp log < startDate) ->
  0 < dateNow env1 ->
  startDate <= dateNow env1 < dateNow env2 ->
  dateNow env2 < dateNow env3 < dateNow env4 ->
  dateNow env4 <= endDate ->
  Js.Day (dateNow env1) = Js.Day (dateNow env4) ->
  exists rs db' tc,
    clockActions employeeId [env1; env2; env3; env4] db = (inr rs, db')
    /\ map ClockAction.log rs = dayPunches employeeId env1 env2 env3 env4
    /\ clockLogs db' = clockLogs db ++ dayPunches employeeId env1 env2 env3 env4
    /\ getEmployeeTimeCard employeeId startDate endDate db' = (inr tc, db')
    /\ TimeCard.dailyReport tc
       = [(Js.toISODate (dateNow env1),
           DayReport.mk (dayPunches employeeId env1 env2 env3 env4)
             ((dateNow env2 - dateNow env1) + (dateNow env4 - dateNow env3))
             (dateNow env3 - dateNow env2))]
    /\ TimeCard.totalWorkingTime tc
       = (dateNow env2 - dateNow env1) + (dateNow env4 - dateNow env3).
Proof.
  intros Hfound Hst Hold Hpos [Hs H12] [H23 H34] He Hday.
  assert (Hp0 : inPhase employeeId Idle db).
  { split; [exists e; split; [exact Hfound | exact Hst] | exact I]. }
  assert (Hby0 : punchedBy employeeId (startDate - 1) db).
  { intros l Hin Hid. specialize (Hold l Hin Hid). lia. }
  destruct (clockAction_step_log employeeId Idle db (startDate - 1) env1 Hp0 Hby0 ltac:(lia))
    as (r1 & db1 & Hr1 & Hl1 & Hlogs1 & Hp1 & Hby1).
  destruct (clockAction_step_log employeeId _ db1 _ env2 Hp1 Hby1 ltac:(lia))
    as (r2 & db2 & Hr2 & Hl2 & Hlogs2 & Hp2 & Hby2).
  destruct (clockAction_step_log employeeId _ db2 _ env3 Hp2 Hby2 ltac:(lia))
    as (r3 & db3 & Hr3 & Hl3 & Hlogs3 & Hp3 & Hby3).
  destruct (clockAction_step_log employeeId _ db3 _ env4 Hp3 Hby3 ltac:(lia))
    as (r4 & db4 & Hr4 & Hl4 & Hlogs4 & Hp4 & Hby4).
  cbn [after] in *.
  assert (Hlogs : clockLogs db4 = clockLogs db ++ dayPunches employeeId env1 env2 env3 env4).
  { rewrite Hlogs4, Hlogs3, Hlogs2, Hlogs1. unfold dayPunches.
    rewrite <- !app_assoc. reflexivity. }
  destruct Hp4 as [(e4 & Hfound4 & _) _].
  assert (Hsel : selected employeeId startDate endDate db4
                 = dayPunches employeeId env1 env2 env3 env4).
  { unfold selected. rewrite Hlogs, filter_app.
    rewrite (filter_none (inRange employeeId startDate endDate) (clockLogs db)).
    2:{ intros l Hin. destruct (inRange employeeId startDate endDate l) eqn:E; [|reflexivity].
        apply inRange_iff in E. destruct E as [Hid Hr]. specialize (Hold l Hin Hid). lia. }
    cbn [app].
    assert (Hin : forall env p, startDate <= dateNow env <= endDate ->
                                inRange employeeId startDate endDate (punchOf employeeId p env)
                                = true).
    { intros env p Hr. apply inRange_iff. split; [reflexivity | exact Hr]. }
    unfold dayPunches. cbn [filter].
    rewrite !Hin by lia.
    apply sortBy_sorted_id.
    repeat (apply SSorted_cons || apply SSorted_nil || apply Forall_cons || apply Forall_nil);
      unfold byTimestamp, punchOf; cbn [ClockLog.timestamp]; apply Z.leb_le; lia. }
  assert (Hgroup : groupByDate (dayPunches employeeId env1 env2 env3 env4)
                   = [(Js.toISODate (dateNow env1),
                       DayReport.mk (dayPunches employeeId env1 env2 env3 env4) 0 0)]).
  { apply groupByDate_one_day; [discriminate|].
    unfold dayPunches.
    repeat (apply Forall_cons || apply Forall_nil);
      unfold dateOf, punchOf; cbn [ClockLog.timestamp];
      apply toISODate_same_day; try reflexivity;
      [ apply (Day_between _ _ (dateNow env4)); [lia | exact Hday]
      | apply (Day_between _ _ (dateNow env4)); [lia | exact Hday]
      | symmetry; exact Hday ]. }
  exists [r1; r2; r3; r4], db4.
  eexists. split.
  { cbn [clockActions]. unfold bind. rewrite Hr1, Hr2, Hr3, Hr4. reflexivity. }
  split; [cbn [map]; rewrite Hl1, Hl2, Hl3, Hl4; reflexivity|].
  split; [exact Hlogs|].
  split; [apply (getEmployeeTimeCard_found _ _ _ _ _ Hfound4)|].
  unfold cardOf. cbn [TimeCard.dailyReport TimeCard.totalWorkingTime].
  rewrite Hsel, Hgroup. cbn [map]. unfold finishEntry, finish. cbn [fst snd DayReport.logs].
  rewrite replay_day by lia.
  cbn [DayLoop.workingTime DayLoop.lunchTime DayReport.setTimes DayReport.logs
       map snd DayReport.workingTime sumZ fold_right].
  split; [reflexivity | lia].
Qed.

Lemma punched_day_on_the_timecard_witness :
  exists rs db' tc,
    clockActions "e1" [Sample.tick (Sample.at_ 9) "p1"; Sample.tick (Sample.at_ 12) "p2";
                       Sample.tick (Sample.at_ 13) "p3"; Sample.tick (Sample.at_ 17) "p4"]
                 (mkDb [Sample.ann] []) = (inr rs, db')
    /\ map ClockAction.log rs
       = dayPunches "e1" (Sample.tick (Sample.at_ 9) "p1") (Sample.tick (Sample.at_ 12) "p2")
                    (Sample.tick (Sample.at_ 13) "p3") (Sample.tick (Sample.at_ 17) "p4")
    /\ clockLogs db'
       = clockLogs (mkDb [Sample.ann] [])
         ++ dayPunches "e1" (Sample.tick (Sample.at_ 9) "p1") (Sample.tick (Sample.at_ 12) "p2")
                       (Sample.tick (Sample.at_ 13) "p3") (Sample.tick (Sample.at_ 17) "p4")
    /\ getEmployeeTimeCard "e1" (Sample.at_ 0) (Sample.at_ 24) db' = (inr tc, db')
    /\ TimeCard.dailyReport tc
       = [(Js.toISODate (dateNow (Sample.tick (Sample.at_ 9) "p1")),
           DayReport.mk
             (dayPunches "e1" (Sample.tick (Sample.at_ 9) "p1") (Sample.tick (Sample.at_ 12) "p2")
                         (Sample.tick (Sample.at_ 13) "p3") (Sample.tick (Sample.at_ 17) "p4"))
             ((dateNow (Sample.tick (Sample.at_ 12) "p2")
               - dateNow (Sample.tick (Sample.at_ 9) "p1"))
              + (dateNow (Sample.tick (Sample.at_ 17) "p4")
                 - dateNow (Sample.tick (Sample.at_ 13) "p3")))
             (dateNow (Sample.tick (Sample.at_ 13) "p3")
              - dateNow (Sample.tick (Sample.at_ 12) "p2")))]
    /\ TimeCard.totalWorkingTime tc
       = (dateNow (Sample.tick (Sample.at_ 12) "p2") - dateNow (Sample.tick (Sample.at_ 9) "p1"))
         + (dateNow (Sample.tick (Sample.at_ 17) "p4")
            - dateNow (Sample.tick (Sample.at_ 13) "p3")).
Proof.
  apply (punched_day_on_the_timecard "e1" (mkDb [Sample.ann] []) Sample.ann
           (Sample.tick (Sample.at_ 9) "p1") (Sample.tick (Sample.at_ 12) "p2")
           (Sample.tick (Sample.at_ 13) "p3") (Sample.tick (Sample.at_ 17) "p4")
           (Sample.at_ 0) (Sample.at_ 24)).
  - reflexivity.
  - reflexivity.
  - intros log [].
  - reflexivity.
  - split; [discriminate | reflexivity].
  - split; reflexivity.
  - discriminate.
  - reflexivity.
Defined.

(** ** Employees created and deleted *)

Lemma existsb_hasId (id : string) (rows : list ClockEmployee.t) :
  existsb (hasId id) rows = false <-> filter (hasId id) rows = [].
Proof.
  induction rows as [|row rows IH]; [split; reflexivity|].
  cbn [existsb filter]. destruct (hasId id row); cbn [orb]; [split; discriminate | exact IH].
Qed.

Lemma filter_hasId_snoc_other (id other : string) (rows : list ClockEmployee.t)
      (row : ClockEmployee.t) :
  ClockEmployee.id row = id -> other <> id ->
  filter (hasId other) (rows ++ [row]) = filter (hasId other) rows.
Proof.
  intros Hid Hneq. rewrite filter_app. cbn [filter].
  assert (E : hasId other row = false).
  { unfold hasId. rewrite Hid. apply String.eqb_neq. congruence. }
  rewrite E. apply app_nil_r.
Qed.

Lemma createClockEmployee_fresh (employee : InsertClockEmployee.t) (now : Z) (db : Db) :
  fst (getClockEmployee (InsertClockEmployee.id employee) db) = inr None ->
  - 10 ^ 10 < InsertClockEmployee.payRate employee < 10 ^ 10 ->
  createClockEmployee employee now db
  = (inr (inserted employee now),
     mkDb (clockEmployees db ++ [inserted employee now]) (clockLogs db))
  /\ fst (getClockEmployee (InsertClockEmployee.id employee)
            (mkDb (clockEmployees db ++ [inserted employee now]) (clockLogs db)))
     = inr (Some (inserted employee now)).
Proof.
  intros H Hrate. apply missing_rows in H. apply numeric10_2_iff in Hrate.
  pose proof (proj2 (existsb_hasId _ _) H) as Hfree.
  unfold createClockEmployee. rewrite Hrate, Hfree. split; [reflexivity|].
  unfold getClockEmployee. cbn [fst clockEmployees]. rewrite filter_app, H.
  cbn [filter app]. unfold hasId at 1. cbn [inserted ClockEmployee.id].
  rewrite String.eqb_refl. reflexivity.
Qed.

(** X9.  [createClockEmployee] under an identifier that is free, with a pay
    rate that the column can hold, returns the new row, with the given
    identifier, name, pin and pay rate and, when no status is given, the
    status [inactive]; [getClockEmployee] then finds that row, and the
    punches and the rows found under other identifiers are as before.  A
    pay rate of 100000000.00 or more, in absolute value, is refused and
    nothing is written. *)
Theorem createClockEmployee_then_get
        (employee : InsertClockEmployee.t) (now : Z) (db : Db) :
  fst (getClockEmployee (InsertClockEmployee.id employee) db) = inr None ->
  (- 10 ^ 10 < InsertClockEmployee.payRate employee < 10 ^ 10 ->
   exists e db',
     createClockEmployee employee now db = (inr e, db')
     /\ fst (getClockEmployee (InsertClockEmployee.id employee) db') = inr (Some e)
     /\ ClockEmployee.id e = InsertClockEmployee.id employee
     /\ ClockEmployee.name e = InsertClockEmployee.name employee
     /\ ClockEmployee.pin e = InsertClockEmployee.pin employee
     /\ ClockEmployee.payRate e = InsertClockEmployee.payRate employee
     /\ (InsertClockEmployee.status employee = None -> ClockEmployee.status e = Some "inactive")
     /\ (forall s, InsertClockEmployee.status employee = Some s -> ClockEmployee.status e = s)
     /\ clockLogs db' = clockLogs db
     /\ clockEmployees db' = clockEmployees db ++ [e]
     /\ forall other, other <> InsertClockEmployee.id employee ->
                      fst (getClockEmployee other db') = fst (getClockEmployee other db))
  /\ (10 ^ 10 <= Z.abs (InsertClockEmployee.payRate employee) ->
      createClockEmployee employee now db = (inl (mkError "numeric field overflow"), db)).
Proof.
  intros H. split.
  - intros Hrate.
    destruct (createClockEmployee_fresh employee now db H Hrate) as [Hrun Hget].
    eexists. eexists. split; [exact Hrun|].
    split; [exact Hget|].
    split; [reflexivity|].
    split; [reflexivity|].
    split; [reflexivity|].
    split; [reflexivity|].
    split; [intros E; cbn [inserted ClockEmployee.status]; rewrite E; reflexivity|].
    split; [intros s E; cbn [inserted ClockEmployee.status]; rewrite E; reflexivity|].
    split; [reflexivity|].
    split; [reflexivity|].
    intros other Hneq. unfold getClockEmployee. cbn [fst clockEmployees].
    rewrite (filter_hasId_snoc_other (InsertClockEmployee.id employee));
      [reflexivity | reflexivity | exact Hneq].
  - intros Hbig. unfold createClockEmployee, numeric10_2.
    apply Z.ltb_ge in Hbig. rewrite Hbig. reflexivity.
Qed.

Lemma createClockEmployee_then_get_witness :
  fst (getClockEmployee "e3" SampleDb.twoDaysDb) = inr None
  /\ exists e db',
       createClockEmployee (InsertClockEmployee.mk "e3" "Cy" None 2000 None) 9 SampleDb.twoDaysDb
       = (inr e, db')
       /\ fst (getClockEmployee "e3" db') = inr (Some e)
       /\ ClockEmployee.payRate e = 2000
       /\ ClockEmployee.status e = Some "inactive".
Proof.
  split; [reflexivity|].
  destruct (proj1 (createClockEmployee_then_get
                     (InsertClockEmployee.mk "e3" "Cy" None 2000 None) 9
                     SampleDb.twoDaysDb eq_refl))
    as (e & db' & H1 & H2 & _ & _ & _ & H6 & H7 & _).
  { cbn [InsertClockEmployee.payRate]. lia. }
  exists e, db'. split; [exact H1|]. split; [exact H2|]. split; [exact H6|].
  apply H7. reflexivity.
Defined.

(** X10.  The first [clockAction] of an employee created without a status,
    with a pay rate that the column can hold, clocks the employee in. *)
Theorem created_employee_clocks_in_first
        (employee : InsertClockEmployee.t) (now : Z) (env : Env) (db : Db) :
  fst (getClockEmployee (InsertClockEmployee.id employee) db) = inr None ->
  InsertClockEmployee.status employee = None ->
  - 10 ^ 10 < InsertClockEmployee.payRate employee < 10 ^ 10 ->
  exists e db' r db'',
    createClockEmployee employee now db = (inr e, db')
    /\ clockAction (InsertClockEmployee.id employee) env db' = (inr r, db'')
    /\ outcomeOf r = (Some "working", "Clocked In", "clock-in")
    /\ clockLogs db'' = clockLogs db ++ [ClockAction.log r].
Proof.
  intros Hfree Hstatus Hrate.
  destruct (createClockEmployee_fresh employee now db Hfree Hrate) as [Hcreate Hget].
  assert (Hdefault : ClockEmployee.status (inserted employee now) = Some "inactive")
    by (cbn [inserted ClockEmployee.status]; rewrite Hstatus; reflexivity).
  assert (Hdecide : decide (InsertClockEmployee.id employee) (inserted employee now)
                      (mkDb (clockEmployees db ++ [inserted employee now]) (clockLogs db))
                    = (inr ("working", "clock-in", "Clocked In"),
                       mkDb (clockEmployees db ++ [inserted employee now]) (clockLogs db))).
  { rewrite decide_eq, (statusIs_eq _ _ _ Hdefault). reflexivity. }
  destruct (clockAction_decided _ env _ _ _ _ _ Hget Hdecide) as (Hrun & Hst & _).
  do 4 eexists. split; [exact Hcreate|]. split; [exact Hrun|].
  split.
  - unfold outcomeOf. cbn [ClockAction.employee ClockAction.status ClockAction.log ClockLog.type].
    rewrite Hst. reflexivity.
  - reflexivity.
Qed.

Lemma created_employee_clocks_in_first_witness :
  fst (getClockEmployee "e3" SampleDb.twoDaysDb) = inr None
  /\ exists e db' r db'',
       createClockEmployee (InsertClockEmployee.mk "e3" "Cy" None 2000 None) 9 SampleDb.twoDaysDb
       = (inr e, db')
       /\ clockAction "e3" (Sample.tick (Sample.at_ 40) "c1") db' = (inr r, db'')
       /\ outcomeOf r = (Some "working", "Clocked In", "clock-in")
       /\ clockLogs db'' = clockLogs SampleDb.twoDaysDb ++ [ClockAction.log r].
Proof.
  split; [reflexivity|].
  apply (created_employee_clocks_in_first (InsertClockEmployee.mk "e3" "Cy" None 2000 None) 9
           (Sample.tick (Sample.at_ 40) "c1") SampleDb.twoDaysDb);
    [reflexivity | reflexivity | cbn [InsertClockEmployee.payRate]; lia].
Defined.

Lemma filter_others_all (id : string) (rows : list ClockEmployee.t) :
  filter (hasId id) rows = [] -> filter (fun e => negb (hasId id e)) rows = rows.
Proof.
  induction rows as [|row rows IH]; [reflexivity|].
  cbn [filter]. destruct (hasId id row); [discriminate|].
  intros H. cbn [negb]. f_equal. apply IH, H.
Qed.

Lemma filter_hasId_others (id other : string) (rows : list ClockEmployee.t) :
  filter (hasId other) (filter (fun e => negb (hasId id e)) rows)
  = if String.eqb other id then [] else filter (hasId other) rows.
Proof.
  induction rows as [|row rows IH].
  - destruct (String.eqb other id); reflexivity.
  - cbn [filter]. destruct (hasId id row) eqn:E; cbn [negb].
    + rewrite IH. destruct (String.eqb other id) eqn:Eo; [reflexivity|].
      assert (Hno : hasId other row = false).
      { unfold hasId in *. apply String.eqb_eq in E. apply String.eqb_neq in Eo.
        apply String.eqb_neq. congruence. }
      rewrite Hno. reflexivity.
    + cbn [filter]. rewrite IH. destruct (String.eqb other id) eqn:Eo.
      * apply String.eqb_eq in Eo. subst other. rewrite E. reflexivity.
      * reflexivity.
Qed.

Lemma existsb_ofEmployee (id : string) (logs : list ClockLog.t) :
  existsb (ofEmployee id) logs = true
  <-> exists log, In log logs /\ ClockLog.employeeId log = id.
Proof.
  rewrite existsb_exists. unfold ofEmployee.
  split; intros (log & Hin & H); exists log; (split; [exact Hin|]);
    apply String.eqb_eq; exact H.
Qed.

(** X11.  [deleteClockEmployee] on an identifier that no row has answers
    [false] and leaves the database as it was. *)
Theorem deleteClockEmployee_unknown_changes_nothing (id : string) (db : Db) :
  fst (getClockEmployee id db) = inr None ->
  deleteClockEmployee id db = (inr false, db).
Proof.
  intros H. apply missing_rows in H. unfold deleteClockEmployee.
  rewrite H, (filter_others_all _ _ H), db_eta. reflexivity.
Qed.

Lemma deleteClockEmployee_unknown_changes_nothing_witness :
  fst (getClockEmployee "e9" SampleDb.twoDaysDb) = inr None
  /\ deleteClockEmployee "e9" SampleDb.twoDaysDb = (inr false, SampleDb.twoDaysDb).
Proof.
  split; [reflexivity | apply (deleteClockEmployee_unknown_changes_nothing "e9"); reflexivity].
Defined.

Lemma delete_refused (id : string) (db : Db) (e : ClockEmployee.t) (log : ClockLog.t) :
  fst (getClockEmployee id db) = inr (Some e) ->
  In log (clockLogs db) -> ClockLog.employeeId log = id ->
  deleteClockEmployee id db = (inl StillReferenced, db).
Proof.
  intros Hfound Hin Hid. destruct (found_rows _ _ _ Hfound) as [rest Hrows].
  unfold deleteClockEmployee. rewrite Hrows.
  assert (Href : existsb (ofEmployee id) (clockLogs db) = true).
  { apply existsb_ofEmployee. exists log. split; assumption. }
  rewrite Href. reflexivity.
Qed.

(** X12.  While a punch refers to an employee the deletion is refused: the
    promise is rejected and the database is as it was. *)
Theorem deleteClockEmployee_refused_while_punched
        (id : string) (db : Db) (e : ClockEmployee.t) (log : ClockLog.t) :
  fst (getClockEmployee id db) = inr (Some e) ->
  In log (clockLogs db) -> ClockLog.employeeId log = id ->
  exists err, deleteClockEmployee id db = (inl err, db).
Proof.
  intros Hfound Hin Hid. exists StillReferenced. apply (delete_refused id db e log); assumption.
Qed.

Lemma deleteClockEmployee_refused_while_punched_witness :
  fst (getClockEmployee "e1" SampleDb.openDayDb) = inr (Some Sample.ann)
  /\ exists err, deleteClockEmployee "e1" SampleDb.openDayDb = (inl err, SampleDb.openDayDb).
Proof.
  split; [reflexivity|].
  apply (deleteClockEmployee_refused_while_punched "e1" SampleDb.openDayDb Sample.ann
           (Sample.punchAt "p1" "clock-in" (Sample.at_ 9)));
    [reflexivity | left; reflexivity | reflexivity].
Defined.

(** X13.  An employee who has punched cannot be deleted: after a successful
    [clockAction] the deletion of that employee is refused. *)
Theorem punched_employee_cannot_be_deleted
        (employeeId : string) (env : Env) (db db' : Db) (r : ClockAction.result) :
  clockAction employeeId env db = (inr r, db') ->
  exists err, deleteClockEmployee employeeId db' = (inl err, db').
Proof.
  intros H.
  destruct (clockAction_cases employeeId env db)
    as [[_ Hc] | [(e & _ & Hc) | (e & next & type & label & _ & _ & Hc & _ & _ & Hget & _)]];
    rewrite Hc in H; try discriminate.
  injection H as <- <-.
  exists StillReferenced.
  apply (delete_refused employeeId _ _
           (ClockLog.mk (randomUuid env) employeeId type (dateNow env) None) Hget);
    [|reflexivity].
  cbn [clockLogs]. apply in_or_app. right. left. reflexivity.
Qed.

Lemma punched_employee_cannot_be_deleted_witness :
  exists r db',
    clockAction "e1" (Sample.tick (Sample.at_ 9) "p1") (mkDb [Sample.ann] []) = (inr r, db')
    /\ exists err, deleteClockEmployee "e1" db' = (inl err, db').
Proof.
  eexists. eexists.
  refine ((fun H => conj H (punched_employee_cannot_be_deleted _ _ _ _ _ H)) _).
  reflexivity.
Defined.

Lemma not_referenced (id : string) (logs : list ClockLog.t) :
  (forall log, In log logs -> ClockLog.employeeId log <> id) ->
  existsb (ofEmployee id) logs = false.
Proof.
  intros H. destruct (existsb (ofEmployee id) logs) eqn:E; [|reflexivity].
  apply existsb_ofEmployee in E. destruct E as (log & Hin & Hid).
  exfalso. exact (H log Hin Hid).
Qed.

Lemma clockAction_missing (employeeId : string) (env : Env) (db : Db) :
  filter (hasId employeeId) (clockEmployees db) = [] ->
  clockAction employeeId env db = (inl NotFound, db).
Proof.
  intros H. unfold clockAction, bind, getClockEmployee. rewrite H. reflexivity.
Qed.

(** X14.  Deleting an employee without punches answers [true]; afterwards
    the employee is not found, [clockAction] and [getEmployeeTimeCard] for
    that identifier fail with "Employee not found", and the other rows and
    the punches are as before. *)
Theorem deleteClockEmployee_then_gone
        (id : string) (db : Db) (e : ClockEmployee.t) (env : Env) (startDate endDate : Z) :
  fst (getClockEmployee id db) = inr (Some e) ->
  (forall log, In log (clockLogs db) -> ClockLog.employeeId log <> id) ->
  exists db',
    deleteClockEmployee id db = (inr true, db')
    /\ fst (getClockEmployee id db') = inr None
    /\ clockAction id env db' = (inl NotFound, db')
    /\ getEmployeeTimeCard id startDate endDate db' = (inl NotFound, db')
    /\ clockEmployees db' = others id db
    /\ clockLogs db' = clockLogs db
    /\ forall other, other <> id ->
                     fst (getClockEmployee other db') = fst (getClockEmployee other db).
Proof.
  intros Hfound Hfree. destruct (found_rows _ _ _ Hfound) as [rest Hrows].
  assert (Hgone : filter (hasId id) (filter (fun e => negb (hasId id e)) (clockEmployees db))
                  = []).
  { rewrite filter_hasId_others, String.eqb_refl. reflexivity. }
  eexists. split.
  { unfold deleteClockEmployee. rewrite Hrows, (not_referenced _ _ Hfree). reflexivity. }
  split.
  { unfold getClockEmployee. cbn [fst clockEmployees]. rewrite Hgone. reflexivity. }
  split; [apply clockAction_missing; exact Hgone|].
  split.
  { rewrite getEmployeeTimeCard_eq. cbn [clockEmployees]. rewrite Hgone. reflexivity. }
  split; [reflexivity|].
  split; [reflexivity|].
  intros other Hneq. unfold getClockEmployee. cbn [fst clockEmployees].
  rewrite filter_hasId_others.
  assert (E : String.eqb other id = false) by (apply String.eqb_neq; exact Hneq).
  rewrite E. reflexivity.
Qed.

Lemma deleteClockEmployee_then_gone_witness :
  fst (getClockEmployee "e2" (mkDb (clockEmployees SampleDb.twoDaysDb) Sample.fullDay))
  = inr (Some (ClockEmployee.mk "e2" "Bo" None 1850 (Some "working") None))
  /\ exists db',
       deleteClockEmployee "e2" (mkDb (clockEmployees SampleDb.twoDaysDb) Sample.fullDay)
       = (inr true, db')
       /\ fst (getClockEmployee "e2" db') = inr None
       /\ clockAction "e2" (Sample.tick 5 "x") db' = (inl NotFound, db').
Proof.
  split; [reflexivity|].
  destruct (deleteClockEmployee_then_gone "e2"
              (mkDb (clockEmployees SampleDb.twoDaysDb) Sample.fullDay)
              (ClockEmployee.mk "e2" "Bo" None 1850 (Some "working") None)
              (Sample.tick 5 "x") 0 0) as (db' & H1 & H2 & H3 & _).
  - reflexivity.
  - intros log Hin. simpl in Hin.
    repeat (destruct Hin as [<- | Hin]; [discriminate|]). destruct Hin.
  - exists db'. split; [exact H1|]. split; [exact H2 | exact H3].
Defined.

(** ** What every session keeps *)

Lemma getEmployeeTimeCard_reads (employeeId : string) (startDate endDate : Z) (db : Db) :
  snd (getEmployeeTimeCard employeeId startDate endDate db) = db.
Proof.
  rewrite getEmployeeTimeCard_eq.
  destruct (hd_error (filter (hasId employeeId) (clockEmployees db))); reflexivity.
Qed.

Lemma exportAllHours_reads (startDate endDate : Z) (db : Db) :
  snd (exportAllHours startDate endDate db) = db.
Proof.
  destruct (forEach_exportRow startDate endDate db (clockEmployees db) (incl_refl _))
    as (rows & Hrows & _).
  unfold exportAllHours, bind, getClockEmployees. rewrite Hrows. reflexivity.
Qed.

Lemma getClockLogs_reads (employeeId : option string) (db : Db) :
  snd (getClockLogs employeeId db) = db.
Proof. destruct employeeId as [[|c s]|]; reflexivity. Qed.

Lemma setStatus_ids (employeeId next : string) (env : Env) (rows : list ClockEmployee.t) :
  map ClockEmployee.id (map (setStatus employeeId next env) rows) = map ClockEmployee.id rows.
Proof.
  rewrite map_map. apply map_ext. intros row. unfold setStatus.
  destruct (hasId employeeId row); reflexivity.
Qed.

Lemma assign_ids (id : string) (updates : ClockEmployee.partial) (now : Z)
      (rows : list ClockEmployee.t) :
  map ClockEmployee.id
      (map (fun e => if hasId id e then ClockEmployee.assign updates now e else e) rows)
  = map ClockEmployee.id rows.
Proof.
  rewrite map_map. apply map_ext. intros row. destruct (hasId id row); reflexivity.
Qed.

Lemma ids_of_kept_rows (keep : ClockEmployee.t -> bool) (rows : list ClockEmployee.t) :
  NoDup (map ClockEmployee.id rows) -> NoDup (map ClockEmployee.id (filter keep rows)).
Proof.
  induction rows as [|row rows IH]; intros Huniq; [constructor|].
  cbn [map] in Huniq. inversion Huniq as [|? ? Hfresh Hrest]; subst.
  cbn [filter]. destruct (keep row); [|apply IH, Hrest].
  cbn [map]. constructor; [|apply IH, Hrest].
  intros Hin. apply Hfresh. apply in_map_iff in Hin. destruct Hin as (other & Hid & Hin).
  apply in_map_iff. exists other. split; [exact Hid|]. apply filter_In in Hin. apply Hin.
Qed.

Lemma owned_by_ids (rows rows' : list ClockEmployee.t) (logs : list ClockLog.t) :
  map ClockEmployee.id rows' = map ClockEmployee.id rows ->
  punchesOwned (mkDb rows logs) -> punchesOwned (mkDb rows' logs).
Proof.
  intros Hids Hown log Hin. destruct (Hown log Hin) as (e & He & Hid).
  cbn [clockEmployees] in *.
  assert (Hmem : In (ClockLog.employeeId log) (map ClockEmployee.id rows')).
  { rewrite Hids, <- Hid. apply in_map, He. }
  apply in_map_iff in Hmem. destruct Hmem as (e' & He' & Hin'). exists e'. split; assumption.
Qed.

Lemma leaves_integrity (call : Call) (db : Db) :
  uniqueIds db /\ punchesOwned db -> uniqueIds (leaves call db) /\ punchesOwned (leaves call db).
Proof.
  intros [Huniq Hown]. destruct call as [employee now | id updates now | id | employeeId env
                                         | | id | employeeId | employeeId s e | s e];
    cbn [leaves].
  - unfold createClockEmployee.
    destruct (negb (numeric10_2 (InsertClockEmployee.payRate employee)));
      [split; assumption|].
    destruct (existsb (hasId (InsertClockEmployee.id employee)) (clockEmployees db)) eqn:E;
      cbn [snd]; [split; assumption|].
    split.
    + unfold uniqueIds. cbn [clockEmployees]. rewrite map_app. cbn [map].
      apply NoDup_snoc; [exact Huniq|].
      intros Hin. apply in_map_iff in Hin. destruct Hin as (row & Hid & Hin).
      apply existsb_hasId in E.
      assert (Hmem : In row (filter (hasId (InsertClockEmployee.id employee)) (clockEmployees db))).
      { apply filter_In. split; [exact Hin|]. unfold hasId. apply String.eqb_eq. exact Hid. }
      rewrite E in Hmem. destruct Hmem.
    + intros log Hin. destruct (Hown log Hin) as (row & Hrow & Hid).
      exists row. split; [cbn [clockEmployees]; apply in_or_app; left; exact Hrow | exact Hid].
  - unfold updateClockEmployee.
    destruct (payRateFits updates); [|split; assumption].
    cbn [snd]. split.
    + unfold uniqueIds. cbn [clockEmployees]. rewrite assign_ids. exact Huniq.
    + apply (owned_by_ids (clockEmployees db)); [apply assign_ids | rewrite db_eta; exact Hown].
  - unfold deleteClockEmployee.
    destruct (0 <? Z.of_nat (List.length (filter (hasId id) (clockEmployees db)))) eqn:Erows;
      cbn [andb].
    + destruct (existsb (ofEmployee id) (clockLogs db)) eqn:Eref; cbn [snd];
        [split; assumption|].
      split.
      * unfold uniqueIds. cbn [clockEmployees]. apply ids_of_kept_rows, Huniq.
      * intros log Hin. cbn [clockLogs] in Hin. destruct (Hown log Hin) as (row & Hrow & Hid).
        exists row. split; [|exact Hid]. cbn [clockEmployees]. apply filter_In.
        split; [exact Hrow|].
        destruct (hasId id row) eqn:Erow; [|reflexivity]. exfalso.
        assert (Href : existsb (ofEmployee id) (clockLogs db) = true).
        { apply existsb_ofEmployee. exists log. split; [exact Hin|].
          unfold hasId in Erow. apply String.eqb_eq in Erow. congruence. }
        congruence.
    + cbn [snd]. split.
      * unfold uniqueIds. cbn [clockEmployees]. apply ids_of_kept_rows, Huniq.
      * assert (Hnone : filter (hasId id) (clockEmployees db) = []).
        { destruct (filter (hasId id) (clockEmployees db)); [reflexivity|].
          cbn [List.length] in Erows. apply Z.ltb_ge in Erows. lia. }
        rewrite (filter_others_all _ _ Hnone), db_eta. exact Hown.
  - destruct (clockAction_cases employeeId env db)
      as [[_ Hc] | [(e & _ & Hc) | (e & next & type & label & Hfound & _ & Hc & _)]];
      rewrite Hc; cbn [snd]; try (split; assumption).
    split.
    + unfold uniqueIds. cbn [clockEmployees]. rewrite setStatus_ids. exact Huniq.
    + intros log Hin. cbn [clockLogs] in Hin. apply in_app_or in Hin.
      assert (Hkeep : forall id, In id (map ClockEmployee.id (clockEmployees db)) ->
                                 exists row, In row (map (setStatus employeeId next env)
                                                         (clockEmployees db))
                                             /\ ClockEmployee.id row = id).
      { intros id Hid. rewrite <- (setStatus_ids employeeId next env) in Hid.
        apply in_map_iff in Hid. destruct Hid as (row & Hrow & Hmem).
        exists row. split; assumption. }
      cbn [clockEmployees]. destruct Hin as [Hold | [<- | []]].
      * destruct (Hown log Hold) as (row & Hrow & Hid).
        apply Hkeep. rewrite <- Hid. apply in_map, Hrow.
      * cbn [ClockLog.employeeId]. apply Hkeep.
        destruct (found_rows _ _ _ Hfound) as [rest Hrows].
        assert (Hmem : In e (filter (hasId employeeId) (clockEmployees db)))
          by (rewrite Hrows; left; reflexivity).
        apply filter_In in Hmem. destruct Hmem as [Hmem Hid].
        unfold hasId in Hid. apply String.eqb_eq in Hid. rewrite <- Hid. apply in_map, Hmem.
  - split; assumption.
  - split; assumption.
  - rewrite getClockLogs_reads. split; assumption.
  - rewrite getEmployeeTimeCard_reads. split; assumption.
  - rewrite exportAllHours_reads. split; assumption.
Qed.

(** X15.  No sequence of calls of the clock storage breaks the integrity of
    the two tables: employee identifiers stay unique and every punch keeps
    belonging to an employee of the table. *)
Theorem session_keeps_integrity (calls : list Call) (db : Db) :
  uniqueIds db -> punchesOwned db ->
  uniqueIds (session calls db) /\ punchesOwned (session calls db).
Proof.
  intros Huniq Hown. assert (H : uniqueIds db /\ punchesOwned db) by (split; assumption).
  clear Huniq Hown. revert db H.
  induction calls as [|call calls IH]; intros db H; [exact H|].
  cbn [session fold_left]. apply IH, leaves_integrity, H.
Qed.

Lemma leaves_logs (call : Call) (db : Db) :
  clockLogs (leaves call db) = clockLogs db
  \/ exists employeeId env type,
       call = ClockAction employeeId env
       /\ clockLogs (leaves call db)
          = clockLogs db ++ [ClockLog.mk (randomUuid env) employeeId type (dateNow env) None].
Proof.
  destruct call as [employee now | id updates now | id | employeeId env
                    | | id | employeeId | employeeId s e | s e];
    cbn [leaves].
  - left. unfold createClockEmployee.
    destruct (negb (numeric10_2 (InsertClockEmployee.payRate employee))); [reflexivity|].
    destruct (existsb (hasId (InsertClockEmployee.id employee)) (clockEmployees db)); reflexivity.
  - left. unfold updateClockEmployee. destruct (payRateFits updates); reflexivity.
  - left. unfold deleteClockEmployee.
    destruct ((0 <? Z.of_nat (List.length (filter (hasId id) (clockEmployees db))))
              && existsb (ofEmployee id) (clockLogs db)); reflexivity.
  - destruct (clockAction_cases employeeId env db)
      as [[_ Hc] | [(e & _ & Hc) | (e & next & type & label & _ & _ & Hc & _)]];
      rewrite Hc; cbn [snd]; [left; reflexivity | left; reflexivity |].
    right. exists employeeId, env, type. split; reflexivity.
  - left. reflexivity.
  - left. reflexivity.
  - left. rewrite getClockLogs_reads. reflexivity.
  - left. rewrite getEmployeeTimeCard_reads. reflexivity.
  - left. rewrite exportAllHours_reads. reflexivity.
Qed.

Lemma session_keeps_integrity_witness :
  uniqueIds SampleDb.twoDaysDb /\ punchesOwned SampleDb.twoDaysDb
  /\ uniqueIds (session [ClockAction "e2" (Sample.tick (Sample.at_ 40) "q2");
                         DeleteClockEmployee "e1";
                         CreateClockEmployee (InsertClockEmployee.mk "e2" "Bo" None 1 None) 3]
                        SampleDb.twoDaysDb)
  /\ punchesOwned (session [ClockAction "e2" (Sample.tick (Sample.at_ 40) "q2");
                            DeleteClockEmployee "e1";
                            CreateClockEmployee (InsertClockEmployee.mk "e2" "Bo" None 1 None) 3]
                           SampleDb.twoDaysDb).
Proof.
  assert (Huniq : uniqueIds SampleDb.twoDaysDb).
  { unfold uniqueIds. simpl. repeat constructor; simpl; intuition discriminate. }
  assert (Hown : punchesOwned SampleDb.twoDaysDb).
  { intros log Hin. simpl in Hin.
    repeat (destruct Hin as [<- | Hin];
            [first [ exists Sample.ann; split; [simpl; auto | reflexivity]
                   | exists (ClockEmployee.mk "e2" "Bo" None 1850 (Some "working") None);
                     split; [simpl; auto | reflexivity] ]|]).
    destruct Hin. }
  split; [exact Huniq|]. split; [exact Hown|].
  apply (session_keeps_integrity _ SampleDb.twoDaysDb Huniq Hown).
Defined.

(** X16.  The punch log only grows, and only by punching: after any sequence
    of calls of the clock storage the punches that were there are still
    there, unchanged and in their place, followed by at most one new punch
    for each [clockAction] of the sequence, each carrying the identifier and
    the clock reading of such a call. *)
Theorem session_only_appends_punches (calls : list Call) (db : Db) :
  exists added,
    clockLogs (session calls db) = clockLogs db ++ added
    /\ (List.length added <= List.length (filter isPunch calls))%nat
    /\ Forall (writtenBy calls) added.
Proof.
  revert db. induction calls as [|call calls IH]; intros db.
  - exists []. cbn [session fold_left]. rewrite app_nil_r.
    split; [reflexivity|]. split; [apply Nat.le_refl | constructor].
  - cbn [session fold_left]. destruct (IH (leaves call db)) as (added & Hlogs & Hlen & Hby).
    fold (session calls (leaves call db)).
    assert (Hweak : Forall (writtenBy (call :: calls)) added).
    { apply (Forall_impl _ (P := writtenBy calls)); [|exact Hby].
      intros log (employeeId & env & Hin & H). exists employeeId, env.
      split; [right; exact Hin | exact H]. }
    destruct (leaves_logs call db) as [Hsame | (employeeId & env & type & -> & Hnew)].
    + exists added. rewrite Hlogs, Hsame. split; [reflexivity|].
      split; [|exact Hweak].
      cbn [filter]. destruct (isPunch call); cbn [List.length]; lia.
    + exists (ClockLog.mk (randomUuid env) employeeId type (dateNow env) None :: added).
      rewrite Hlogs, Hnew, <- app_assoc. split; [reflexivity|].
      split; [cbn [filter isPunch List.length]; lia|].
      constructor; [|exact Hweak].
      exists employeeId, env. split; [left; reflexivity|]. repeat split.
Qed.

(** ** Timecard: a missing employee *)





(** ** Timecards without punches, and the hours of the export *)

Lemma pay_of_nothing (payRate : Z) : 0 <= payRate < 10 ^ 10 -> pay 0 payRate = S754_zero false.
Proof.
  intros Hr. unfold pay.
  replace (hours 0) with (S754_zero false) by (vm_compute; reflexivity).
  assert (Hrate : small 48 30 (Js.parseFloat2 payRate)).
  { unfold Js.parseFloat2.
    replace (Js.ofZ 100) with (S754_finite false 7036874417766400 (-46))
      by (vm_compute; reflexivity).
    apply div_small with (Bx := 1) (Dx := 35);
      [apply (ofZ_small _ 34); [lia | lia] | lia | lia | simpl Zdigits2; lia]. }
  destruct (Js.parseFloat2 payRate) as [s | s | | s m e]; unfold small in Hrate.
  - subst s. reflexivity.
  - destruct Hrate.
  - destruct Hrate.
  - destruct Hrate as [-> _]. reflexivity.
Qed.

(** X17.  A timecard over a range that is reversed, or that holds no punch of
    the employee, is not refused: it has no daily entry, a total of zero
    and, for a pay rate of the column's range, the pay text "0.00". *)
Theorem timecard_without_punches
        (employeeId : string) (startDate endDate : Z) (db : Db) (employee : ClockEmployee.t) :
  fst (getClockEmployee employeeId db) = inr (Some employee) ->
  endDate < startDate
  \/ (forall log, In log (clockLogs db) -> ClockLog.employeeId log = employeeId ->
                  ~ startDate <= ClockLog.timestamp log <= endDate) ->
  0 <= ClockEmployee.payRate employee < 10 ^ 10 ->
  getEmployeeTimeCard employeeId startDate endDate db
  = (inr (TimeCard.mk employee [] 0 (Some "0.00")
            (Js.toISODate startDate) (Js.toISODate endDate)), db).
Proof.
  intros Hfound Hnone Hrate.
  rewrite (getEmployeeTimeCard_found _ _ _ _ _ Hfound).
  assert (Hsel : selected employeeId startDate endDate db = []).
  { unfold selected. rewrite filter_none; [reflexivity|].
    intros log Hin. destruct (inRange employeeId startDate endDate log) eqn:E; [|reflexivity].
    apply inRange_iff in E. destruct E as [Hid Hr]. exfalso.
    destruct Hnone as [Hrev | Hnone]; [lia | exact (Hnone log Hin Hid Hr)]. }
  rewrite Hsel. unfold cardOf. cbn [groupByDate fold_left map sumZ fold_right].
  rewrite (pay_of_nothing _ Hrate). reflexivity.
Qed.

Lemma timecard_without_punches_witness :
  fst (getClockEmployee "e1" SampleDb.fullDayDb) = inr (Some Sample.ann)
  /\ Sample.at_ 9 < Sample.at_ 17
  /\ getEmployeeTimeCard "e1" (Sample.at_ 17) (Sample.at_ 9) SampleDb.fullDayDb
     = (inr (TimeCard.mk Sample.ann [] 0 (Some "0.00")
               (Js.toISODate (Sample.at_ 17)) (Js.toISODate (Sample.at_ 9))),
        SampleDb.fullDayDb).
Proof.
  split; [reflexivity|]. split; [reflexivity|].
  apply (timecard_without_punches "e1" (Sample.at_ 17) (Sample.at_ 9) SampleDb.fullDayDb
           Sample.ann); [reflexivity | left; reflexivity | split; [discriminate | reflexivity]].
Defined.

Lemma Forall2_In_r {A B : Type} (R : A -> B -> Prop) (l : list A) (l' : list B) (b : B) :
  Forall2 R l l' -> In b l' -> exists a, In a l /\ R a b.
Proof.
  induction 1 as [|a b' l l' Hab _ IH]; intros Hin; [destruct Hin|].
  destruct Hin as [<- | Hin].
  - exists a. split; [left; reflexivity | exact Hab].
  - destruct (IH Hin) as (a' & Ha' & HR). exists a'. split; [right; exact Ha' | exact HR].
Qed.

(** X18.  In the export the hours of a row are a plain decimal text: for a
    row whose days add up to less than [2^53] milliseconds, [totalHours] is
    the text of a non-negative number of hundredths, with digits, a point
    and two more digits; it is never "NaN" and never in exponent notation. *)
Theorem exportAllHours_hours_text (startDate endDate : Z) (db : Db) :
  exists report,
    exportAllHours startDate endDate db = (inr report, db)
    /\ Forall (fun row =>
                 sumZ (map (fun kd => DayReport.workingTime (snd kd))
                           (ExportRow.dailyBreakdown row)) < 2 ^ 53 ->
                 exists n whole cents,
                   0 <= n
                   /\ ExportRow.totalHours row = Some (Js.fixed2 n)
                   /\ Js.fixed2 n = String.append whole (String.append "." cents)
                   /\ String.length cents = 2%nat
                   /\ (1 <= String.length whole)%nat)
              (PayrollExport.employees report).
Proof.
  destruct (forEach_exportRow startDate endDate db (clockEmployees db) (incl_refl _))
    as (rows & Hrows & Hall).
  eexists. split.
  { unfold exportAllHours, bind, getClockEmployees. rewrite Hrows. reflexivity. }
  cbn [PayrollExport.employees]. apply Forall_forall. intros row Hin Hbound.
  destruct (Forall2_In_r _ _ _ _ Hall Hin)
    as (employee & _ & tc & Htc & _ & _ & _ & Hhours & _ & Hdays).
  pose proof (timecard_nonneg _ _ _ _ _ _ Htc) as [_ Hnonneg].
  assert (Htotal : TimeCard.totalWorkingTime tc
                   = sumZ (map (fun kd => DayReport.workingTime (snd kd))
                               (TimeCard.dailyReport tc))).
  { rewrite getEmployeeTimeCard_eq in Htc.
    destruct (hd_error (filter (hasId (ClockEmployee.id employee)) (clockEmployees db)));
      [|discriminate].
    injection Htc as <-. reflexivity. }
  rewrite Hdays, <- Htotal in Hbound.
  destruct (small_toFixed2 33 34 (hours (TimeCard.totalWorkingTime tc)))
    as (n & Hn & Htext); [apply hours_small; lia | lia |].
  destruct (fixed2_shape n) as (whole & cents & Hshape & Hcents & Hwhole).
  exists n, whole, cents. rewrite Hhours. repeat split; assumption.
Qed.

(** ** The timecard and the order of the rows *)

Lemma filter_permuted {A : Type} (p : A -> bool) (l l' : list A) :
  Permutation l l' -> Permutation (filter p l) (filter p l').
Proof.
  induction 1 as [| x l l' _ IH | x y l | l l' l'' _ IH1 _ IH2]; cbn [filter].
  - constructor.
  - destruct (p x); [constructor|]; exact IH.
  - destruct (p x), (p y); try apply Permutation_refl.
    apply perm_swap.
  - exact (Permutation_trans IH1 IH2).
Qed.

(** Two ascending lists with the same punches, all at different times, are
    the same list. *)
Lemma ascending_unique (l l' : list ClockLog.t) :
  StronglySorted ascending l -> StronglySorted ascending l' ->
  Permutation l l' -> NoDup (map ClockLog.timestamp l) -> l = l'.
Proof.
  revert l'. induction l as [|a l IH]; intros l' Hs Hs' Hperm Hnodup.
  - apply Permutation_nil in Hperm. symmetry. exact Hperm.
  - destruct l' as [|b l'].
    { apply Permutation_sym, Permutation_nil in Hperm. discriminate. }
    inversion Hs as [|? ? Hrest Hleast]; subst.
    inversion Hs' as [|? ? Hrest' Hleast']; subst.
    cbn [map] in Hnodup. inversion Hnodup as [|? ? Hfresh Hnodup']; subst.
    assert (Hab : a = b).
    { assert (Ha : In a (b :: l')) by (apply (Permutation_in _ Hperm); left; reflexivity).
      assert (Hb : In b (a :: l))
        by (apply (Permutation_in _ (Permutation_sym Hperm)); left; reflexivity).
      destruct Ha as [Ha | Ha]; [symmetry; exact Ha|].
      destruct Hb as [Hb | Hb]; [exact Hb|].
      exfalso. rewrite Forall_forall in Hleast, Hleast'.
      pose proof (Hleast b Hb) as H1. pose proof (Hleast' a Ha) as H2.
      unfold ascending in H1, H2.
      apply Hfresh. replace (ClockLog.timestamp a) with (ClockLog.timestamp b) by lia.
      apply in_map, Hb. }
    subst b. f_equal. apply IH; try assumption.
    apply (Permutation_cons_inv Hperm).
Qed.

(** X19.  The timecard does not depend on the order in which the table holds
    the punches: for two databases with the same employees and the same
    punches in any order, the timecards of an employee over a range agree,
    provided the employee's punches in the range have different timestamps. *)
Theorem timecard_ignores_row_order
        (employeeId : string) (startDate endDate : Z) (db db' : Db) :
  clockEmployees db' = clockEmployees db ->
  Permutation (clockLogs db) (clockLogs db') ->
  NoDup (map ClockLog.timestamp
             (filter (inRange employeeId startDate endDate) (clockLogs db))) ->
  fst (getEmployeeTimeCard employeeId startDate endDate db')
  = fst (getEmployeeTimeCard employeeId startDate endDate db).
Proof.
  intros Hrows Hperm Hnodup. rewrite !getEmployeeTimeCard_eq, Hrows.
  assert (Hsel : selected employeeId startDate endDate db'
                 = selected employeeId startDate endDate db).
  { unfold selected. symmetry. apply ascending_unique.
    - apply orderBy_sorted.
    - apply orderBy_sorted.
    - eapply Permutation_trans; [apply orderBy_perm|].
      eapply Permutation_trans; [|apply Permutation_sym, orderBy_perm].
      apply filter_permuted, Hperm.
    - apply (Permutation_NoDup (l := map ClockLog.timestamp
                                         (filter (inRange employeeId startDate endDate)
                                                 (clockLogs db)))); [|exact Hnodup].
      apply Permutation_map, Permutation_sym, orderBy_perm. }
  rewrite Hsel.
  destruct (hd_error (filter (hasId employeeId) (clockEmployees db))); reflexivity.
Qed.

Lemma timecard_ignores_row_order_witness :
  Permutation (clockLogs SampleDb.fullDayDb) (clockLogs (mkDb [Sample.ann] Sample.fullDay))
  /\ fst (getEmployeeTimeCard "e1" (Sample.at_ 0) (Sample.at_ 24)
            (mkDb [Sample.ann] Sample.fullDay))
     = fst (getEmployeeTimeCard "e1" (Sample.at_ 0) (Sample.at_ 24) SampleDb.fullDayDb).
Proof.
  assert (Hperm : Permutation (clockLogs SampleDb.fullDayDb)
                              (clockLogs (mkDb [Sample.ann] Sample.fullDay))).
  { apply Permutation_sym, Permutation_rev. }
  split; [exact Hperm|].
  apply (timecard_ignores_row_order "e1" (Sample.at_ 0) (Sample.at_ 24) SampleDb.fullDayDb
           (mkDb [Sample.ann] Sample.fullDay) eq_refl Hperm).
  simpl. repeat constructor; simpl; intuition discriminate.
Defined.

(** ** Objects *)

Lemma get_set_same (k : string) (v : Value.t) (o : Object) :
  Obj.get k (Obj.set k v o) = Some v.
Proof.
  induction o as [|[k' v'] o IH]; cbn [Obj.set Obj.get].
  - rewrite String.eqb_refl. reflexivity.
  - destruct (String.eqb k' k) eqn:E; cbn [Obj.get]; rewrite E; [reflexivity | exact IH].
Qed.

Lemma get_set_other (k k' : string) (v : Value.t) (o : Object) :
  k' <> k -> Obj.get k (Obj.set k' v o) = Obj.get k o.
Proof.
  intros Hneq. induction o as [|[k0 v0] o IH]; cbn [Obj.set Obj.get].
  - assert (E : String.eqb k' k = false) by (apply String.eqb_neq; exact Hneq).
    rewrite E. reflexivity.
  - destruct (String.eqb k0 k') eqn:E0; cbn [Obj.get].
    + apply String.eqb_eq in E0. subst k0.
      assert (E : String.eqb k' k = false) by (apply String.eqb_neq; exact Hneq).
      rewrite E. reflexivity.
    + destruct (String.eqb k0 k); [reflexivity | exact IH].
Qed.

Lemma get_None (k : string) (o : Object) : Obj.get k o = None <-> ~ In k (Obj.keys o).
Proof.
  induction o as [|[k' v'] o IH]; cbn [Obj.get Obj.keys map fst].
  - split; [intros _ [] | reflexivity].
  - destruct (String.eqb k' k) eqn:E.
    + apply String.eqb_eq in E. split; [discriminate | intros H; exfalso; apply H; left; exact E].
    + apply String.eqb_neq in E. rewrite IH. unfold Obj.keys. split.
      * intros H [Hk | Hin]; [exact (E Hk) | exact (H Hin)].
      * intros H Hin. apply H. right. exact Hin.
Qed.

Lemma get_spread_absent (k : string) (src o : Object) :
  Obj.get k src = None -> Obj.get k (Obj.spread src o) = Obj.get k o.
Proof.
  unfold Obj.spread. revert o. induction src as [|[k' v'] src IH]; intros o H; [reflexivity|].
  cbn [fold_left fst snd]. cbn [Obj.get] in H.
  destruct (String.eqb k' k) eqn:E; [discriminate|].
  rewrite (IH _ H). apply get_set_other. apply String.eqb_neq. exact E.
Qed.

Lemma get_spread_present (k : string) (v : Value.t) (src o : Object) :
  Obj.wf src -> Obj.get k src = Some v -> Obj.get k (Obj.spread src o) = Some v.
Proof.
  unfold Obj.spread, Obj.wf. revert o. induction src as [|[k' v'] src IH]; intros o Hwf H;
    [discriminate|].
  cbn [Obj.keys map fst] in Hwf. inversion Hwf as [|? ? Hnot Hrest]; subst.
  cbn [fold_left fst snd]. cbn [Obj.get] in H.
  destruct (String.eqb k' k) eqn:E.
  - apply String.eqb_eq in E. subst k'. injection H as ->.
    fold (Obj.spread src (Obj.set k v o)).
    rewrite get_spread_absent; [apply get_set_same | apply get_None; exact Hnot].
  - apply (IH _ Hrest H).
Qed.

Lemma get_spread (k : string) (src o : Object) :
  Obj.wf src ->
  Obj.get k (Obj.spread src o)
  = match Obj.get k src with
    | Some v => Some v
    | None => Obj.get k o
    end.
Proof.
  intros Hwf. destruct (Obj.get k src) as [v|] eqn:E.
  - apply get_spread_present; assumption.
  - apply get_spread_absent; assumption.
Qed.

Lemma keys_set (k : string) (v : Value.t) (o : Object) :
  Obj.keys (Obj.set k v o) = if existsb (String.eqb k) (Obj.keys o) then Obj.keys o
                             else Obj.keys o ++ [k].
Proof.
  induction o as [|[k' v'] o IH]; cbn [Obj.set Obj.keys map fst existsb]; [reflexivity|].
  rewrite (String.eqb_sym k k'). destruct (String.eqb k' k) eqn:E; cbn [orb map fst].
  - reflexivity.
  - fold (Obj.keys (Obj.set k v o)). fold (Obj.keys o). rewrite IH.
    destruct (existsb (String.eqb k) (Obj.keys o)); reflexivity.
Qed.

Lemma wf_set (k : string) (v : Value.t) (o : Object) : Obj.wf o -> Obj.wf (Obj.set k v o).
Proof.
  unfold Obj.wf. intros H. rewrite keys_set.
  destruct (existsb (String.eqb k) (Obj.keys o)) eqn:E; [exact H|].
  apply NoDup_snoc; [exact H|].
  intros Hin. assert (Ht : existsb (String.eqb k) (Obj.keys o) = true).
  { apply existsb_exists. exists k. split; [exact Hin | apply String.eqb_refl]. }
  congruence.
Qed.

Lemma wf_spread (src o : Object) : Obj.wf o -> Obj.wf (Obj.spread src o).
Proof.
  unfold Obj.spread. revert o. induction src as [|[k v] src IH]; intros o H; [exact H|].
  cbn [fold_left]. apply IH, wf_set, H.
Qed.

(** An object copied by spreading has the properties it had. *)
Lemma get_copy (k : string) (o : Object) : Obj.wf o -> Obj.get k (Obj.spread o []) = Obj.get k o.
Proof.
  intros Hwf. rewrite get_spread by exact Hwf. destruct (Obj.get k o); reflexivity.
Qed.

(** ** The store *)

Lemma findIndex_None {A : Type} (p : A -> bool) (l : list A) :
  findIndex p l = None <-> find p l = None.
Proof.
  induction l as [|a l IH]; cbn [findIndex find]; [split; reflexivity|].
  destruct (p a); [split; discriminate|].
  destruct (findIndex p l); cbn [option_map].
  - split; [discriminate|]. intros H. apply IH in H. discriminate.
  - split; [intros _; apply IH; reflexivity | reflexivity].
Qed.

Lemma findIndex_split {A : Type} (p : A -> bool) (l : list A) (i : nat) :
  findIndex p l = Some i ->
  exists front found back,
    l = front ++ found :: back
    /\ List.length front = i
    /\ p found = true
    /\ forallb (fun a => negb (p a)) front = true
    /\ find p l = Some found
    /\ nth_error l i = Some found
    /\ spliceOne i l = front ++ back
    /\ forall a, assignAt i a l = front ++ a :: back /\ nth_error (assignAt i a l) i = Some a.
Proof.
  revert i. induction l as [|x l IH]; intros i; cbn [findIndex]; [discriminate|].
  destruct (p x) eqn:E.
  - intros [= <-]. exists [], x, l. cbn [find]. rewrite E.
    repeat split; reflexivity.
  - destruct (findIndex p l) as [j|]; cbn [option_map]; [|discriminate].
    intros [= <-].
    destruct (IH j eq_refl) as (front & found & back & Hl & Hlen & Hp & Hbefore & Hfind
                                & Hnth & Hsplice & Hassign).
    exists (x :: front), found, back. cbn [find forallb]. rewrite E. cbn [negb andb].
    split; [rewrite Hl; reflexivity|].
    split; [cbn [List.length]; rewrite Hlen; reflexivity|].
    split; [exact Hp|].
    split; [exact Hbefore|].
    split; [exact Hfind|].
    split; [exact Hnth|].
    split; [cbn [spliceOne app]; rewrite Hsplice; reflexivity|].
    intros a. destruct (Hassign a) as [Ha Hn].
    split; [cbn [assignAt app]; rewrite Ha; reflexivity | exact Hn].
Qed.

Lemma find_app_skip {A : Type} (p : A -> bool) (front rest : list A) :
  forallb (fun a => negb (p a)) front = true -> find p (front ++ rest) = find p rest.
Proof.
  induction front as [|a front IH]; cbn [forallb app find]; [reflexivity|].
  intros H. apply andb_prop in H. destruct H as [Ha Hrest].
  apply negb_true_iff in Ha. rewrite Ha. apply IH, Hrest.
Qed.

Lemma idIs_inj (id other : string) (s : Object) :
  idIs id s = true -> other <> id -> idIs other s = false.
Proof.
  unfold idIs. destruct (Obj.get "id" s) as [[| | | x | | |]|]; try discriminate.
  intros H Hneq. apply String.eqb_eq in H. subst x. apply String.eqb_neq. congruence.
Qed.

Lemma find_without {A : Type} (p : A -> bool) (front back : list A) (x : A) :
  p x = false -> find p (front ++ x :: back) = find p (front ++ back).
Proof.
  intros Hx. induction front as [|a front IH]; cbn [app find].
  - rewrite Hx. reflexivity.
  - destruct (p a); [reflexivity | exact IH].
Qed.

Lemma find_replaced {A : Type} (p : A -> bool) (front back : list A) (x y : A) :
  p x = false -> p y = false ->
  find p (front ++ y :: back) = find p (front ++ x :: back).
Proof.
  intros Hx Hy. rewrite !find_without by assumption. reflexivity.
Qed.

(** X20.  What [createShipment] stores: the new shipment goes to the front of
    the store; its status is "pending" and its two time stamps are the
    clock's, whatever the request says; every other property of the
    request is taken over, and that includes [id] and [shipmentNumber]: the
    generated ones are used only when the request has none. *)
Theorem createShipment_fields (shipmentData : Object) (clock : ShipmentClock) (store : Store) :
  Obj.wf shipmentData ->
  exists created,
    createShipment shipmentData clock store = (created, created :: store)
    /\ Obj.get "status" created = Some (Value.Str "pending")
    /\ Obj.get "createdAt" created = Some (Value.Date (createdNow clock))
    /\ Obj.get "updatedAt" created = Some (Value.Date (updatedNow clock))
    /\ Obj.get "id" created
       = Some (match Obj.get "id" shipmentData with
               | Some v => v
               | None => Value.Str (numberText (idNow clock))
               end)
    /\ Obj.get "shipmentNumber" created
       = Some (match Obj.get "shipmentNumber" shipmentData with
               | Some v => v
               | None => Value.Str (shipmentNumberAt clock)
               end)
    /\ (forall k, ownKey k = false -> Obj.get k created = Obj.get k shipmentData)
    /\ Obj.wf created.
Proof.
  intros Hwf. exists (newShipment shipmentData clock). split; [reflexivity|].
  unfold newShipment.
  split; [rewrite !get_set_other by discriminate; apply get_set_same|].
  split; [rewrite get_set_other by discriminate; apply get_set_same|].
  split; [apply get_set_same|].
  split.
  { rewrite !get_set_other by discriminate. rewrite get_spread by exact Hwf.
    destruct (Obj.get "id" shipmentData); [reflexivity|].
    rewrite get_set_other by discriminate. apply get_set_same. }
  split.
  { rewrite !get_set_other by discriminate. rewrite get_spread by exact Hwf.
    destruct (Obj.get "shipmentNumber" shipmentData); [reflexivity|]. apply get_set_same. }
  split.
  { intros k Hk. unfold ownKey in Hk.
    repeat (apply orb_false_elim in Hk; destruct Hk as [Hk ?]).
    rewrite !get_set_other by (apply String.eqb_neq; rewrite String.eqb_sym; assumption).
    rewrite get_spread by exact Hwf.
    destruct (Obj.get k shipmentData); [reflexivity|].
    rewrite !get_set_other by (apply String.eqb_neq; rewrite String.eqb_sym; assumption).
    reflexivity. }
  repeat apply wf_set. apply wf_spread. repeat apply wf_set. constructor.
Qed.

Lemma createShipment_fields_witness :
  Obj.wf SampleShipment.request
  /\ exists created,
       createShipment SampleShipment.request SampleShipment.clock (initialStore 0)
       = (created, created :: initialStore 0)
       /\ Obj.get "status" created = Some (Value.Str "pending")
       /\ Obj.get "id" created = Some (Value.Str "7").
Proof.
  assert (Hwf : Obj.wf SampleShipment.request).
  { unfold Obj.wf. simpl. repeat constructor; simpl; intuition discriminate. }
  split; [exact Hwf|].
  destruct (createShipment_fields SampleShipment.request SampleShipment.clock (initialStore 0) Hwf)
    as (created & H1 & H2 & _ & _ & H5 & _).
  exists created. split; [exact H1|]. split; [exact H2 | exact H5].
Defined.

(** X21.  A created shipment is found under its own id, ahead of any older
    shipment with the same id; what is found under other ids is as before,
    and [getShipments] lists the new shipment first. *)
Theorem createShipment_then_get
        (shipmentData : Object) (clock : ShipmentClock) (store : Store) (id : string) :
  Obj.get "id" (fst (createShipment shipmentData clock store)) = Some (Value.Str id) ->
  fst (getShipment id (snd (createShipment shipmentData clock store)))
  = Some (fst (createShipment shipmentData clock store))
  /\ fst (getShipments (snd (createShipment shipmentData clock store)))
     = fst (createShipment shipmentData clock store) :: fst (getShipments store)
  /\ forall other, other <> id ->
                   fst (getShipment other (snd (createShipment shipmentData clock store)))
                   = fst (getShipment other store).
Proof.
  cbn [createShipment fst snd getShipment getShipments find]. intros Hid.
  assert (Hfound : idIs id (newShipment shipmentData clock) = true).
  { unfold idIs. rewrite Hid. apply String.eqb_refl. }
  rewrite Hfound. split; [reflexivity|]. split; [reflexivity|].
  intros other Hneq. rewrite (idIs_inj _ _ _ Hfound Hneq). reflexivity.
Qed.

Lemma createShipment_then_get_witness :
  Obj.get "id" (fst (createShipment SampleShipment.plain SampleShipment.clock (initialStore 0)))
  = Some (Value.Str "1736942400123")
  /\ fst (getShipment "1736942400123"
            (snd (createShipment SampleShipment.plain SampleShipment.clock (initialStore 0))))
     = Some (fst (createShipment SampleShipment.plain SampleShipment.clock (initialStore 0))).
Proof.
  split; [vm_compute; reflexivity|].
  apply (createShipment_then_get SampleShipment.plain SampleShipment.clock (initialStore 0)
           "1736942400123").
  vm_compute. reflexivity.
Defined.

Lemma deleteShipment_found (id : string) (store : Store) :
  match fst (getShipment id store) with
  | None => deleteShipment id store = (false, store)
  | Some found =>
      exists front back,
        store = front ++ found :: back
        /\ deleteShipment id store = (true, front ++ back)
        /\ forallb (fun s => negb (idIs id s)) front = true
        /\ List.length (snd (deleteShipment id store)) = pred (List.length store)
  end.
Proof.
  cbn [getShipment fst]. unfold deleteShipment.
  destruct (findIndex (idIs id) store) as [index|] eqn:E.
  - destruct (findIndex_split _ _ _ E)
      as (front & found & back & Hl & _ & _ & Hbefore & Hfind & _ & Hsplice & _).
    rewrite Hfind. exists front, back. rewrite Hsplice.
    split; [exact Hl|]. split; [reflexivity|]. split; [exact Hbefore|].
    cbn [snd]. rewrite Hl, !length_app. cbn [List.length]. lia.
  - apply findIndex_None in E. rewrite E. reflexivity.
Qed.

Lemma deleteShipment_lookups (id : string) (store : Store) :
  (forall other, other <> id ->
                 fst (getShipment other (snd (deleteShipment id store)))
                 = fst (getShipment other store))
  /\ ((List.length (filter (idIs id) store) <= 1)%nat ->
      fst (getShipment id (snd (deleteShipment id store))) = None).
Proof.
  cbn [getShipment fst]. unfold deleteShipment.
  destruct (findIndex (idIs id) store) as [index|] eqn:E.
  - destruct (findIndex_split _ _ _ E)
      as (front & found & back & Hl & _ & Hp & Hbefore & _ & _ & Hsplice & _).
    cbn [snd]. rewrite Hsplice, Hl. split.
    + intros other Hneq. symmetry. apply find_without. apply (idIs_inj id); assumption.
    + rewrite filter_app. cbn [filter]. rewrite Hp, length_app. cbn [List.length].
      intros Hone.
      assert (Hnone : filter (idIs id) back = []).
      { destruct (filter (idIs id) back); [reflexivity | cbn [List.length] in Hone; lia]. }
      rewrite (find_app_skip _ _ _ Hbefore).
      destruct (find (idIs id) back) as [x|] eqn:Hx; [|reflexivity].
      apply find_some in Hx. destruct Hx as [Hin Hpx].
      assert (Hmem : In x (filter (idIs id) back)) by (apply filter_In; split; assumption).
      rewrite Hnone in Hmem. destruct Hmem.
  - cbn [snd]. split; [reflexivity|]. intros _. apply findIndex_None, E.
Qed.

(** X22.  [deleteShipment] answers [true] exactly when [getShipment] finds a
    shipment under the id, and then removes that shipment, the first with
    the id, and no other; when it answers [false] the store is as before.
    Afterwards the shipments found under other ids are the same, and when
    the store held at most one shipment with the id, none is found under it
    any more. *)
Theorem deleteShipment_removes_the_one_found (id : string) (store : Store) :
  match fst (getShipment id store) with
  | None => deleteShipment id store = (false, store)
  | Some found =>
      exists front back,
        store = front ++ found :: back
        /\ deleteShipment id store = (true, front ++ back)
        /\ forallb (fun s => negb (idIs id s)) front = true
        /\ List.length (snd (deleteShipment id store)) = pred (List.length store)
  end
  /\ (forall other, other <> id ->
                    fst (getShipment other (snd (deleteShipment id store)))
                    = fst (getShipment other store))
  /\ ((List.length (filter (idIs id) store) <= 1)%nat ->
      fst (getShipment id (snd (deleteShipment id store))) = None).
Proof.
  split; [apply deleteShipment_found | apply deleteShipment_lookups].
Qed.

(** X23.  Two shipments created at the same reading of the clock, from
    requests without an id, get the same id: [getShipment] answers with the
    later one, [deleteShipment] removes the later one only, and the earlier
    one is then found under that id again. *)
Theorem same_millisecond_shipments_share_an_id
        (first second : Object) (clock1 clock2 : ShipmentClock) (store : Store) :
  Obj.get "id" first = None -> Obj.get "id" second = None ->
  idNow clock1 = idNow clock2 ->
  let id := numberText (idNow clock1) in
  let store1 := snd (createShipment first clock1 store) in
  let store2 := snd (createShipment second clock2 store1) in
  Obj.get "id" (newShipment first clock1) = Some (Value.Str id)
  /\ Obj.get "id" (newShipment second clock2) = Some (Value.Str id)
  /\ fst (getShipment id store2) = Some (newShipment second clock2)
  /\ deleteShipment id store2 = (true, store1)
  /\ fst (getShipment id store1) = Some (newShipment first clock1).
Proof.
  intros H1 H2 Hclock id store1 store2.
  assert (Hid : forall data clock, Obj.get "id" data = None ->
                                   Obj.get "id" (newShipment data clock)
                                   = Some (Value.Str (numberText (idNow clock)))).
  { intros data clock Hnone. unfold newShipment.
    rewrite !get_set_other by discriminate. rewrite get_spread_absent by exact Hnone.
    rewrite get_set_other by discriminate. apply get_set_same. }
  assert (Hfirst : idIs id (newShipment first clock1) = true).
  { unfold idIs. rewrite (Hid _ _ H1). apply String.eqb_refl. }
  assert (Hsecond : idIs id (newShipment second clock2) = true).
  { unfold idIs. rewrite (Hid _ _ H2), <- Hclock. apply String.eqb_refl. }
  split; [apply Hid, H1|].
  split; [rewrite (Hid _ _ H2), <- Hclock; reflexivity|].
  subst store1 store2.
  cbn [createShipment snd getShipment fst find].
  unfold deleteShipment. cbn [findIndex]. rewrite Hsecond, Hfirst.
  repeat split; reflexivity.
Qed.

Lemma same_millisecond_shipments_share_an_id_witness :
  Obj.get "id" SampleShipment.plain = None
  /\ deleteShipment "1736942400123"
       (snd (createShipment SampleShipment.plain SampleShipment.clock
               (snd (createShipment SampleShipment.plain SampleShipment.clock
                       (initialStore 0)))))
     = (true, snd (createShipment SampleShipment.plain SampleShipment.clock (initialStore 0)))
  /\ fst (getShipment "1736942400123"
            (snd (createShipment SampleShipment.plain SampleShipment.clock (initialStore 0))))
     = Some (newShipment SampleShipment.plain SampleShipment.clock).
Proof.
  split; [reflexivity|].
  destruct (same_millisecond_shipments_share_an_id SampleShipment.plain SampleShipment.plain
              SampleShipment.clock SampleShipment.clock (initialStore 0)
              eq_refl eq_refl eq_refl) as (_ & _ & _ & H4 & H5).
  split; [exact H4 | exact H5].
Defined.

(** X24.  [updateShipment] on a shipment that is found replaces it, in its
    place, by the shipment with the properties of the request laid over
    its own and [updatedAt] set to the clock, and returns the new one; the
    other shipments stay.  The request can change any property, the id
    included; when it leaves the id alone the new shipment is the one found
    under the id afterwards. *)
Theorem updateShipment_overlays_the_request
        (id : string) (updates : Object) (now : Z) (store : Store) (old : Object) :
  fst (getShipment id store) = Some old ->
  Obj.wf old -> Obj.wf updates ->
  exists updated front back,
    store = front ++ old :: back
    /\ updateShipment id updates now store = (Some updated, front ++ updated :: back)
    /\ Obj.get "updatedAt" updated = Some (Value.Date now)
    /\ (forall k, k <> "updatedAt" ->
                  Obj.get k updated = match Obj.get k updates with
                                      | Some v => Some v
                                      | None => Obj.get k old
                                      end)
    /\ (Obj.get "id" updates = None ->
        fst (getShipment id (front ++ updated :: back)) = Some updated).
Proof.
  cbn [getShipment fst]. intros Hfound Hold Hupdates.
  unfold updateShipment.
  destruct (findIndex (idIs id) store) as [index|] eqn:E.
  2:{ apply findIndex_None in E. congruence. }
  destruct (findIndex_split _ _ _ E)
    as (front & found & back & Hl & _ & Hp & Hbefore & Hfind & Hnth & _ & Hassign).
  assert (found = old) by congruence. subst found.
  rewrite Hnth. cbv zeta.
  destruct (Hassign (updatedShipment old updates now)) as [Hstore Hget].
  rewrite Hget, Hstore.
  exists (updatedShipment old updates now), front, back.
  split; [exact Hl|]. split; [reflexivity|].
  assert (Hprops : forall k, k <> "updatedAt" ->
                             Obj.get k (updatedShipment old updates now)
                             = match Obj.get k updates with
                               | Some v => Some v
                               | None => Obj.get k old
                               end).
  { intros k Hk. unfold updatedShipment.
    rewrite get_set_other by congruence.
    rewrite get_spread by exact Hupdates. rewrite get_copy by exact Hold. reflexivity. }
  split; [apply get_set_same|].
  split; [exact Hprops|].
  intros Hid. rewrite (find_app_skip _ _ _ Hbefore). cbn [find].
  assert (Hsame : idIs id (updatedShipment old updates now) = true).
  { unfold idIs. rewrite Hprops by discriminate. rewrite Hid. exact Hp. }
  rewrite Hsame. reflexivity.
Qed.

Lemma updateShipment_overlays_the_request_witness :
  fst (getShipment "2" (initialStore 0)) = Some (nth 1 (initialStore 0) [])
  /\ exists updated front back,
       initialStore 0 = front ++ nth 1 (initialStore 0) [] :: back
       /\ updateShipment "2" [("status", Value.Str "delivered")] 9 (initialStore 0)
          = (Some updated, front ++ updated :: back)
       /\ Obj.get "updatedAt" updated = Some (Value.Date 9).
Proof.
  split; [reflexivity|].
  destruct (updateShipment_overlays_the_request "2" [("status", Value.Str "delivered")] 9
              (initialStore 0) (nth 1 (initialStore 0) []))
    as (updated & front & back & H1 & H2 & H3 & _).
  - reflexivity.
  - unfold Obj.wf. simpl. repeat constructor; simpl; intuition discriminate.
  - unfold Obj.wf. simpl. repeat constructor; simpl; intuition discriminate.
  - exists updated, front, back. split; [exact H1|]. split; [exact H2 | exact H3].
Defined.

(** ** Orders and reserved stock *)

Lemma isItem_moved (x y : string) (delta : Z) (i : Item.t) :
  isItem x (moved delta y i) = isItem x i.
Proof. unfold moved. destruct (isItem y i); reflexivity. Qed.

Lemma moved_back (delta : Z) (x : string) (i : Item.t) :
  moved (- delta) x (moved delta x i) = i.
Proof.
  unfold moved at 1. rewrite isItem_moved. unfold moved.
  destruct (isItem x i); [|reflexivity].
  destruct i as [id sku name current reserved status]. unfold Item.withReserved.
  cbn [Item.id Item.sku Item.productName Item.currentStock Item.reservedStock Item.status].
  f_equal. lia.
Qed.

Lemma reserve_ok (delta : Z) (itemId : string) (wh wh' : Warehouse) :
  reserve delta itemId wh = (inr tt, wh') ->
  wh' = setItems (map (moved delta itemId) (items wh)) wh.
Proof.
  unfold reserve.
  destruct (forallb (fun i => int4 (Item.reservedStock i + delta))
                    (filter (isItem itemId) (items wh))); [|discriminate].
  intros [= <-]. reflexivity.
Qed.

Lemma reserve_cases (delta : Z) (itemId : string) (wh : Warehouse) :
  reserve delta itemId wh = (inr tt, setItems (map (moved delta itemId) (items wh)) wh)
  \/ reserve delta itemId wh = (inl OutOfRange, wh).
Proof.
  unfold reserve.
  destruct (forallb (fun i => int4 (Item.reservedStock i + delta))
                    (filter (isItem itemId) (items wh))); [left | right]; reflexivity.
Qed.

Lemma warehouse_eta (wh : Warehouse) :
  mkWarehouse (items wh) (orders wh) (orderItems wh) (itemTransactions wh)
              (orderActivities wh) (shipments wh) = wh.
Proof. destruct wh. reflexivity. Qed.

Lemma existsb_false_filter {A : Type} (p : A -> bool) (l : list A) :
  existsb p l = false -> filter p l = [] /\ filter (fun a => negb (p a)) l = l.
Proof.
  induction l as [|a l IH]; cbn [existsb filter]; [split; reflexivity|].
  destruct (p a); cbn [orb negb]; [discriminate|].
  intros H. destruct (IH H) as [H1 H2]. split; [exact H1 | f_equal; exact H2].
Qed.

Lemma filter_nil_existsb {A : Type} (p : A -> bool) (l : list A) :
  filter p l = [] -> existsb p l = false.
Proof.
  induction l as [|a l IH]; cbn [existsb filter]; [reflexivity|].
  destruct (p a); [discriminate | exact IH].
Qed.

Lemma sumZ_app (a b : list Z) : sumZ (a ++ b) = sumZ a + sumZ b.
Proof.
  induction a as [|q a IH]; [reflexivity|].
  change (q + sumZ (a ++ b) = q + sumZ a + sumZ b). rewrite IH. lia.
Qed.

Lemma totalOrdered_app (x : string) (l l' : list OrderItem.t) :
  totalOrdered x (l ++ l') = totalOrdered x l + totalOrdered x l'.
Proof. unfold totalOrdered. rewrite filter_app, map_app. apply sumZ_app. Qed.

Lemma totalOrdered_cons (x : string) (line : OrderItem.t) (l : list OrderItem.t) :
  totalOrdered x (line :: l)
  = (if lineOfItem x line then OrderItem.quantity line else 0) + totalOrdered x l.
Proof.
  unfold totalOrdered. cbn [filter]. destruct (lineOfItem x line); reflexivity.
Qed.

Lemma In_moved (delta : Z) (x : string) (rows : list Item.t) (i' : Item.t) :
  In i' (map (moved delta x) rows) ->
  exists i, In i rows /\ Item.id i' = Item.id i
            /\ Item.reservedStock i'
               = Item.reservedStock i + (if String.eqb (Item.id i) x then delta else 0)
            /\ Item.currentStock i' = Item.currentStock i.
Proof.
  intros H. apply in_map_iff in H. destruct H as (i & <- & Hin).
  exists i. split; [exact Hin|]. unfold moved, isItem.
  destruct (String.eqb (Item.id i) x);
    cbn [Item.withReserved Item.id Item.reservedStock Item.currentStock];
    repeat split; try reflexivity; lia.
Qed.

(** A successful [addOrderItem], spelled out. *)
Lemma addOrderItem_ok (orderItem : InsertOrderItem.t) (gen : Generated)
      (wh wh' : Warehouse) (line : OrderItem.t) :
  addOrderItem orderItem gen wh = (inr line, wh') ->
  line = OrderItem.mk (uuid gen) (InsertOrderItem.orderId orderItem)
           (InsertOrderItem.itemId orderItem) (InsertOrderItem.quantity orderItem)
           (Some (allocatedNow gen))
  /\ existsb (isLine (uuid gen)) (orderItems wh) = false
  /\ existsb (isItem (InsertOrderItem.itemId orderItem)) (items wh) = true
  /\ existsb (isOrder (InsertOrderItem.orderId orderItem)) (orders wh) = true
  /\ wh' = setItems (map (moved (InsertOrderItem.quantity orderItem)
                                (InsertOrderItem.itemId orderItem)) (items wh))
                    (setOrderItems (orderItems wh ++ [line]) wh).
Proof.
  unfold addOrderItem.
  destruct (negb (int4 (InsertOrderItem.quantity orderItem))); [discriminate|].
  destruct (existsb (isLine (uuid gen)) (orderItems wh)) eqn:Efresh; [discriminate|].
  destruct (existsb (isOrder (InsertOrderItem.orderId orderItem)) (orders wh)) eqn:Eorder;
    cbn [andb negb]; [|discriminate].
  destruct (existsb (isItem (InsertOrderItem.itemId orderItem)) (items wh)) eqn:Eitem;
    cbn [negb]; [|discriminate].
  match goal with
  | |- context [reserve ?d ?x ?w] => destruct (reserve_cases d x w) as [Hr | Hr]; rewrite Hr
  end; [|discriminate].
  intros [= <- <-]. repeat split; reflexivity.
Qed.

(** X25.  A successful [addOrderItem] stores one more order line, with the
    generated identifier and the order, item and quantity of the request,
    and raises the reserved stock of that item by the quantity; the current
    stock, the other items and the other tables stay, and when the reserved
    stock of every item was the quantity its order lines hold, it is so
    afterwards. *)
Theorem addOrderItem_reserves_the_quantity
        (orderItem : InsertOrderItem.t) (gen : Generated) (wh wh' : Warehouse)
        (line : OrderItem.t) :
  addOrderItem orderItem gen wh = (inr line, wh') ->
  orderItems wh' = orderItems wh ++ [line]
  /\ (OrderItem.id line, OrderItem.orderId line, OrderItem.itemId line, OrderItem.quantity line)
     = (uuid gen, InsertOrderItem.orderId orderItem, InsertOrderItem.itemId orderItem,
        InsertOrderItem.quantity orderItem)
  /\ items wh' = map (moved (InsertOrderItem.quantity orderItem)
                            (InsertOrderItem.itemId orderItem)) (items wh)
  /\ (forall x, totalOrdered x (orderItems wh')
                = totalOrdered x (orderItems wh)
                  + (if String.eqb (InsertOrderItem.itemId orderItem) x
                     then InsertOrderItem.quantity orderItem else 0))
  /\ (orders wh', itemTransactions wh', orderActivities wh', shipments wh')
     = (orders wh, itemTransactions wh, orderActivities wh, shipments wh)
  /\ (linesDistinct wh -> linesDistinct wh')
  /\ (reservedMatches wh -> reservedMatches wh').
Proof.
  intros H. destruct (addOrderItem_ok _ _ _ _ _ H) as (Hline & Hfresh & _ & _ & ->).
  cbn [setItems setOrderItems orderItems items orders itemTransactions orderActivities shipments].
  assert (Htotal : forall x, totalOrdered x (orderItems wh ++ [line])
                             = totalOrdered x (orderItems wh)
                               + (if String.eqb (InsertOrderItem.itemId orderItem) x
                                  then InsertOrderItem.quantity orderItem else 0)).
  { intros x. rewrite totalOrdered_app, totalOrdered_cons. unfold lineOfItem.
    rewrite Hline. cbn [OrderItem.itemId OrderItem.quantity totalOrdered filter map sumZ fold_right].
    destruct (String.eqb (InsertOrderItem.itemId orderItem) x); lia. }
  split; [reflexivity|].
  split; [rewrite Hline; reflexivity|].
  split; [reflexivity|].
  split; [exact Htotal|].
  split; [reflexivity|].
  split.
  - unfold linesDistinct. intros Hnodup. cbn [setItems setOrderItems orderItems].
    rewrite map_app. cbn [map].
    apply NoDup_snoc; [exact Hnodup|].
    intros Hin. apply in_map_iff in Hin. destruct Hin as (l & Hid & Hin).
    assert (Ht : existsb (isLine (uuid gen)) (orderItems wh) = true).
    { apply existsb_exists. exists l. split; [exact Hin|]. unfold isLine.
      rewrite Hid, Hline. apply String.eqb_refl. }
    congruence.
  - unfold reservedMatches. cbn [setItems setOrderItems items orderItems]. intros Hmatch i' Hin.
    destruct (In_moved _ _ _ _ Hin) as (i & Hi & Hid & Hres & _).
    rewrite Hres, Hid, Htotal, (Hmatch i Hi).
    rewrite (String.eqb_sym (Item.id i)). reflexivity.
Qed.

Lemma addOrderItem_reserves_the_quantity_witness :
  exists line wh',
    addOrderItem (InsertOrderItem.mk "o2" "i1" 7) SampleWarehouse.gen SampleWarehouse.wh
    = (inr line, wh')
    /\ orderItems wh' = orderItems SampleWarehouse.wh ++ [line]
    /\ items wh' = map (moved 7 "i1") (items SampleWarehouse.wh).
Proof.
  eexists. eexists. split; [reflexivity|].
  split; apply (addOrderItem_reserves_the_quantity (InsertOrderItem.mk "o2" "i1" 7)
                  SampleWarehouse.gen SampleWarehouse.wh _ _ eq_refl).
Defined.

Lemma map_moved_back (delta : Z) (x : string) (rows : list Item.t) :
  map (moved (- delta) x) (map (moved delta x) rows) = rows.
Proof.
  rewrite map_map. rewrite <- (map_id rows) at 2. apply map_ext. intros i. apply moved_back.
Qed.

(** X26.  [addOrderItem] and then [removeOrderItem] of the line it returned
    leave the warehouse exactly as it was: the line is gone and the
    reserved stock is back. *)
Theorem addOrderItem_then_removeOrderItem
        (orderItem : InsertOrderItem.t) (gen : Generated) (wh wh' : Warehouse)
        (line : OrderItem.t) :
  stockTyped wh ->
  addOrderItem orderItem gen wh = (inr line, wh') ->
  removeOrderItem (OrderItem.id line) wh' = (inr true, wh).
Proof.
  intros Htyped H. destruct (addOrderItem_ok _ _ _ _ _ H) as (Hline & Hfresh & _ & _ & ->).
  destruct (existsb_false_filter _ _ Hfresh) as [Hnone Hall].
  assert (Hid : OrderItem.id line = uuid gen) by (rewrite Hline; reflexivity).
  assert (Hself : isLine (uuid gen) line = true).
  { unfold isLine. rewrite Hid. apply String.eqb_refl. }
  unfold removeOrderItem. rewrite Hid.
  cbn [setItems setOrderItems orderItems].
  rewrite filter_app, Hnone. cbn [filter app]. rewrite Hself. cbn [hd_error].
  assert (Hq : OrderItem.quantity line = InsertOrderItem.quantity orderItem)
    by (rewrite Hline; reflexivity).
  assert (Hx : OrderItem.itemId line = InsertOrderItem.itemId orderItem)
    by (rewrite Hline; reflexivity).
  rewrite Hq, Hx.
  unfold reserve. cbn [setItems setOrderItems items].
  assert (Hrange : forallb (fun i => int4 (Item.reservedStock i
                                           + - InsertOrderItem.quantity orderItem))
                     (filter (isItem (InsertOrderItem.itemId orderItem))
                             (map (moved (InsertOrderItem.quantity orderItem)
                                         (InsertOrderItem.itemId orderItem)) (items wh)))
                   = true).
  { apply forallb_forall. intros i' Hin. apply filter_In in Hin. destruct Hin as [Hin Hsel].
    apply in_map_iff in Hin. destruct Hin as (i0 & <- & Hi0).
    rewrite isItem_moved in Hsel. unfold moved. rewrite Hsel.
    cbn [Item.withReserved Item.reservedStock].
    replace (Item.reservedStock i0 + InsertOrderItem.quantity orderItem
             + - InsertOrderItem.quantity orderItem) with (Item.reservedStock i0) by lia.
    unfold stockTyped in Htyped. rewrite Forall_forall in Htyped. apply Htyped, Hi0. }
  rewrite Hrange.
  cbn [setItems setOrderItems items orderItems orders itemTransactions orderActivities shipments].
  rewrite map_moved_back, !filter_app, Hall, Hnone. cbn [filter app]. rewrite Hself.
  cbn [negb List.length app]. rewrite app_nil_r. destruct wh. reflexivity.
Qed.

Lemma addOrderItem_then_removeOrderItem_witness :
  stockTyped SampleWarehouse.wh
  /\ exists line wh',
       addOrderItem (InsertOrderItem.mk "o2" "i1" 7) SampleWarehouse.gen SampleWarehouse.wh
       = (inr line, wh')
       /\ removeOrderItem (OrderItem.id line) wh' = (inr true, SampleWarehouse.wh).
Proof.
  assert (Htyped : stockTyped SampleWarehouse.wh) by (repeat constructor).
  split; [exact Htyped|].
  eexists. eexists.
  refine ((fun H => conj H (addOrderItem_then_removeOrderItem _ _ _ _ _ Htyped H)) _).
  reflexivity.
Defined.

Lemma distinct_line (id : string) (lines : list OrderItem.t) (line : OrderItem.t) :
  NoDup (map OrderItem.id lines) -> In line lines -> OrderItem.id line = id ->
  filter (isLine id) lines = [line]
  /\ forall x, totalOrdered x (filter (fun l => negb (isLine id l)) lines)
               = totalOrdered x lines
                 - (if lineOfItem x line then OrderItem.quantity line else 0).
Proof.
  intros Hnodup Hin Hid. induction lines as [|l lines IH]; [destruct Hin|].
  cbn [map] in Hnodup. inversion Hnodup as [|? ? Hnot Hrest]; subst.
  cbn [filter]. destruct Hin as [-> | Hin].
  - assert (Hself : isLine (OrderItem.id line) line = true)
      by (unfold isLine; apply String.eqb_refl).
    rewrite !Hself. cbn [negb].
    assert (Hnone : forall l, In l lines -> isLine (OrderItem.id line) l = false).
    { intros l Hl. unfold isLine. apply String.eqb_neq. intros E. apply Hnot.
      rewrite <- E. apply in_map, Hl. }
    rewrite (filter_none _ _ Hnone). split; [reflexivity|].
    intros x. rewrite totalOrdered_cons.
    assert (Hall : filter (fun l => negb (isLine (OrderItem.id line) l)) lines = lines).
    { clear - Hnone. induction lines as [|l lines IH]; [reflexivity|].
      cbn [filter]. rewrite (Hnone l (or_introl eq_refl)). cbn [negb]. f_equal.
      apply IH. intros l' Hl'. apply Hnone. right. exact Hl'. }
    rewrite Hall. lia.
  - destruct (IH Hrest Hin) as [Hone Htotal].
    assert (Hl : isLine (OrderItem.id line) l = false).
    { unfold isLine. apply String.eqb_neq. intros E. apply Hnot. rewrite E.
      apply in_map, Hin. }
    rewrite Hl. cbn [negb]. split; [exact Hone|].
    intros x. rewrite !totalOrdered_cons, Htotal. lia.
Qed.

(** X27.  With distinct line identifiers, a successful [removeOrderItem]
    answers [true], deletes that one line and lowers the reserved stock of
    its item by its quantity; the other tables stay, and when the reserved
    stock of every item was the quantity its order lines hold, it is so
    afterwards. *)
Theorem removeOrderItem_releases_the_quantity
        (id : string) (wh wh' : Warehouse) (line : OrderItem.t) (answer : bool) :
  linesDistinct wh ->
  In line (orderItems wh) -> OrderItem.id line = id ->
  removeOrderItem id wh = (inr answer, wh') ->
  answer = true
  /\ orderItems wh' = filter (fun l => negb (isLine id l)) (orderItems wh)
  /\ ~ In line (orderItems wh')
  /\ items wh' = map (moved (- OrderItem.quantity line) (OrderItem.itemId line)) (items wh)
  /\ (forall x, totalOrdered x (orderItems wh')
                = totalOrdered x (orderItems wh)
                  - (if String.eqb (OrderItem.itemId line) x
                     then OrderItem.quantity line else 0))
  /\ (orders wh', itemTransactions wh', orderActivities wh', shipments wh')
     = (orders wh, itemTransactions wh, orderActivities wh, shipments wh)
  /\ (reservedMatches wh -> reservedMatches wh').
Proof.
  intros Hnodup Hin Hid. destruct (distinct_line id _ _ Hnodup Hin Hid) as [Hone Htotal].
  unfold removeOrderItem. rewrite Hone. cbn [hd_error].
  destruct (reserve_cases (- OrderItem.quantity line) (OrderItem.itemId line) wh) as [Hr | Hr];
    rewrite Hr; [|discriminate].
  cbn [setItems setOrderItems items orderItems]. rewrite Hone.
  intros [= <- <-].
  cbn [setItems setOrderItems items orderItems orders itemTransactions orderActivities shipments].
  split; [reflexivity|]. split; [reflexivity|].
  split.
  { intros Hmem. apply filter_In in Hmem. destruct Hmem as [_ Hmem].
    unfold isLine in Hmem. rewrite Hid, String.eqb_refl in Hmem. discriminate. }
  split; [reflexivity|].
  split; [exact Htotal|].
  split; [reflexivity|].
  unfold reservedMatches.
  cbn [setItems setOrderItems items orderItems]. intros Hmatch i' Hi'.
  destruct (In_moved _ _ _ _ Hi') as (i & Hi & Hsame & Hres & _).
  rewrite Hres, Hsame, Htotal, (Hmatch i Hi). unfold lineOfItem.
  rewrite (String.eqb_sym (Item.id i)).
  destruct (String.eqb (OrderItem.itemId line) (Item.id i)); lia.
Qed.

Lemma removeOrderItem_releases_the_quantity_witness :
  linesDistinct SampleWarehouse.wh
  /\ exists wh',
       removeOrderItem "l1" SampleWarehouse.wh = (inr true, wh')
       /\ orderItems wh' = filter (fun l => negb (isLine "l1" l)) (orderItems SampleWarehouse.wh)
       /\ items wh'
          = map (moved (- OrderItem.quantity (OrderItem.mk "l1" "o1" "i1" 5 (Some 0)))
                       (OrderItem.itemId (OrderItem.mk "l1" "o1" "i1" 5 (Some 0))))
                (items SampleWarehouse.wh).
Proof.
  assert (Hnodup : linesDistinct SampleWarehouse.wh).
  { unfold linesDistinct. simpl. repeat constructor. intros []. }
  split; [exact Hnodup|].
  eexists. split; [reflexivity|].
  destruct (removeOrderItem_releases_the_quantity "l1" SampleWarehouse.wh _
              (OrderItem.mk "l1" "o1" "i1" 5 (Some 0)) true Hnodup
              (or_introl eq_refl) eq_refl eq_refl) as (_ & H2 & _ & H4 & _).
  split; [exact H2 | exact H4].
Defined.

(** ** Deleting an order *)

Lemma released_moved (line : OrderItem.t) (rest : list OrderItem.t) (i : Item.t) :
  released rest (moved (- OrderItem.quantity line) (OrderItem.itemId line) i)
  = released (line :: rest) i.
Proof.
  unfold released, moved, isItem. rewrite totalOrdered_cons. unfold lineOfItem.
  rewrite (String.eqb_sym (OrderItem.itemId line)).
  destruct i as [id sku name current reserved status].
  cbn [Item.id Item.reservedStock].
  destruct (String.eqb id (OrderItem.itemId line));
    unfold Item.withReserved;
    cbn [Item.id Item.sku Item.productName Item.currentStock Item.reservedStock Item.status];
    f_equal; lia.
Qed.

Lemma released_nothing (i : Item.t) : released [] i = i.
Proof.
  destruct i as [id sku name current reserved status]. unfold released, Item.withReserved.
  cbn. f_equal. lia.
Qed.

Lemma restoreReserved_ok (lines : list OrderItem.t) (wh wh' : Warehouse) :
  restoreReserved lines wh = (inr tt, wh') ->
  wh' = setItems (map (released lines) (items wh)) wh.
Proof.
  revert wh. induction lines as [|line rest IH]; intros wh; cbn [restoreReserved].
  - intros [= <-]. unfold setItems.
    rewrite (map_ext _ (fun i => i) released_nothing), map_id. symmetry. apply warehouse_eta.
  - destruct (reserve_cases (- OrderItem.quantity line) (OrderItem.itemId line) wh) as [Hr | Hr];
      rewrite Hr; [|discriminate].
    intros H. apply IH in H. rewrite H. unfold setItems.
    cbn [items orders orderItems itemTransactions orderActivities shipments].
    rewrite map_map. rewrite (map_ext _ _ (released_moved line rest)). reflexivity.
Qed.

Lemma restoreReserved_fails (lines : list OrderItem.t) (wh wh' : Warehouse) (e : Error) :
  restoreReserved lines wh = (inl e, wh') ->
  (orders wh', orderItems wh', itemTransactions wh', orderActivities wh', shipments wh')
  = (orders wh, orderItems wh, itemTransactions wh, orderActivities wh, shipments wh).
Proof.
  revert wh. induction lines as [|line rest IH]; intros wh; cbn [restoreReserved];
    [discriminate|].
  destruct (reserve_cases (- OrderItem.quantity line) (OrderItem.itemId line) wh) as [Hr | Hr];
    rewrite Hr.
  - intros H. apply IH in H. exact H.
  - intros [= <- <-]. reflexivity.
Qed.

Lemma totalOrdered_partition (x : string) (p : OrderItem.t -> bool) (lines : list OrderItem.t) :
  totalOrdered x lines
  = totalOrdered x (filter p lines) + totalOrdered x (filter (fun l => negb (p l)) lines).
Proof.
  induction lines as [|l lines IH]; [reflexivity|].
  cbn [filter]. destruct (p l); cbn [negb]; rewrite !totalOrdered_cons, IH; lia.
Qed.

(** X28.  A [deleteOrder] that succeeds answers [true] and removes the order
    with its lines, its item transactions and its activities, and nothing
    else; the reserved stock of every item is lowered by what the lines of
    that order held of it, and when the reserved stock of every item was
    the quantity its order lines hold, it is so afterwards. *)
Theorem deleteOrder_releases_the_order (id : string) (wh wh' : Warehouse) (answer : bool) :
  deleteOrder id wh = (inr answer, wh') ->
  (exists o, In o (orders wh) /\ Order.id o = id) ->
  answer = true
  /\ orders wh' = filter (fun o => negb (isOrder id o)) (orders wh)
  /\ orderItems wh' = filter (fun l => negb (lineOfOrder id l)) (orderItems wh)
  /\ itemTransactions wh'
     = filter (fun t => negb (refersTo id (ItemTransaction.orderId t))) (itemTransactions wh)
  /\ orderActivities wh'
     = filter (fun a => negb (String.eqb (OrderActivity.orderId a) id)) (orderActivities wh)
  /\ shipments wh' = shipments wh
  /\ items wh' = map (released (filter (lineOfOrder id) (orderItems wh))) (items wh)
  /\ (reservedMatches wh -> reservedMatches wh').
Proof.
  intros H (o & Ho & Hoid). unfold deleteOrder in H.
  assert (Hrows : In o (filter (isOrder id) (orders wh))).
  { apply filter_In. split; [exact Ho|]. unfold isOrder. rewrite Hoid. apply String.eqb_refl. }
  destruct (filter (isOrder id) (orders wh)) as [|existingOrder others] eqn:Efound;
    [destruct Hrows|].
  cbn [hd_error] in H. cbv zeta in H. tables.
  match type of H with
  | context [restoreReserved ?lines ?w] =>
      destruct (restoreReserved lines w) as [[e | []] wh3] eqn:Erestore
  end; [discriminate|].
  apply restoreReserved_ok in Erestore. subst wh3. tables.
  destruct (existsb (fun s => refersTo id (ShipmentRow.orderId s)) (shipments wh));
    [discriminate|].
  rewrite Efound in H. injection H as <- <-. tables.
  repeat (split; [reflexivity|]).
  unfold reservedMatches. tables. intros Hmatch i' Hi'.
  apply in_map_iff in Hi'. destruct Hi' as (i & <- & Hi).
  unfold released. cbn [Item.withReserved Item.reservedStock Item.id].
  rewrite (Hmatch i Hi).
  rewrite (totalOrdered_partition (Item.id i) (lineOfOrder id) (orderItems wh)). lia.
Qed.

Lemma deleteOrder_releases_the_order_witness :
  exists wh',
    deleteOrder "o1" SampleWarehouse.wh = (inr true, wh')
    /\ orders wh' = filter (fun o => negb (isOrder "o1" o)) (orders SampleWarehouse.wh)
    /\ orderItems wh'
       = filter (fun l => negb (lineOfOrder "o1" l)) (orderItems SampleWarehouse.wh).
Proof.
  eexists. split; [reflexivity|].
  destruct (deleteOrder_releases_the_order "o1" SampleWarehouse.wh _ true eq_refl)
    as (_ & H2 & H3 & _).
  - eexists. split; [left; reflexivity | reflexivity].
  - split; [exact H2 | exact H3].
Defined.

(** X29.  [deleteOrder] is not undone when it fails: for an order that a row
    of [shipments] refers to the call is always rejected and the order
    stays, but its item transactions and its activities have been deleted
    all the same. *)
Theorem deleteOrder_refused_after_deleting
        (id : string) (wh : Warehouse) (o : Order.t) (s : ShipmentRow.t) :
  In o (orders wh) -> Order.id o = id ->
  In s (shipments wh) -> ShipmentRow.orderId s = Some id ->
  exists err wh',
    deleteOrder id wh = (inl err, wh')
    /\ orders wh' = orders wh
    /\ itemTransactions wh'
       = filter (fun t => negb (refersTo id (ItemTransaction.orderId t))) (itemTransactions wh)
    /\ orderActivities wh'
       = filter (fun a => negb (String.eqb (OrderActivity.orderId a) id)) (orderActivities wh).
Proof.
  intros Ho Hoid Hs Hsid. unfold deleteOrder.
  assert (Hrows : In o (filter (isOrder id) (orders wh))).
  { apply filter_In. split; [exact Ho|]. unfold isOrder. rewrite Hoid. apply String.eqb_refl. }
  destruct (filter (isOrder id) (orders wh)) as [|existingOrder others] eqn:Efound;
    [destruct Hrows|].
  cbn [hd_error]. cbv zeta. tables.
  match goal with
  | |- context [restoreReserved ?lines ?w] =>
      destruct (restoreReserved lines w) as [[e | []] wh3] eqn:Erestore
  end.
  - apply restoreReserved_fails in Erestore. tables.
    injection Erestore as H1 H2 H3 H4 H5.
    exists e, wh3. split; [reflexivity|]. repeat split; assumption.
  - apply restoreReserved_ok in Erestore. subst wh3. tables.
    assert (Href : existsb (fun s => refersTo id (ShipmentRow.orderId s)) (shipments wh) = true).
    { apply existsb_exists. exists s. split; [exact Hs|]. rewrite Hsid. apply String.eqb_refl. }
    rewrite Href. do 2 eexists. split; [reflexivity|]. repeat split; reflexivity.
Qed.

Lemma deleteOrder_refused_after_deleting_witness :
  exists err wh',
    deleteOrder "o1" (mkWarehouse (items SampleWarehouse.wh) (orders SampleWarehouse.wh)
                        (orderItems SampleWarehouse.wh) (itemTransactions SampleWarehouse.wh)
                        (orderActivities SampleWarehouse.wh)
                        [ShipmentRow.mk "s1" (Some "o1")])
    = (inl err, wh')
    /\ orders wh' = orders SampleWarehouse.wh
    /\ itemTransactions wh' = []
    /\ orderActivities wh' = [].
Proof.
  destruct (deleteOrder_refused_after_deleting "o1"
              (mkWarehouse (items SampleWarehouse.wh) (orders SampleWarehouse.wh)
                 (orderItems SampleWarehouse.wh) (itemTransactions SampleWarehouse.wh)
                 (orderActivities SampleWarehouse.wh) [ShipmentRow.mk "s1" (Some "o1")])
              (Order.mk "o1" "ORD-2025-000001" "ACME" "pending")
              (ShipmentRow.mk "s1" (Some "o1")))
    as (err & wh' & H1 & H2 & H3 & H4);
    [left; reflexivity | reflexivity | left; reflexivity | reflexivity |].
  exists err, wh'. split; [exact H1|]. split; [exact H2|]. split; [exact H3 | exact H4].
Defined.

(** X30.  What [getItems] reports as available: when the reserved stock of
    every item is the quantity its order lines hold, the available stock of
    an item is its current stock less that quantity, and a successful
    [addOrderItem] lowers the available stock of its item by the quantity
    of the line and of no other item. *)
Theorem getItems_available_after_addOrderItem
        (orderItem : InsertOrderItem.t) (gen : Generated) (wh wh' : Warehouse)
        (line : OrderItem.t) :
  reservedMatches wh ->
  addOrderItem orderItem gen wh = (inr line, wh') ->
  fst (getItems wh)
  = inr (map (fun i => ItemWithStatus.mk i
                         (Item.currentStock i - totalOrdered (Item.id i) (orderItems wh)))
             (items wh))
  /\ map ItemWithStatus.availableStock
         match fst (getItems wh') with inr rows => rows | inl _ => [] end
     = map (fun row =>
              ItemWithStatus.availableStock row
              - (if isItem (InsertOrderItem.itemId orderItem) (ItemWithStatus.item row)
                 then InsertOrderItem.quantity orderItem else 0))
           match fst (getItems wh) with inr rows => rows | inl _ => [] end.
Proof.
  intros Hmatch H. destruct (addOrderItem_ok _ _ _ _ _ H) as (_ & _ & _ & _ & ->).
  unfold getItems. cbn [fst setItems setOrderItems items]. split.
  - f_equal. apply map_ext_in. intros i Hi. rewrite (Hmatch i Hi). reflexivity.
  - rewrite !map_map. apply map_ext. intros i.
    cbn [ItemWithStatus.availableStock ItemWithStatus.item]. unfold moved.
    destruct (isItem (InsertOrderItem.itemId orderItem) i);
      cbn [Item.withReserved Item.currentStock Item.reservedStock]; lia.
Qed.

Lemma getItems_available_after_addOrderItem_witness :
  reservedMatches SampleWarehouse.wh
  /\ exists line wh',
       addOrderItem (InsertOrderItem.mk "o2" "i1" 7) SampleWarehouse.gen SampleWarehouse.wh
       = (inr line, wh')
       /\ map ItemWithStatus.availableStock
               match fst (getItems wh') with inr rows => rows | inl _ => [] end
          = map (fun row =>
                   ItemWithStatus.availableStock row
                   - (if isItem (InsertOrderItem.itemId (InsertOrderItem.mk "o2" "i1" 7))
                                (ItemWithStatus.item row)
                      then InsertOrderItem.quantity (InsertOrderItem.mk "o2" "i1" 7) else 0))
                match fst (getItems SampleWarehouse.wh) with inr rows => rows | inl _ => [] end.
Proof.
  assert (Hmatch : reservedMatches SampleWarehouse.wh).
  { intros i [<- | [<- | []]]; reflexivity. }
  split; [exact Hmatch|].
  eexists. eexists. split; [reflexivity|].
  apply (getItems_available_after_addOrderItem (InsertOrderItem.mk "o2" "i1" 7)
           SampleWarehouse.gen SampleWarehouse.wh _ _ Hmatch eq_refl).
Defined.
